(** * Hardware-diff and sensor-validation engine of stage_2_MB

    A shallow embedding of [hw_diff_module.py] and [sensor_validator.py]:
    the status escalator, the six component comparators, the five sensor
    category validators and the validation aggregator, followed by the
    properties of the engine.

    Conventions of the embedding.
    - Python [str] values are [string]s (byte strings); the case, whitespace
      and digit classes are the ASCII ones.
    - A Python [dict] is an insertion-ordered association list with unique
      keys ([PyDict]); [d.get(k, default)] is [dict_get_or].
    - A JSON object read with [.get] becomes a record whose fields are
      [option]s ([None] = key absent).
    - A Python exception is a value of [exn]; code that can raise returns
      [result A].
    - The iteration order of a Python [set] is not fixed by the language:
      every function that iterates a set takes the enumeration [set_iter]
      as an argument, constrained only to permute the members. *)

From Stdlib Require Import String Ascii List ZArith Lia Bool Arith.
From Stdlib Require Import Permutation Sorting.Sorted.
From Stdlib Require Import DecimalString DecimalNat.
Import ListNotations.

Open Scope string_scope.
Open Scope list_scope.

(** ** Python primitives *)

Module Py.

(** *** Exceptions *)

(** The exceptions of the modelled code, all of them subclasses of
    [Exception]: the four it can raise itself, and [OtherError] for what
    an external call (the sensor collection) may raise. *)
Inductive exn : Type :=
| NameError (name : string)
| KeyError (key : string)
| TypeError (msg : string)
| AttributeError (msg : string)
| OtherError (msg : string).

Inductive result (A : Type) : Type :=
| Ok (a : A)
| Raise (e : exn).
Arguments Ok {A} a.
Arguments Raise {A} e.

Definition bind {A B} (m : result A) (k : A -> result B) : result B :=
  match m with
  | Ok a => k a
  | Raise e => Raise e
  end.

(** [str(e)] for the message carried by an exception. *)
Definition exn_message (e : exn) : string :=
  match e with
  | NameError n => "name '" ++ n ++ "' is not defined"
  | KeyError k => "'" ++ k ++ "'"
  | TypeError m => m
  | AttributeError m => m
  | OtherError m => m
  end.

(** *** Characters *)

Definition is_upper (c : ascii) : bool :=
  let n := nat_of_ascii c in (65 <=? n)%nat && (n <=? 90)%nat.

Definition is_lower (c : ascii) : bool :=
  let n := nat_of_ascii c in (97 <=? n)%nat && (n <=? 122)%nat.

Definition is_digit (c : ascii) : bool :=
  let n := nat_of_ascii c in (48 <=? n)%nat && (n <=? 57)%nat.

(** [str.isspace] on ASCII: TAB, LF, VT, FF, CR, FS, GS, RS, US, space. *)
Definition is_space (c : ascii) : bool :=
  let n := nat_of_ascii c in
  ((9 <=? n)%nat && (n <=? 13)%nat)
  || ((28 <=? n)%nat && (n <=? 32)%nat).

Definition lower_char (c : ascii) : ascii :=
  if is_upper c then ascii_of_nat (nat_of_ascii c + 32) else c.

Definition upper_char (c : ascii) : ascii :=
  if is_lower c then ascii_of_nat (nat_of_ascii c - 32) else c.

Definition digit_val (c : ascii) : Z := Z.of_nat (nat_of_ascii c - 48).

(** *** Strings *)

Fixpoint map_string (f : ascii -> ascii) (s : string) : string :=
  match s with
  | EmptyString => EmptyString
  | String c s' => String (f c) (map_string f s')
  end.

(** [s.lower()] and [s.upper()]. *)
Definition lower (s : string) : string := map_string lower_char s.
Definition upper (s : string) : string := map_string upper_char s.

Fixpoint rev_string_acc (s acc : string) : string :=
  match s with
  | EmptyString => acc
  | String c s' => rev_string_acc s' (String c acc)
  end.

Definition rev_string (s : string) : string := rev_string_acc s "".

(** Removal of the leading, trailing or surrounding characters of a class. *)
Fixpoint lstrip_class (space : ascii -> bool) (s : string) : string :=
  match s with
  | EmptyString => EmptyString
  | String c s' => if space c then lstrip_class space s' else s
  end.

Definition rstrip_class (space : ascii -> bool) (s : string) : string :=
  rev_string (lstrip_class space (rev_string s)).

Definition strip_class (space : ascii -> bool) (s : string) : string :=
  rstrip_class space (lstrip_class space s).

(** [s.strip()]. *)
Definition strip (s : string) : string := strip_class is_space s.

(** The blanks that [int] and [float] skip around an ASCII literal: those
    of C's [isspace], without the separators FS, GS, RS and US. *)
Definition is_c_space (c : ascii) : bool :=
  let n := nat_of_ascii c in
  ((9 <=? n)%nat && (n <=? 13)%nat) || (n =? 32)%nat.

(** [s.startswith(p)]. *)
Definition startswith (s p : string) : bool := String.prefix p s.

(** [s.endswith(p)]. *)
Definition endswith (s p : string) : bool :=
  String.prefix (rev_string p) (rev_string s).

(** [sub in s]. *)
Fixpoint contains (sub s : string) : bool :=
  String.prefix sub s
  || match s with
     | EmptyString => false
     | String _ s' => contains sub s'
     end.

(** [any(k in s for k in keywords)]. *)
Definition any_in (keywords : list string) (s : string) : bool :=
  existsb (fun k => contains k s) keywords.

(** [s.replace(old, new)] for a non-empty [old]; [skip] counts the
    characters of a matched occurrence still to be dropped. *)
Fixpoint replace_from (old new s : string) (skip : nat) : string :=
  match s with
  | EmptyString => EmptyString
  | String c s' =>
      match skip with
      | S k => replace_from old new s' k
      | O =>
          if String.prefix old s
          then new ++ replace_from old new s' (String.length old - 1)
          else String c (replace_from old new s' 0)
      end
  end.

Definition replace (s old new : string) : string :=
  replace_from old new s 0.

(** [s.split(sep)[0]] for a non-empty [sep]: the text before the first
    occurrence of [sep], the whole string when there is none. *)
Fixpoint split_first (sep s : string) : string :=
  match s with
  | EmptyString => EmptyString
  | String c s' =>
      if String.prefix sep s then EmptyString
      else String c (split_first sep s')
  end.

Fixpoint all_chars (p : ascii -> bool) (s : string) : bool :=
  match s with
  | EmptyString => true
  | String c s' => p c && all_chars p s'
  end.

(** [s.isdigit()]. *)
Definition isdigit (s : string) : bool :=
  match s with
  | EmptyString => false
  | _ => all_chars is_digit s
  end.

(** Value of a run of decimal digits, most significant first. *)
Fixpoint digits_value (s : string) (acc : Z) : Z :=
  match s with
  | EmptyString => acc
  | String c s' => digits_value s' (10 * acc + digit_val c)
  end.

(** Digits with single underscores between them, as [int] and [float]
    accept: [d (_? d)*]. Returns the digits with the underscores removed. *)
Fixpoint digit_group (s : string) (prev_digit : bool) : option string :=
  match s with
  | EmptyString => if prev_digit then Some EmptyString else None
  | String c s' =>
      if is_digit c then
        option_map (String c) (digit_group s' true)
      else if Ascii.eqb c "_" then
        if prev_digit then
          match s' with
          | EmptyString => None
          | _ => digit_group s' false
          end
        else None
      else None
  end.

(** [sys.get_int_max_str_digits()] as CPython sets it: since 3.11 (and
    the security releases of 3.7 to 3.10) [int] refuses a decimal text
    with more digits. *)
Definition max_str_digits : nat := 4300.

(** [int(s)] in base 10: optional surrounding whitespace, optional sign,
    digits with optional single underscores, at most [max_str_digits]
    digits. [None] is [ValueError]. *)
Definition int_of_string (s : string) : option Z :=
  let body := strip_class is_c_space s in
  let '(neg, ds) :=
    match body with
    | String "-" r => (true, r)
    | String "+" r => (false, r)
    | _ => (false, body)
    end in
  match digit_group ds false with
  | Some d =>
      if (max_str_digits <? String.length d)%nat then None
      else let v := digits_value d 0 in Some (if neg then (- v)%Z else v)
  | None => None
  end.

(** The longest run of digits at the head of [s] and what follows it. *)
Fixpoint span_digits (s : string) : string * string :=
  match s with
  | EmptyString => (EmptyString, EmptyString)
  | String c s' =>
      if is_digit c
      then let '(d, r) := span_digits s' in (String c d, r)
      else (EmptyString, s)
  end.

(** [re.findall(r'\d+', s)[0]] when the list is not empty. *)
Fixpoint first_number (s : string) : option string :=
  match s with
  | EmptyString => None
  | String c s' =>
      if is_digit c then Some (fst (span_digits s)) else first_number s'
  end.

(** *** [float(s)], as far as comparisons with an integer need it *)

(** What [float] reads from a string: a NaN, an infinity, or the decimal
    number [m * 10^e] that is then rounded to the nearest double. *)
Inductive float_literal : Type :=
| FNan
| FInf (negative : bool)
| FDec (m e : Z).

(** [s] cut at the first character satisfying [p]. *)
Fixpoint cut_at (p : ascii -> bool) (s : string) : string * option string :=
  match s with
  | EmptyString => (EmptyString, None)
  | String c s' =>
      if p c then (EmptyString, Some s')
      else let '(a, b) := cut_at p s' in (String c a, b)
  end.

Definition split_sign (s : string) : bool * string :=
  match s with
  | String "-" r => (true, r)
  | String "+" r => (false, r)
  | _ => (false, s)
  end.

(** The mantissa [digits [. [digits]] | . digits]: its digits and the
    number of them after the point. *)
Definition parse_mantissa (s : string) : option (string * nat) :=
  let digits_or_empty (part : string) : option string :=
    if String.eqb part "" then Some EmptyString
    else digit_group part false in
  match cut_at (Ascii.eqb ".") s with
  | (int_part, None) =>
      option_map (fun d => (d, 0%nat)) (digit_group int_part false)
  | (int_part, Some frac_part) =>
      if String.eqb int_part "" && String.eqb frac_part "" then None
      else
        match digits_or_empty int_part, digits_or_empty frac_part with
        | Some d, Some f => Some (String.append d f, String.length f)
        | _, _ => None
        end
  end.

(** [float(s)]; [None] is [ValueError]. *)
Definition float_of_string (s : string) : option float_literal :=
  let '(neg, body) := split_sign (strip_class is_c_space s) in
  let word := lower body in
  if String.eqb word "inf" || String.eqb word "infinity" then Some (FInf neg)
  else if String.eqb word "nan" then Some FNan
  else
    let '(mant, expo) := cut_at (fun c => Ascii.eqb c "e" || Ascii.eqb c "E") body in
    match parse_mantissa mant with
    | None => None
    | Some (ds, scale) =>
        let m := digits_value ds 0 in
        let m := if neg then (- m)%Z else m in
        match expo with
        | None => Some (FDec m (- Z.of_nat scale))
        | Some e =>
            let '(eneg, edigits) := split_sign e in
            match digit_group edigits false with
            | None => None
            | Some ed =>
                let ev := digits_value ed 0 in
                let ev := if eneg then (- ev)%Z else ev in
                Some (FDec m (ev - Z.of_nat scale))
            end
        end
    end.

(** [x > n] for the double [x] read from a literal and an integer [n]
    with [half_ulp = 2^-k] half the spacing of the doubles just above [n]
    and [n] having an even significand: [x > n] exactly when the decimal
    value exceeds [n + 2^-k]. *)
Definition float_gt_int (f : float_literal) (n : Z) (k : Z) : bool :=
  match f with
  | FNan => false
  | FInf negative => negb negative
  | FDec m e =>
      let bound := (n * 2 ^ k + 1)%Z in
      if (0 <=? e)%Z
      then (bound <? m * 10 ^ e * 2 ^ k)%Z
      else (bound * 10 ^ (- e) <? m * 2 ^ k)%Z
  end.

(** [str(n)] for integers. *)
Definition str_of_nat (n : nat) : string :=
  NilZero.string_of_uint (Nat.to_uint n).

Definition str_of_Z (z : Z) : string :=
  NilZero.string_of_int (Z.to_int z).

(** [str(x)] of an optional string: [None] prints as [None]. *)
Definition str_of_opt (o : option string) : string :=
  match o with
  | Some s => s
  | None => "None"
  end.

(** An f-string: the concatenation of its parts. *)
Definition fstr (parts : list string) : string := String.concat "" parts.

(** [str(l)] for a list of strings whose [repr] needs no escaping (no
    quote, backslash or control character). *)
Definition str_of_list (l : list string) : string :=
  fstr ["["; String.concat ", " (map (fun s => fstr ["'"; s; "'"]) l); "]"].

(** [try: body except Exception as e: handler(e)]. *)
Definition try_except {A : Type} (body : result A) (handler : exn -> result A)
    : result A :=
  match body with
  | Ok a => Ok a
  | Raise e => handler e
  end.

(** [x in xs] for a list or set of strings. *)
Definition mem (x : string) (xs : list string) : bool :=
  existsb (String.eqb x) xs.

Definition opt_str_eqb (a b : option string) : bool :=
  match a, b with
  | Some x, Some y => String.eqb x y
  | None, None => true
  | _, _ => false
  end.

(** *** JSON text values *)

(** A value that a JSON document holds where text is expected: a string,
    or [null], which Python reads as [None]. *)
Inductive jstring : Type :=
| JNull
| JStr (s : string).

(** [a == b]. *)
Definition jstring_eqb (a b : jstring) : bool :=
  match a, b with
  | JStr x, JStr y => String.eqb x y
  | JNull, JNull => true
  | _, _ => false
  end.

(** [str(x)]: [None] prints as [None]. *)
Definition str_of_jstring (x : jstring) : string :=
  match x with
  | JStr s => s
  | JNull => "None"
  end.

End Py.

(** ** Insertion-ordered dictionaries *)

(** Equality test on dictionary keys. *)
Class KeyEq (K : Type) := keqb : K -> K -> bool.

#[export] Instance string_KeyEq : KeyEq string := String.eqb.
#[export] Instance opt_string_KeyEq : KeyEq (option string) := Py.opt_str_eqb.

Module PyDict.
Section Dict.
Context {K V : Type} `{KeyEq K}.

Definition dict := list (K * V).

Fixpoint dict_get (d : dict) (k : K) : option V :=
  match d with
  | [] => None
  | (k', v) :: d' => if keqb k k' then Some v else dict_get d' k
  end.

(** [d.get(k, default)]. *)
Definition dict_get_or (d : dict) (k : K) (default : V) : V :=
  match dict_get d k with
  | Some v => v
  | None => default
  end.

(** [k in d]. *)
Definition dict_mem (d : dict) (k : K) : bool :=
  match dict_get d k with
  | Some _ => true
  | None => false
  end.

(** [d[k] = v]: an existing key keeps its position. *)
Fixpoint dict_set (d : dict) (k : K) (v : V) : dict :=
  match d with
  | [] => [(k, v)]
  | (k', v') :: d' =>
      if keqb k k' then (k', v) :: d'
      else (k', v') :: dict_set d' k v
  end.

Definition dict_keys (d : dict) : list K := map fst d.
Definition dict_values (d : dict) : list V := map snd d.

(** [{key(x): x for x in xs}]. *)
Definition dict_of_list (key : V -> K) (xs : list V) : dict :=
  fold_left (fun d x => dict_set d (key x) x) xs [].

End Dict.
Arguments dict K V : clear implicits.
End PyDict.

Import Py PyDict.

(** [set(a) | set(b)]: the members, each once. *)
Definition set_union (a b : list string) : list string :=
  nodup string_dec (a ++ b).

(** An admissible iteration order of a Python set. *)
Definition set_order (set_iter : list string -> list string) : Prop :=
  forall l, Permutation (set_iter l) l.

(** [sorted] on strings: code-point order, by insertion. *)
Fixpoint sorted_insert (x : string) (l : list string) : list string :=
  match l with
  | [] => [x]
  | y :: l' => if String.leb x y then x :: l else y :: sorted_insert x l'
  end.

Definition sorted (l : list string) : list string :=
  fold_right sorted_insert [] l.

(** ** Status escalation ([HardwareDiff.STATUS_PRIORITY], [_escalate_status]) *)

Inductive Status : Type := PASS | WARNING | FAIL | ERROR | UNKNOWN.

Definition status_name (s : Status) : string :=
  match s with
  | PASS => "PASS"
  | WARNING => "WARNING"
  | FAIL => "FAIL"
  | ERROR => "ERROR"
  | UNKNOWN => "UNKNOWN"
  end.

Definition STATUS_PRIORITY : dict string Z :=
  [("PASS", 0%Z); ("WARNING", 1%Z); ("FAIL", 2%Z); ("ERROR", 3%Z);
   ("UNKNOWN", 4%Z)].

Definition priority (status : string) : Z :=
  dict_get_or STATUS_PRIORITY status 0%Z.

Definition _escalate_status (current_status new_status : string) : string :=
  let current_priority := priority current_status in
  let new_priority := priority new_status in
  if (new_priority >? current_priority)%Z then new_status else current_status.

Notation "x <- m ;; k" := (bind m (fun x => k))
  (at level 61, m at next level, right associativity).

(** Monadic left fold: a [for] loop whose body may raise. *)
Fixpoint fold_result {A S : Type} (body : S -> A -> result S)
    (xs : list A) (st : S) : result S :=
  match xs with
  | [] => Ok st
  | x :: xs' => st' <- body st x ;; fold_result body xs' st'
  end.

(** [{x[keyname]: x for x in xs}]: a record without the key raises
    [KeyError]. *)
Fixpoint dict_by_key {V : Type} (key : V -> option string) (keyname : string)
    (xs : list V) (acc : dict string V) : result (dict string V) :=
  match xs with
  | [] => Ok acc
  | x :: xs' =>
      match key x with
      | Some k => dict_by_key key keyname xs' (dict_set acc k x)
      | None => Raise (KeyError keyname)
      end
  end.

(** ** Processor comparison ([HardwareDiff.compare_processors]) *)

Module Processors.

(** A core or thread count: an integer, or a string such as ['Unknown']
    written by the fallback collector. *)
Inductive count : Type :=
| CInt (z : Z)
| CStr (s : string).

Definition count_eqb (a b : count) : bool :=
  match a, b with
  | CInt x, CInt y => Z.eqb x y
  | CStr x, CStr y => String.eqb x y
  | _, _ => false
  end.

Definition opt_count_eqb (a b : option count) : bool :=
  match a, b with
  | Some x, Some y => count_eqb x y
  | None, None => true
  | _, _ => false
  end.

Definition str_of_count (c : option count) : string :=
  match c with
  | Some (CInt z) => str_of_Z z
  | Some (CStr s) => s
  | None => "None"
  end.

Record Processor : Type := {
  socket : option string;
  model : option string;
  cores : option count;
  threads : option count
}.

Record SocketDiff : Type := {
  sd_socket : string;
  sd_status : string;
  sd_issue : option string;
  sd_model_diff : option (option string * option string);
  sd_threads_diff : option (option count * option count)
}.

Record Summary : Type := {
  total_differences : nat;
  cpu_sockets_current : nat;
  cpu_sockets_baseline : nat;
  status_description : string
}.

Record DiffResult : Type := {
  status : string;
  differences : list string;
  summary : Summary;
  current_count : nat;
  baseline_count : nat;
  socket_comparison : list SocketDiff
}.

(** The part of [diff_result] that the socket loop updates. *)
Record LoopState : Type := {
  st_status : string;
  st_differences : list string;
  st_sockets : list SocketDiff
}.

Definition unknown : option count := Some (CStr "Unknown").

Definition is_unknown (c : option count) : bool := opt_count_eqb c unknown.

(** [isinstance(v, (int, str))]. *)
Definition is_int_or_str (c : option count) : bool :=
  match c with
  | Some _ => true
  | None => false
  end.

(** The cores block of a matched socket. Its two reporting branches write
    to [result], a name that [compare_processors] never binds. *)
Definition check_cores (current_cpu baseline_cpu : Processor) : result unit :=
  if negb (opt_count_eqb (cores current_cpu) (cores baseline_cpu)) then
    let current_cores := cores current_cpu in
    let baseline_cores := cores baseline_cpu in
    if is_unknown current_cores && is_int_or_str baseline_cores
       && negb (is_unknown baseline_cores)
    then Raise (NameError "result")
    else if is_unknown current_cores && is_unknown baseline_cores
    then Ok tt
    else if is_unknown baseline_cores && negb (is_unknown current_cores)
    then Ok tt
    else Raise (NameError "result")
  else Ok tt.

(** One iteration of the loop over the socket names. *)
Definition compare_socket (baseline_by_socket current_by_socket : dict string Processor)
    (st : LoopState) (socket_name : string) : result LoopState :=
  match dict_get current_by_socket socket_name with
  | None =>
      let issue :=
        fstr ["CPU socket "; socket_name; " missing in current system"] in
      Ok {| st_status := _escalate_status (st_status st) "FAIL";
            st_differences := st_differences st ++ [issue];
            st_sockets := st_sockets st ++
              [{| sd_socket := socket_name; sd_status := "MISSING";
                  sd_issue := Some issue; sd_model_diff := None;
                  sd_threads_diff := None |}] |}
  | Some current_cpu =>
      match dict_get baseline_by_socket socket_name with
      | None =>
          let issue :=
            fstr ["Extra CPU socket "; socket_name; " in current system"] in
          Ok {| st_status := _escalate_status (st_status st) "WARNING";
                st_differences := st_differences st ++ [issue];
                st_sockets := st_sockets st ++
                  [{| sd_socket := socket_name; sd_status := "EXTRA";
                      sd_issue := Some issue; sd_model_diff := None;
                      sd_threads_diff := None |}] |}
      | Some baseline_cpu =>
          let model_differs :=
            negb (opt_str_eqb (model current_cpu) (model baseline_cpu)) in
          let '(status1, differences1) :=
            if model_differs then
              (_escalate_status (st_status st) "FAIL",
               st_differences st ++
                 [fstr ["CPU "; socket_name; " model mismatch: ";
                        str_of_opt (model current_cpu); " vs ";
                        str_of_opt (model baseline_cpu)]])
            else (st_status st, st_differences st) in
          _ <- check_cores current_cpu baseline_cpu ;;
          let threads_differ :=
            negb (opt_count_eqb (threads current_cpu) (threads baseline_cpu)) in
          let '(status2, differences2) :=
            if threads_differ then
              (_escalate_status status1 "FAIL",
               differences1 ++
                 [fstr ["CPU "; socket_name; " threads mismatch: ";
                        str_of_count (threads current_cpu); " vs ";
                        str_of_count (threads baseline_cpu)]])
            else (status1, differences1) in
          Ok {| st_status := status2;
                st_differences := differences2;
                st_sockets := st_sockets st ++
                  [{| sd_socket := socket_name; sd_status := "MATCH";
                      sd_issue := None;
                      sd_model_diff :=
                        if model_differs
                        then Some (model current_cpu, model baseline_cpu)
                        else None;
                      sd_threads_diff :=
                        if threads_differ
                        then Some (threads current_cpu, threads baseline_cpu)
                        else None |}] |}
      end
  end.

Definition compare_processors (set_iter : list string -> list string)
    (current baseline : list Processor) : result DiffResult :=
  let st0 :=
    if negb (length current =? length baseline)%nat then
      {| st_status := _escalate_status "PASS" "FAIL";
         st_differences :=
           [fstr ["CPU count mismatch: current="; str_of_nat (length current);
                  ", baseline="; str_of_nat (length baseline)]];
         st_sockets := [] |}
    else {| st_status := "PASS"; st_differences := []; st_sockets := [] |} in
  baseline_by_socket <- dict_by_key socket "socket" baseline [] ;;
  current_by_socket <- dict_by_key socket "socket" current [] ;;
  st <- fold_result (compare_socket baseline_by_socket current_by_socket)
          (set_iter (set_union (dict_keys baseline_by_socket)
                               (dict_keys current_by_socket)))
          st0 ;;
  Ok {| status := st_status st;
        differences := st_differences st;
        summary :=
          {| total_differences := length (st_differences st);
             cpu_sockets_current := length current;
             cpu_sockets_baseline := length baseline;
             status_description :=
               if String.eqb (st_status st) "PASS"
               then "Процессоры соответствуют эталону"
               else "Обнаружены различия в процессорах" |};
        current_count := length current;
        baseline_count := length baseline;
        socket_comparison := st_sockets st |}.

End Processors.

(** ** Memory comparison ([HardwareDiff.compare_memory]) *)

Module Memory.

Record MemoryModule : Type := {
  slot : option string;
  size : option string;
  populated : option bool
}.

(** An entry of [result['differences']]; [d_slot] is the ['slot'] key,
    which only a population change carries. *)
Record Difference : Type := {
  d_type : string;
  d_slot : option (option string);
  description : string;
  severity : string
}.

Record Summary : Type := {
  total_differences : nat;
  memory_slots_populated_current : nat;
  memory_slots_populated_baseline : nat;
  total_memory_current_gb : Z;
  total_memory_baseline_gb : Z;
  status_description : string
}.

Record DiffResult : Type := {
  status : string;
  differences : list Difference;
  summary : Summary;
  current_slots : Z;
  baseline_slots : Z;
  slot_comparison : list (option string * string)
}.

(** [int(s)] inside the [try]: a [ValueError] makes the parser return 0. *)
Definition int_or_zero (s : string) : Z :=
  match int_of_string s with
  | Some z => z
  | None => 0%Z
  end.

Definition parse_memory_size (size_str : string) : Z :=
  if String.eqb size_str "" || String.eqb size_str "No Module Installed"
  then 0%Z
  else
    let size_str := upper (strip size_str) in
    if endswith size_str " GB" then
      int_or_zero (replace size_str " GB" "")
    else if endswith size_str "GB" then
      int_or_zero (replace size_str "GB" "")
    else if endswith size_str " MB" then
      match int_of_string (replace size_str " MB" "") with
      | Some mb_value => (mb_value / 1024)%Z
      | None => 0%Z
      end
    else if endswith size_str "MB" then
      match int_of_string (replace size_str "MB" "") with
      | Some mb_value => (mb_value / 1024)%Z
      | None => 0%Z
      end
    else if isdigit size_str then
      int_or_zero size_str
    else
      match first_number size_str with
      | Some n => int_or_zero n
      | None => 0%Z
      end.

(** [dimm.get('populated', False)]. *)
Definition is_populated (dimm : MemoryModule) : bool :=
  match populated dimm with
  | Some b => b
  | None => false
  end.

(** [dimm.get('size', '')]. *)
Definition size_of (dimm : MemoryModule) : string :=
  match size dimm with
  | Some s => s
  | None => ""
  end.

(** The two counting loops: populated slots and their total size. *)
Definition count_populated (dimms : list MemoryModule) : nat :=
  length (filter is_populated dimms).

Definition total_gb (dimms : list MemoryModule) : Z :=
  fold_left (fun acc dimm => (acc + parse_memory_size (size_of dimm))%Z)
            (filter is_populated dimms) 0%Z.

(** [sorted(all_slots)]: comparing [None] with anything raises. *)
Definition is_none (o : option string) : bool :=
  match o with
  | None => true
  | Some _ => false
  end.

Fixpoint somes (l : list (option string)) : list string :=
  match l with
  | [] => []
  | Some s :: l' => s :: somes l'
  | None :: l' => somes l'
  end.

Definition sorted_slots (all_slots : list (option string))
    : result (list (option string)) :=
  if existsb is_none all_slots then
    if (2 <=? length all_slots)%nat
    then Raise (TypeError "'<' not supported between instances of 'NoneType' and 'str'")
    else Ok all_slots
  else Ok (map Some (sorted (somes all_slots))).

Definition opt_string_dec (a b : option string) : {a = b} + {a <> b}.
Proof. decide equality; apply string_dec. Defined.

(** [set(current_slots.keys()) | set(baseline_slots.keys())]. *)
Definition all_slots_of (current_slots baseline_slots : dict (option string) MemoryModule)
    : list (option string) :=
  nodup opt_string_dec
        (dict_keys current_slots ++ dict_keys baseline_slots).

Record LoopState : Type := {
  st_status : string;
  st_differences : list Difference;
  st_slots : list (option string * string)
}.

(** [current_slots.get(slot, {}).get('populated', False)]. *)
Definition populated_in (slots : dict (option string) MemoryModule)
    (slot : option string) : bool :=
  match dict_get slots slot with
  | Some dimm => is_populated dimm
  | None => false
  end.

(** One iteration of the loop over the sorted slot names. *)
Definition compare_slot (current_slots baseline_slots : dict (option string) MemoryModule)
    (st : LoopState) (slot : option string) : LoopState :=
  let current_populated := populated_in current_slots slot in
  let baseline_populated := populated_in baseline_slots slot in
  if Bool.eqb current_populated baseline_populated then
    {| st_status := st_status st;
       st_differences := st_differences st;
       st_slots := st_slots st ++
         [(slot, if current_populated then "POPULATED" else "EMPTY")] |}
  else
    let status_text := if current_populated then "ADDED" else "REMOVED" in
    {| st_status := _escalate_status (st_status st) "WARNING";
       st_differences := st_differences st ++
         [{| d_type := "slot_population_change";
             d_slot := Some slot;
             description := fstr ["Слот "; str_of_opt slot; ": "; status_text];
             severity := "minor" |}];
       st_slots := st_slots st ++ [(slot, status_text)] |}.

Definition compare_memory (current baseline : list MemoryModule)
    : result DiffResult :=
  let populated_current := count_populated current in
  let populated_baseline := count_populated baseline in
  let total_current := total_gb current in
  let total_baseline := total_gb baseline in
  let '(status1, differences1) :=
    if negb (populated_current =? populated_baseline)%nat then
      (_escalate_status "PASS" "WARNING",
       [{| d_type := "slot_count_mismatch";
           d_slot := None;
           description :=
             fstr ["Количество заселённых слотов памяти изменилось: ";
                   str_of_nat populated_current; " vs ";
                   str_of_nat populated_baseline];
           severity := "warning" |}])
    else ("PASS", []) in
  let '(status2, differences2) :=
    if negb (total_current =? total_baseline)%Z then
      (_escalate_status status1 "FAIL",
       differences1 ++
       [{| d_type := "total_memory_mismatch";
           d_slot := None;
           description :=
             fstr ["Общий объём памяти изменился: ";
                   str_of_Z total_current; "GB vs ";
                   str_of_Z total_baseline; "GB"];
           severity := "major" |}])
    else (status1, differences1) in
  let current_slots := dict_of_list slot current in
  let baseline_slots := dict_of_list slot baseline in
  slots <- sorted_slots (all_slots_of current_slots baseline_slots) ;;
  let st := fold_left (compare_slot current_slots baseline_slots) slots
              {| st_status := status2; st_differences := differences2;
                 st_slots := [] |} in
  Ok {| status := st_status st;
        differences := st_differences st;
        summary :=
          {| total_differences := length (st_differences st);
             memory_slots_populated_current := populated_current;
             memory_slots_populated_baseline := populated_baseline;
             total_memory_current_gb := total_current;
             total_memory_baseline_gb := total_baseline;
             status_description :=
               if String.eqb (st_status st) "PASS"
               then "Память соответствует эталону"
               else if String.eqb (st_status st) "WARNING"
               then "Обнаружены незначительные различия в конфигурации памяти"
               else "Обнаружены критические различия в конфигурации памяти" |};
        current_slots := total_current;
        baseline_slots := total_baseline;
        slot_comparison := st_slots st |}.

End Memory.

(** ** PCI comparison ([HardwareDiff.compare_pci_devices]) *)

Module Pci.

Record PciDevice : Type := {
  bdf : option string;
  description : option string;
  device_class : option string;   (* the ['class'] key *)
  width : option string;
  speed : option string
}.

Record ClassCheck : Type := {
  cc_class : string;
  cc_baseline_count : nat;
  cc_current_count : nat;
  cc_status : string;
  cc_issue : option string
}.

Record DeviceDiff : Type := {
  dd_bdf : string;
  dd_status : string;
  dd_issue : option string;
  dd_description : option string;
  dd_description_diff : option (option string * option string)
}.

Record Summary : Type := {
  total_differences : nat;
  pci_devices_current : nat;
  pci_devices_baseline : nat;
  critical_devices_current : nat;
  critical_devices_baseline : nat;
  status_description : string
}.

Record DiffResult : Type := {
  status : string;
  differences : list string;
  summary : Summary;
  current_count : nat;
  baseline_count : nat;
  critical_devices_check : list ClassCheck;
  device_comparison : list DeviceDiff
}.

Definition critical_classes : list string :=
  ["Host bridge"; "PCI bridge"; "ISA bridge"; "Ethernet controller";
   "USB controller"; "SATA controller"; "System peripheral"].

Definition clean_device_class (device_class : string) : string :=
  if String.eqb device_class "" then "Unknown"
  else strip (split_first " [" device_class).

(** [dev.get('class', default)]. *)
Definition class_or (dev : PciDevice) (default : string) : string :=
  match device_class dev with
  | Some c => c
  | None => default
  end.

Definition is_critical (dev : PciDevice) : bool :=
  any_in critical_classes (clean_device_class (class_or dev "")).

(** [{bdf: dev for bdf, dev in by_bdf.items() if ...}]. *)
Definition critical_of (by_bdf : dict string PciDevice) : dict string PciDevice :=
  filter (fun kv => is_critical (snd kv)) by_bdf.

(** Grouping of the critical devices by cleaned class. *)
Definition group_by_class (critical : dict string PciDevice)
    : dict string (list PciDevice) :=
  fold_left
    (fun by_class dev =>
       let dev_class := clean_device_class (class_or dev "Unknown") in
       dict_set by_class dev_class (dict_get_or by_class dev_class [] ++ [dev]))
    (dict_values critical) [].

Record LoopState : Type := {
  st_status : string;
  st_differences : list string;
  st_classes : list ClassCheck;
  st_devices : list DeviceDiff
}.

(** First loop: the count of every baseline class. *)
Definition check_baseline_class
    (baseline_by_class current_by_class : dict string (list PciDevice))
    (st : LoopState) (dev_class : string) : LoopState :=
  let baseline_count := length (dict_get_or baseline_by_class dev_class []) in
  let current_count := length (dict_get_or current_by_class dev_class []) in
  if negb (baseline_count =? current_count)%nat then
    let issue := fstr [dev_class; ": expected "; str_of_nat baseline_count;
                       ", found "; str_of_nat current_count] in
    {| st_status := _escalate_status (st_status st) "FAIL";
       st_differences := st_differences st ++ [issue];
       st_classes := st_classes st ++
         [{| cc_class := dev_class; cc_baseline_count := baseline_count;
             cc_current_count := current_count; cc_status := "MISMATCH";
             cc_issue := Some issue |}];
       st_devices := st_devices st |}
  else
    {| st_status := st_status st;
       st_differences := st_differences st;
       st_classes := st_classes st ++
         [{| cc_class := dev_class; cc_baseline_count := baseline_count;
             cc_current_count := current_count; cc_status := "MATCH";
             cc_issue := None |}];
       st_devices := st_devices st |}.

(** Second loop: classes that only the current system has. *)
Definition check_new_class
    (baseline_by_class current_by_class : dict string (list PciDevice))
    (st : LoopState) (dev_class : string) : LoopState :=
  if negb (dict_mem baseline_by_class dev_class) then
    let issue := fstr ["New device class detected: "; dev_class] in
    {| st_status := _escalate_status (st_status st) "WARNING";
       st_differences := st_differences st ++ [issue];
       st_classes := st_classes st ++
         [{| cc_class := dev_class; cc_baseline_count := 0;
             cc_current_count := length (dict_get_or current_by_class dev_class []);
             cc_status := "NEW"; cc_issue := Some issue |}];
       st_devices := st_devices st |}
  else st.

(** Third loop: the critical devices, address by address. *)
Definition check_bdf (baseline_by_bdf current_by_bdf : dict string PciDevice)
    (st : LoopState) (bdf : string) : LoopState :=
  match dict_get current_by_bdf bdf with
  | None =>
      let issue := fstr ["Critical device "; bdf; " missing"] in
      {| st_status := _escalate_status (st_status st) "FAIL";
         st_differences := st_differences st ++ [issue];
         st_classes := st_classes st;
         st_devices := st_devices st ++
           [{| dd_bdf := bdf; dd_status := "MISSING"; dd_issue := Some issue;
               dd_description := None; dd_description_diff := None |}] |}
  | Some current_dev =>
      match dict_get baseline_by_bdf bdf with
      | None =>
          {| st_status := st_status st;
             st_differences := st_differences st;
             st_classes := st_classes st;
             st_devices := st_devices st ++
               [{| dd_bdf := bdf; dd_status := "EXTRA"; dd_issue := None;
                   dd_description :=
                     Some (match description current_dev with
                           | Some d => d
                           | None => "Unknown"
                           end);
                   dd_description_diff := None |}] |}
      | Some baseline_dev =>
          let changed :=
            negb (opt_str_eqb (description current_dev) (description baseline_dev)) in
          let baseline_clean_class := clean_device_class (class_or baseline_dev "") in
          let reported :=
            changed && any_in ["Ethernet controller"; "USB controller"]
                              baseline_clean_class in
          {| st_status :=
               if reported then _escalate_status (st_status st) "WARNING"
               else st_status st;
             st_differences :=
               if reported then
                 st_differences st ++
                   [fstr ["Critical device "; bdf; " description changed: ";
                          str_of_opt (description current_dev); " vs ";
                          str_of_opt (description baseline_dev)]]
               else st_differences st;
             st_classes := st_classes st;
             st_devices := st_devices st ++
               [{| dd_bdf := bdf; dd_status := "PRESENT"; dd_issue := None;
                   dd_description := None;
                   dd_description_diff :=
                     if changed
                     then Some (description current_dev, description baseline_dev)
                     else None |}] |}
      end
  end.

Definition compare_pci_devices (set_iter : list string -> list string)
    (current baseline : list PciDevice) : result DiffResult :=
  baseline_by_bdf <- dict_by_key bdf "bdf" baseline [] ;;
  current_by_bdf <- dict_by_key bdf "bdf" current [] ;;
  let baseline_critical := critical_of baseline_by_bdf in
  let current_critical := critical_of current_by_bdf in
  let baseline_by_class := group_by_class baseline_critical in
  let current_by_class := group_by_class current_critical in
  let st1 := fold_left (check_baseline_class baseline_by_class current_by_class)
               (dict_keys baseline_by_class)
               {| st_status := "PASS"; st_differences := [];
                  st_classes := []; st_devices := [] |} in
  let st2 := fold_left (check_new_class baseline_by_class current_by_class)
               (dict_keys current_by_class) st1 in
  let st := fold_left (check_bdf baseline_by_bdf current_by_bdf)
              (set_iter (set_union (dict_keys baseline_critical)
                                   (dict_keys current_critical)))
              st2 in
  Ok {| status := st_status st;
        differences := st_differences st;
        summary :=
          {| total_differences := length (st_differences st);
             pci_devices_current := length current;
             pci_devices_baseline := length baseline;
             critical_devices_current := length current_critical;
             critical_devices_baseline := length baseline_critical;
             status_description :=
               if String.eqb (st_status st) "PASS"
               then "PCIe устройства соответствуют эталону"
               else "Обнаружены различия в PCIe устройствах" |};
        current_count := length current;
        baseline_count := length baseline;
        critical_devices_check := st_classes st;
        device_comparison := st_devices st |}.

End Pci.

(** ** USB comparison ([HardwareDiff.compare_usb_devices]) *)

Module Usb.

Record UsbDevice : Type := {
  bus : option string;
  device : option string;
  vid_pid : option string;
  description : option string;
  vendor : option string;
  usb_version : option string
}.

Record HubCheck : Type := {
  hc_vid_pid : string;
  hc_baseline_count : nat;
  hc_current_count : nat;
  hc_status : string;
  hc_issue : option string
}.

Record Summary : Type := {
  total_differences : nat;
  usb_devices_current : nat;
  usb_devices_baseline : nat;
  critical_usb_current : nat;
  critical_usb_baseline : nat;
  ignored_devices_count : nat;
  status_description : string
}.

(** [ignored_devices] and [ignored_count] are keys of [details] that exist
    only when a device was ignored. *)
Record DiffResult : Type := {
  status : string;
  differences : list string;
  summary : Summary;
  current_count : nat;
  baseline_count : nat;
  hub_comparison : list HubCheck;
  device_comparison : list string;
  ignored_devices : option (list UsbDevice);
  ignored_count : option nat
}.

Definition IGNORABLE_DEVICES : list string :=
  ["0557:8021";   (* ATEN KVM Hub *)
   "046b:ff01";   (* AMI Virtual Hub *)
   "046b:ff20";   (* AMI Virtual CDROM *)
   "046b:ff31";   (* AMI Virtual HDisk *)
   "046b:ff10";   (* AMI Virtual Keyboard/Mouse *)
   "046b:ffb0";   (* AMI Virtual Ethernet *)
   "0557:223a"].  (* ATEN CS1316 KVM Switch *)

Definition get_or (o : option string) (default : string) : string :=
  match o with
  | Some s => s
  | None => default
  end.

Definition is_critical_usb (dev : UsbDevice) : bool :=
  let description := lower (get_or (description dev) "") in
  let vendor := lower (get_or (vendor dev) "") in
  if any_in ["hub"; "root hub"; "host controller"; "xhci"; "ehci"; "ohci"; "uhci"]
            description
  then true
  else if any_in ["keyboard"; "mouse"; "management"; "controller"] description
  then true
  else if any_in ["intel"; "amd"; "via"; "nvidia"] vendor
  then true
  else false.

(** Grouping of the critical devices by VID:PID. *)
Definition group_by_vid_pid (critical : list UsbDevice)
    : dict string (list UsbDevice) :=
  fold_left
    (fun hubs dev =>
       let vid_pid := get_or (vid_pid dev) "" in
       dict_set hubs vid_pid (dict_get_or hubs vid_pid [] ++ [dev]))
    critical [].

Record LoopState : Type := {
  st_status : string;
  st_differences : list string;
  st_hubs : list HubCheck
}.

(** One iteration of the loop over the VID:PID set. *)
Definition check_vid_pid
    (baseline_hubs_by_vid_pid current_hubs_by_vid_pid : dict string (list UsbDevice))
    (st : LoopState) (vid_pid : string) : LoopState :=
  let baseline_devs := dict_get_or baseline_hubs_by_vid_pid vid_pid [] in
  let baseline_count := length baseline_devs in
  let current_count := length (dict_get_or current_hubs_by_vid_pid vid_pid []) in
  if negb (baseline_count =? current_count)%nat then
    let baseline_desc :=
      match baseline_devs with
      | dev :: _ => get_or (description dev) vid_pid
      | [] => "Unknown"
      end in
    let issue := fstr ["USB device "; vid_pid; " ("; baseline_desc;
                       "): expected "; str_of_nat baseline_count;
                       ", found "; str_of_nat current_count] in
    {| st_status :=
         if (current_count <? baseline_count)%nat
         then _escalate_status (st_status st) "FAIL"
         else if (baseline_count <? current_count)%nat
         then _escalate_status (st_status st) "WARNING"
         else st_status st;
       st_differences := st_differences st ++ [issue];
       st_hubs := st_hubs st ++
         [{| hc_vid_pid := vid_pid; hc_baseline_count := baseline_count;
             hc_current_count := current_count; hc_status := "MISMATCH";
             hc_issue := Some issue |}] |}
  else
    {| st_status := st_status st;
       st_differences := st_differences st;
       st_hubs := st_hubs st ++
         [{| hc_vid_pid := vid_pid; hc_baseline_count := baseline_count;
             hc_current_count := current_count; hc_status := "MATCH";
             hc_issue := None |}] |}.

(** [device.get('vid_pid') in IGNORABLE_DEVICES]. *)
Definition is_ignorable (dev : UsbDevice) : bool :=
  match vid_pid dev with
  | Some v => mem v IGNORABLE_DEVICES
  | None => false
  end.

Definition compare_usb_devices (set_iter : list string -> list string)
    (current baseline : list UsbDevice) : DiffResult :=
  let baseline_critical := filter is_critical_usb baseline in
  let current_critical := filter is_critical_usb current in
  let baseline_hubs_by_vid_pid := group_by_vid_pid baseline_critical in
  let current_hubs_by_vid_pid := group_by_vid_pid current_critical in
  let st := fold_left (check_vid_pid baseline_hubs_by_vid_pid current_hubs_by_vid_pid)
              (set_iter (set_union (dict_keys baseline_hubs_by_vid_pid)
                                   (dict_keys current_hubs_by_vid_pid)))
              {| st_status := "PASS"; st_differences := []; st_hubs := [] |} in
  let ignored := filter is_ignorable current in
  let any_ignored := negb (length ignored =? 0)%nat in
  {| status := st_status st;
     differences := st_differences st;
     summary :=
       {| total_differences := length (st_differences st);
          usb_devices_current := length current;
          usb_devices_baseline := length baseline;
          critical_usb_current := length current_critical;
          critical_usb_baseline := length baseline_critical;
          ignored_devices_count := if any_ignored then length ignored else 0;
          status_description :=
            if String.eqb (st_status st) "PASS"
            then "USB устройства соответствуют эталону"
            else "Обнаружены различия в USB устройствах" |};
     current_count := length current;
     baseline_count := length baseline;
     hub_comparison := st_hubs st;
     device_comparison := [];
     ignored_devices := if any_ignored then Some ignored else None;
     ignored_count := if any_ignored then Some (length ignored) else None |}.

End Usb.

(** ** Storage comparison ([HardwareDiff.compare_storage_devices]) *)

Module Storage.

(** A storage record. The collectors write [name], [model], [size],
    [type] and [interface]; the comparator reads [device], [model],
    [transport] and [size]. A field that the comparator reads is absent,
    [null] or a string: [lsblk] prints ["model": null] for a disk without a
    model, and [get_storage_info] stores that value as it is. *)
Record StorageDevice : Type := {
  name : option string;
  device : option jstring;
  model : option jstring;
  size : option jstring;
  transport : option jstring;
  dev_type : option string;     (* the ['type'] key *)
  interface : option string
}.

Record DiffResult : Type := {
  component : string;
  status : string;
  current_count : nat;
  baseline_count : nat;
  current_by_type : dict string nat;
  baseline_by_type : dict string nat;
  virtual_devices_filtered : nat * nat;   (* current, baseline *)
  differences : list string
}.

(** [device.get(key, default)]: the value under the key, [null] included;
    the default only when the key is absent. *)
Definition get_or (field : option jstring) (default : string) : jstring :=
  match field with
  | Some value => value
  | None => JStr default
  end.

(** What [None.lower()] raises. *)
Definition no_lower : exn :=
  AttributeError "'NoneType' object has no attribute 'lower'".

(** [value.lower()]: [None] has no such method. *)
Definition lower_of (value : jstring) : result string :=
  match value with
  | JStr s => Ok (lower s)
  | JNull => Raise no_lower
  end.

(** The test of [filter_virtual_devices] on the lowered model. *)
Definition is_real (model : string) : bool :=
  negb (contains "virtual hdisk" model) && negb (contains "ami virtual" model).

Definition filter_virtual_devices (devices : list StorageDevice)
    : result (list StorageDevice) :=
  fold_result
    (fun filtered device =>
       model <- lower_of (get_or (model device) "") ;;
       Ok (if is_real model then filtered ++ [device] else filtered))
    devices [].

(** [size_gb > 100] for [size_gb = float(...)]: the doubles just above 100
    are [2^-46] apart. *)
Definition over_100 (f : float_literal) : bool := float_gt_int f 100 47.

(** The bucket for the lowered [device], [model] and [transport] of a
    record and its [size]: the chain of tests of [group_by_type]. *)
Definition classify (device_name model transport : string) (size : jstring)
    : string :=
  if startswith device_name "nvme" || contains "nvme" model then "nvme"
  else if contains "sas" model || contains "sas" transport
          || (any_in ["seagate"; "hitachi"; "toshiba"] model
              && contains "sas" model)
  then "sas"
  else if any_in ["raid"; "logical"; "virtual"; "megaraid"; "adaptec"] model
  then "raid"
  else if (startswith device_name "sd"
           && any_in ["sata"; "ata"; "ssd"] model)
          || contains "sata" transport
  then "sata"
  else if startswith device_name "mmcblk" || contains "mmc" model then "mmc"
  else if contains "usb" transport || contains "usb" model then "usb"
  else if startswith device_name "sd" then
    match size with
    | JNull => "sata"   (* ['GB' in None] raises [TypeError], caught *)
    | JStr size_str =>
        if contains "GB" size_str then
          match float_of_string (strip (replace size_str "GB" "")) with
          | Some size_gb =>
              if over_100 size_gb && negb (contains "ssd" model)
              then "sas" else "sata"
          | None => "sata"   (* [ValueError], caught *)
          end
        else "sata"
    end
  else "other".

(** The bucket that [group_by_type] appends a device to; the three
    [.lower()] calls come first and raise on a [null]. *)
Definition type_of (device : StorageDevice) : result string :=
  device_name <- lower_of (get_or (Storage.device device) "") ;;
  model <- lower_of (get_or (model device) "") ;;
  transport <- lower_of (get_or (transport device) "") ;;
  Ok (classify device_name model transport (get_or (size device) "0")).

Definition empty_groups : dict string (list StorageDevice) :=
  [("nvme", []); ("sata", []); ("sas", []); ("mmc", []); ("usb", []);
   ("raid", []); ("other", [])].

Definition group_by_type (devices : list StorageDevice)
    : result (dict string (list StorageDevice)) :=
  fold_result
    (fun groups device =>
       t <- type_of device ;;
       Ok (dict_set groups t (dict_get_or groups t [] ++ [device])))
    devices empty_groups.

(** [curr.get('model', 'Unknown')] inside an f-string. *)
Definition model_text (device : StorageDevice) : string :=
  str_of_jstring (get_or (model device) "Unknown").

(** The positional comparison inside one bucket, index [i]. *)
Definition compare_position (storage_type : string)
    (current_devices baseline_devices : list StorageDevice) (i : nat)
    : list string :=
  match nth_error current_devices i, nth_error baseline_devices i with
  | None, Some base =>
      [fstr [upper storage_type; " "; str_of_nat (i + 1);
             ": missing in current (baseline has '"; model_text base; "')"]]
  | Some curr, None =>
      [fstr [upper storage_type; " "; str_of_nat (i + 1);
             ": extra in current ('"; model_text curr; "')"]]
  | Some curr, Some base =>
      let curr_model := get_or (model curr) "Unknown" in
      let base_model := get_or (model base) "Unknown" in
      if negb (jstring_eqb curr_model base_model) then
        [fstr [upper storage_type; " "; str_of_nat (i + 1);
               " model mismatch: current='"; str_of_jstring curr_model;
               "', baseline='"; str_of_jstring base_model; "'"]]
      else []
  | None, None => []
  end.

(** One iteration of the loop over the type names. *)
Definition compare_type
    (current_by_type baseline_by_type : dict string (list StorageDevice))
    (differences : list string) (storage_type : string) : list string :=
  let current_devices := dict_get_or current_by_type storage_type [] in
  let baseline_devices := dict_get_or baseline_by_type storage_type [] in
  let count_diff :=
    if negb (length current_devices =? length baseline_devices)%nat then
      [fstr [upper storage_type; " count mismatch: current=";
             str_of_nat (length current_devices); ", baseline=";
             str_of_nat (length baseline_devices)]]
    else [] in
  let max_devices := Nat.max (length current_devices) (length baseline_devices) in
  differences ++ count_diff
    ++ flat_map (compare_position storage_type current_devices baseline_devices)
                (seq 0 max_devices).

Definition compare_storage_devices (set_iter : list string -> list string)
    (current baseline : list StorageDevice) : result DiffResult :=
  current_filtered <- filter_virtual_devices current ;;
  baseline_filtered <- filter_virtual_devices baseline ;;
  current_by_type <- group_by_type current_filtered ;;
  baseline_by_type <- group_by_type baseline_filtered ;;
  let all_types := set_iter (set_union (dict_keys current_by_type)
                                       (dict_keys baseline_by_type)) in
  let differences :=
    fold_left (compare_type current_by_type baseline_by_type) all_types [] in
  Ok {| component := "storage_devices";
        status := match differences with [] => "PASS" | _ => "FAIL" end;
        current_count := length current_filtered;
        baseline_count := length baseline_filtered;
        current_by_type :=
          map (fun kv => (fst kv, length (snd kv))) current_by_type;
        baseline_by_type :=
          map (fun kv => (fst kv, length (snd kv))) baseline_by_type;
        virtual_devices_filtered :=
          (length current - length current_filtered,
           length baseline - length baseline_filtered);
        differences := differences |}.

End Storage.

(** ** Riser comparison ([HardwareDiff.compare_riser_cards]) *)

Module Riser.

Record PcieSlot : Type := {
  slot_id : option string;
  pcie_speed : option string;
  pcie_width : option string;
  pcie_status : option string
}.

Record RiserCard : Type := {
  slot : option string;
  populated : option bool;
  fru_product_name : option string;
  fru_manufacturer : option string;
  fru_part_number : option string;
  fru_serial_number : option string;
  pcie_slots : option (list PcieSlot)
}.

Record DiffResult : Type := {
  component : string;
  status : string;
  current_populated : nat;
  baseline_populated : nat;
  current_slots : nat;
  baseline_slots : nat;
  differences : list string;
  critical_differences : list string
}.

Definition get_or (o : option string) (default : string) : string :=
  match o with
  | Some s => s
  | None => default
  end.

(** [riser.get('slot', '')]. *)
Definition slot_of (riser : RiserCard) : string := get_or (slot riser) "".

(** [riser.get('populated', False)]. *)
Definition is_populated (riser : RiserCard) : bool :=
  match populated riser with
  | Some b => b
  | None => false
  end.

(** [riser.get('pcie_slots', [])]. *)
Definition pcie_slots_of (riser : RiserCard) : list PcieSlot :=
  match pcie_slots riser with
  | Some l => l
  | None => []
  end.

Record LoopState : Type := {
  st_differences : list string;
  st_populated_current : nat;
  st_populated_baseline : nat
}.

(** [not curr_serial or curr_serial == 'Required']: the serial number is
    absent, empty or still the placeholder. *)
Definition serial_missing (riser : RiserCard) : bool :=
  let curr_serial := get_or (fru_serial_number riser) "" in
  String.eqb curr_serial "" || String.eqb curr_serial "Required".

(** The FRU checks of a slot populated on both sides. *)
Definition compare_fru (slot : string) (current_riser baseline_riser : RiserCard)
    : list string :=
  let curr_product := get_or (fru_product_name current_riser) "" in
  let base_product := get_or (fru_product_name baseline_riser) "" in
  let curr_manufacturer := get_or (fru_manufacturer current_riser) "" in
  let base_manufacturer := get_or (fru_manufacturer baseline_riser) "" in
  let curr_part := get_or (fru_part_number current_riser) "" in
  let base_part := get_or (fru_part_number baseline_riser) "" in
  let curr_serial := get_or (fru_serial_number current_riser) "" in
  let curr_pcie_slots := pcie_slots_of current_riser in
  let base_pcie_slots := pcie_slots_of baseline_riser in
  (if negb (String.eqb curr_product base_product) then
     [fstr ["Slot "; slot; ": FRU Product Name mismatch - current='";
            curr_product; "', baseline='"; base_product; "'"]]
   else [])
  ++ (if negb (String.eqb curr_manufacturer base_manufacturer) then
        [fstr ["Slot "; slot; ": FRU Manufacturer mismatch - current='";
               curr_manufacturer; "', baseline='"; base_manufacturer; "'"]]
      else [])
  ++ (if negb (String.eqb curr_part base_part) then
        [fstr ["Slot "; slot; ": FRU Part Number mismatch - current='";
               curr_part; "', baseline='"; base_part; "'"]]
      else [])
  ++ (if serial_missing current_riser then
        [fstr ["Slot "; slot; ": FRU Serial Number missing or invalid - current='";
               curr_serial; "'"]]
      else [])
  ++ (if negb (length curr_pcie_slots =? length base_pcie_slots)%nat then
        [fstr ["Slot "; slot; ": PCIe slots count mismatch - current=";
               str_of_nat (length curr_pcie_slots); ", baseline=";
               str_of_nat (length base_pcie_slots)]]
      else []).

(** One iteration of the loop over the sorted slot names. *)
Definition compare_slot (current_by_slot baseline_by_slot : dict string RiserCard)
    (st : LoopState) (slot : string) : LoopState :=
  match dict_get current_by_slot slot with
  | None =>
      {| st_differences := st_differences st ++
           [fstr ["Slot "; slot; ": Missing in current configuration"]];
         st_populated_current := st_populated_current st;
         st_populated_baseline := st_populated_baseline st |}
  | Some current_riser =>
      match dict_get baseline_by_slot slot with
      | None =>
          {| st_differences := st_differences st ++
               [fstr ["Slot "; slot; ": Extra riser found (not in baseline)"]];
             st_populated_current := st_populated_current st;
             st_populated_baseline := st_populated_baseline st |}
      | Some baseline_riser =>
          let curr_populated := is_populated current_riser in
          let base_populated := is_populated baseline_riser in
          let populated_current :=
            (st_populated_current st + if curr_populated then 1 else 0)%nat in
          let populated_baseline :=
            (st_populated_baseline st + if base_populated then 1 else 0)%nat in
          if negb (Bool.eqb curr_populated base_populated) then
            {| st_differences := st_differences st ++
                 [fstr ["Slot "; slot; ": Population status mismatch - ";
                        "current="; if curr_populated then "populated" else "empty";
                        ", ";
                        "baseline="; if base_populated then "populated" else "empty"]];
               st_populated_current := populated_current;
               st_populated_baseline := populated_baseline |}
          else if curr_populated && base_populated then
            {| st_differences := st_differences st ++
                 compare_fru slot current_riser baseline_riser;
               st_populated_current := populated_current;
               st_populated_baseline := populated_baseline |}
          else
            {| st_differences := st_differences st;
               st_populated_current := populated_current;
               st_populated_baseline := populated_baseline |}
      end
  end.

Definition critical_keywords : list string :=
  ["missing in current"; "fru serial number missing";
   "populated risers mismatch"; "population status mismatch"].

Definition is_critical (diff : string) : bool :=
  any_in critical_keywords (lower diff).

Definition compare_riser_cards (current baseline : list RiserCard) : DiffResult :=
  let current_by_slot := dict_of_list slot_of current in
  let baseline_by_slot := dict_of_list slot_of baseline in
  let all_slots := set_union (dict_keys current_by_slot) (dict_keys baseline_by_slot) in
  let st := fold_left (compare_slot current_by_slot baseline_by_slot)
              (sorted all_slots)
              {| st_differences := []; st_populated_current := 0;
                 st_populated_baseline := 0 |} in
  let populated_current := st_populated_current st in
  let populated_baseline := st_populated_baseline st in
  let differences :=
    if negb (populated_current =? populated_baseline)%nat then
      st_differences st ++
        [fstr ["Total populated risers mismatch: ";
               "current="; str_of_nat populated_current;
               ", baseline="; str_of_nat populated_baseline]]
    else st_differences st in
  let critical_differences := filter is_critical differences in
  {| component := "riser_cards";
     status :=
       match critical_differences, differences with
       | _ :: _, _ => "FAIL"
       | [], _ :: _ => "WARNING"
       | [], [] => "PASS"
       end;
     current_populated := populated_current;
     baseline_populated := populated_baseline;
     current_slots := length current;
     baseline_slots := length baseline;
     differences := differences;
     critical_differences := critical_differences |}.

End Riser.

(** ** Sensor validation ([sensor_validator.py]) *)

(** Python's [float] and the JSON numbers of the limits file, kept abstract:
    [py_float] is the builtin [float(s)] ([None] for [ValueError]), [num_ltb]
    is [<], [num_of_Z] embeds the integer constants of the code and
    [num_str] is the formatting inside an f-string. *)
Class Numeric : Type := {
  num : Type;
  py_float : string -> option num;
  num_ltb : num -> num -> bool;
  num_of_Z : Z -> num;
  num_str : num -> string
}.

Module SensorValidator.
Section Validator.
Context {N : Numeric}.

(** A reading as [collect_sensor_data] stores it. *)
Record SensorData : Type := {
  value : option string;
  unit : option string;
  status : option string;
  raw_line : option string
}.

Definition Sensors : Type := dict string SensorData.

(** A value of one of the limit maps: a limits object, or the text
    under the ['comment'] key. *)
Inductive entry (A : Type) : Type :=
| Limit (l : A)
| Text (s : string).
Arguments Limit {A} l.
Arguments Text {A} s.

Record VoltageLimit : Type := {
  v_min : option num;
  v_max : option num;
  v_warn_min : option num;
  v_warn_max : option num
}.

Record TemperatureLimit : Type := {
  t_min : option num;
  t_max : option num;
  t_warn : option num
}.

Record DiscreteConfig : Type := {
  acceptable_statuses : option (dict string (list string));
  critical_if_different : option (list string)
}.

Record ValidationRules : Type := {
  critical_sensors : option (list string);
  optional_sensors : option (list string)
}.

(** The limits document, [self.limits]. *)
Record Limits : Type := {
  board_model : option string;
  voltage_limits : option (dict string (entry VoltageLimit));
  temperature_limits : option (dict string (entry TemperatureLimit));
  discrete_sensors : option DiscreteConfig;
  validation_rules : option ValidationRules
}.

Inductive vvalue : Type :=
| VNum (x : num)
| VText (s : string).

(** An entry of [violations]; every key but [sensor] is optional. *)
Record Violation : Type := {
  vi_sensor : string;
  vi_type : option string;
  vi_message : option string;
  vi_value : option vvalue;
  vi_limit : option num;
  vi_status : option string;
  vi_expected : option (list string);
  vi_issue : option string
}.

Record ValidationResult : Type := {
  actually_checked : nat;
  passed_sensors : nat;
  warning_sensors : nat;
  failed_sensors : nat;
  missing_sensors : nat;
  skipped_sensors : nat;
  violations : list Violation;
  vr_status : string;             (* the ['status'] key *)
  vr_error : option string        (* the ['error'] key of an error stub *)
}.

Definition ACCEPTABLE_STATUSES : list string := ["ok"; "nc"].
Definition WARNING_STATUSES : list string := ["nr"; "ns"].

Definition _is_sensor_status_ok (status : string) : bool :=
  mem (lower status) ACCEPTABLE_STATUSES.

Definition _is_sensor_status_warning (status : string) : bool :=
  mem (lower status) WARNING_STATUSES.

Definition _parse_sensor_value (value_str : string) : option num :=
  let value_lower := strip (lower value_str) in
  if mem value_lower ["na"; "disabled"; "n/a"; "not available";
                      "not specified"; "unknown"; ""]
  then None
  else py_float (replace value_str "," ".").

Definition _create_validation_result_dict : ValidationResult :=
  {| actually_checked := 0; passed_sensors := 0; warning_sensors := 0;
     failed_sensors := 0; missing_sensors := 0; skipped_sensors := 0;
     violations := []; vr_status := "PASS"; vr_error := None |}.

(** *** Updates of a result under construction *)

Definition add_checked (r : ValidationResult) : ValidationResult :=
  {| actually_checked := actually_checked r + 1;
     passed_sensors := passed_sensors r; warning_sensors := warning_sensors r;
     failed_sensors := failed_sensors r; missing_sensors := missing_sensors r;
     skipped_sensors := skipped_sensors r; violations := violations r;
     vr_status := vr_status r; vr_error := vr_error r |}.

Definition add_passed (r : ValidationResult) : ValidationResult :=
  {| actually_checked := actually_checked r;
     passed_sensors := passed_sensors r + 1; warning_sensors := warning_sensors r;
     failed_sensors := failed_sensors r; missing_sensors := missing_sensors r;
     skipped_sensors := skipped_sensors r; violations := violations r;
     vr_status := vr_status r; vr_error := vr_error r |}.

Definition add_warning (r : ValidationResult) : ValidationResult :=
  {| actually_checked := actually_checked r;
     passed_sensors := passed_sensors r; warning_sensors := warning_sensors r + 1;
     failed_sensors := failed_sensors r; missing_sensors := missing_sensors r;
     skipped_sensors := skipped_sensors r; violations := violations r;
     vr_status := vr_status r; vr_error := vr_error r |}.

Definition add_failed (r : ValidationResult) : ValidationResult :=
  {| actually_checked := actually_checked r;
     passed_sensors := passed_sensors r; warning_sensors := warning_sensors r;
     failed_sensors := failed_sensors r + 1; missing_sensors := missing_sensors r;
     skipped_sensors := skipped_sensors r; violations := violations r;
     vr_status := vr_status r; vr_error := vr_error r |}.

Definition add_missing (r : ValidationResult) : ValidationResult :=
  {| actually_checked := actually_checked r;
     passed_sensors := passed_sensors r; warning_sensors := warning_sensors r;
     failed_sensors := failed_sensors r; missing_sensors := missing_sensors r + 1;
     skipped_sensors := skipped_sensors r; violations := violations r;
     vr_status := vr_status r; vr_error := vr_error r |}.

Definition add_skipped (r : ValidationResult) : ValidationResult :=
  {| actually_checked := actually_checked r;
     passed_sensors := passed_sensors r; warning_sensors := warning_sensors r;
     failed_sensors := failed_sensors r; missing_sensors := missing_sensors r;
     skipped_sensors := skipped_sensors r + 1; violations := violations r;
     vr_status := vr_status r; vr_error := vr_error r |}.

Definition add_violation (v : Violation) (r : ValidationResult) : ValidationResult :=
  {| actually_checked := actually_checked r;
     passed_sensors := passed_sensors r; warning_sensors := warning_sensors r;
     failed_sensors := failed_sensors r; missing_sensors := missing_sensors r;
     skipped_sensors := skipped_sensors r; violations := violations r ++ [v];
     vr_status := vr_status r; vr_error := vr_error r |}.

Definition set_status (s : string) (r : ValidationResult) : ValidationResult :=
  {| actually_checked := actually_checked r;
     passed_sensors := passed_sensors r; warning_sensors := warning_sensors r;
     failed_sensors := failed_sensors r; missing_sensors := missing_sensors r;
     skipped_sensors := skipped_sensors r; violations := violations r;
     vr_status := s; vr_error := vr_error r |}.

(** A violation with [sensor], [type] and [message]. *)
Definition typed_violation (sensor type message : string) : Violation :=
  {| vi_sensor := sensor; vi_type := Some type; vi_message := Some message;
     vi_value := None; vi_limit := None; vi_status := None;
     vi_expected := None; vi_issue := None |}.

(** A violation that also records the value and the limit it broke. *)
Definition limit_violation (sensor type : string) (x limit : num)
    (message : string) : Violation :=
  {| vi_sensor := sensor; vi_type := Some type; vi_message := Some message;
     vi_value := Some (VNum x); vi_limit := Some limit; vi_status := None;
     vi_expected := None; vi_issue := None |}.

(** [sensor_data[key]]. *)
Definition item (o : option string) (key : string) : result string :=
  match o with
  | Some s => Ok s
  | None => Raise (KeyError key)
  end.

(** [limits.get(...)] on the value of a limit map. *)
Definition as_limit {A : Type} (e : entry A) : result A :=
  match e with
  | Limit l => Ok l
  | Text _ => Raise (AttributeError "'str' object has no attribute 'get'")
  end.

(** [limit is not None and x < limit], and the same with [>]: the
    limit that [x] breaks, if it does. *)
Definition below (x : num) (limit : option num) : option num :=
  match limit with
  | Some l => if num_ltb x l then Some l else None
  | None => None
  end.

Definition above (x : num) (limit : option num) : option num :=
  match limit with
  | Some l => if num_ltb l x then Some l else None
  | None => None
  end.

(** The status check shared by the voltage and temperature loops: the
    violation a sensor with a status outside [ACCEPTABLE_STATUSES] gets. *)
Definition status_violation (r : ValidationResult) (sensor_name status : string)
    : ValidationResult :=
  if _is_sensor_status_warning status then
    add_violation
      (typed_violation sensor_name "STATUS_WARNING"
         (fstr ["Сенсор "; sensor_name; " имеет статус предупреждения: "; status]))
      (add_warning r)
  else
    add_violation
      (typed_violation sensor_name "STATUS_ERROR"
         (fstr ["Сенсор "; sensor_name; " имеет неправильный статус: "; status]))
      r.

(** *** [validate_voltage_sensors] *)

Definition voltage_step (sensors : Sensors) (r : ValidationResult)
    (kv : string * entry VoltageLimit) : result ValidationResult :=
  let '(sensor_name, limits) := kv in
  if String.eqb sensor_name "comment" then Ok r
  else
    match dict_get sensors sensor_name with
    | None =>
        Ok (add_violation
              (typed_violation sensor_name "MISSING"
                 (fstr ["Сенсор "; sensor_name; " отсутствует в системе"]))
              (add_missing r))
    | Some sensor_data =>
        let r := add_checked r in
        v <- item (value sensor_data) "value" ;;
        if String.eqb v "na" then
          Ok (add_violation
                (typed_violation sensor_name "UNAVAILABLE"
                   (fstr ["Сенсор "; sensor_name; " недоступен: value=na"]))
                r)
        else
          st <- item (status sensor_data) "status" ;;
          if negb (_is_sensor_status_ok st) then
            Ok (status_violation r sensor_name st)
          else
            match _parse_sensor_value v with
            | None =>
                Ok (add_violation
                      (typed_violation sensor_name "PARSE_ERROR"
                         (fstr ["Ошибка парсинга значения "; sensor_name; ": "; v]))
                      r)
            | Some voltage =>
                l <- as_limit limits ;;
                let report (type op : string) (limit : num) (tail : string) :=
                  limit_violation sensor_name type voltage limit
                    (fstr [sensor_name; ": "; num_str voltage; "V "; op; " ";
                           num_str limit; "V "; tail]) in
                match below voltage (v_min l) with
                | Some min_limit =>
                    Ok (add_violation
                          (report "UNDERVOLTAGE" "<" min_limit "(FAIL)")
                          (add_failed r))
                | None =>
                match above voltage (v_max l) with
                | Some max_limit =>
                    Ok (add_violation
                          (report "OVERVOLTAGE" ">" max_limit "(FAIL)")
                          (add_failed r))
                | None =>
                match below voltage (v_warn_min l) with
                | Some warn_min_limit =>
                    Ok (add_violation
                          (report "VOLTAGE_WARNING_LOW" "<" warn_min_limit
                                  "(предупреждение)")
                          (add_warning r))
                | None =>
                match above voltage (v_warn_max l) with
                | Some warn_max_limit =>
                    Ok (add_violation
                          (report "VOLTAGE_WARNING_HIGH" ">" warn_max_limit
                                  "(предупреждение)")
                          (add_warning r))
                | None => Ok (add_passed r)
                end end end end
            end
    end.

(** The status derivation that closes the voltage and temperature
    validators: the initial ['PASS'] stays unless a counter is set. *)
Definition conclude (r : ValidationResult) : ValidationResult :=
  if (0 <? failed_sensors r)%nat then set_status "FAIL" r
  else if (0 <? missing_sensors r)%nat || (0 <? warning_sensors r)%nat
  then set_status "WARNING" r
  else r.

Definition validate_voltage_sensors (limits : Limits) (sensors : Sensors)
    : result ValidationResult :=
  let voltage_limits :=
    match voltage_limits limits with Some d => d | None => [] end in
  r <- fold_result (voltage_step sensors) voltage_limits
         _create_validation_result_dict ;;
  Ok (conclude r).

(** *** [validate_temperature_sensors] *)

Definition rules_list (limits : Limits)
    (field : ValidationRules -> option (list string)) : list string :=
  match validation_rules limits with
  | Some rules => match field rules with Some l => l | None => [] end
  | None => []
  end.

Definition temperature_step (limits : Limits) (sensors : Sensors)
    (r : ValidationResult) (kv : string * entry TemperatureLimit)
    : result ValidationResult :=
  let '(sensor_name, lim) := kv in
  if String.eqb sensor_name "comment" then Ok r
  else
    match dict_get sensors sensor_name with
    | None =>
        let critical_sensors := rules_list limits critical_sensors in
        let optional_sensors := rules_list limits optional_sensors in
        if mem sensor_name critical_sensors then
          Ok (add_violation
                (typed_violation sensor_name "MISSING_CRITICAL"
                   (fstr ["Критический сенсор "; sensor_name; " отсутствует"]))
                (add_missing r))
        else if mem sensor_name optional_sensors then
          Ok (add_skipped r)
        else
          Ok (add_violation
                (typed_violation sensor_name "MISSING"
                   (fstr ["Сенсор "; sensor_name; " отсутствует в системе"]))
                (add_missing r))
    | Some sensor_data =>
        let r := add_checked r in
        v <- item (value sensor_data) "value" ;;
        st <- item (status sensor_data) "status" ;;
        if String.eqb v "na" then
          let status := lower st in
          if mem status ["nc"; "nr"] then Ok (add_skipped r)
          else if String.eqb status "ok" then
            Ok (add_violation
                  (typed_violation sensor_name "SENSOR_DATA_INCONSISTENT"
                     (fstr ["Сенсор "; sensor_name;
                            ": статус OK, но значение недоступно (возможна неисправность датчика)"]))
                  (add_warning r))
          else if mem sensor_name (rules_list limits optional_sensors) then
            Ok (add_skipped r)
          else
            Ok (add_violation
                  (typed_violation sensor_name "UNAVAILABLE"
                     (fstr ["Сенсор "; sensor_name;
                            " недоступен: value=na, status="; st]))
                  r)
        else if negb (_is_sensor_status_ok st) then
          Ok (status_violation r sensor_name st)
        else
          match _parse_sensor_value v with
          | None =>
              Ok (add_violation
                    (typed_violation sensor_name "PARSE_ERROR"
                       (fstr ["Ошибка парсинга температуры "; sensor_name; ": "; v]))
                    r)
          | Some temperature =>
              l <- as_limit lim ;;
              let report (type op : string) (limit : num) (tail : string) :=
                limit_violation sensor_name type temperature limit
                  (fstr [sensor_name; ": "; num_str temperature; "°C "; op; " ";
                         num_str limit; "°C "; tail]) in
              match below temperature (t_min l) with
              | Some min_limit =>
                  Ok (add_violation
                        (report "UNDERTEMPERATURE" "<" min_limit
                                "(возможен обрыв датчика)")
                        (add_failed r))
              | None =>
              match above temperature (t_max l) with
              | Some max_limit =>
                  Ok (add_violation
                        (report "OVERTEMPERATURE" ">" max_limit
                                "(КРИТИЧЕСКИЙ ПЕРЕГРЕВ!)")
                        (add_failed r))
              | None =>
              match above temperature (t_warn l) with
              | Some warn_limit =>
                  Ok (add_violation
                        (report "WARNING_TEMPERATURE" ">" warn_limit
                                "(предупреждение)")
                        (add_warning r))
              | None => Ok (add_passed r)
              end end end
          end
    end.

Definition validate_temperature_sensors (limits : Limits) (sensors : Sensors)
    : result ValidationResult :=
  let temp_limits :=
    match temperature_limits limits with Some d => d | None => [] end in
  r <- fold_result (temperature_step limits sensors) temp_limits
         _create_validation_result_dict ;;
  Ok (conclude r).

(** *** [validate_fan_sensors] and [validate_power_sensors] *)

(** A violation of the fan and power validators: [sensor], [value],
    [issue] and, for a bad status, [status]. *)
Definition range_violation (sensor : string) (x : num)
    (status : option string) (issue : string) : Violation :=
  {| vi_sensor := sensor; vi_type := None; vi_message := None;
     vi_value := Some (VNum x); vi_limit := None; vi_status := status;
     vi_expected := None; vi_issue := Some issue |}.

(** The loop body the two validators share, for the sensors whose unit
    is [unit_name] and the plausible range [lo .. hi]. *)
Definition range_step (unit_name : string) (lo hi : Z)
    (status_issue range_issue range_unit : string)
    (r : ValidationResult) (kv : string * SensorData)
    : result ValidationResult :=
  let '(sensor_name, sensor_data) := kv in
  u <- item (unit sensor_data) "unit" ;;
  if String.eqb (lower u) unit_name then
    let r := add_checked r in
    v <- item (value sensor_data) "value" ;;
    match _parse_sensor_value v with
    | None => Ok (add_skipped r)
    | Some x =>
        st <- item (status sensor_data) "status" ;;
        let in_range (r : ValidationResult) :=
          if num_ltb x (num_of_Z lo) || num_ltb (num_of_Z hi) x then
            add_violation
              (range_violation sensor_name x None
                 (fstr [range_issue; num_str x; range_unit]))
              (add_failed r)
          else add_passed r in
        if negb (_is_sensor_status_ok st) then
          if _is_sensor_status_warning st then
            Ok (in_range (add_warning r))
          else
            Ok (add_violation
                  (range_violation sensor_name x (Some st)
                     (fstr [status_issue; st]))
                  (add_failed r))
        else Ok (in_range r)
    end
  else Ok r.

(** The status derivation of the fan and power validators. *)
Definition conclude_range (r : ValidationResult) : ValidationResult :=
  if (0 <? failed_sensors r)%nat then set_status "FAIL" r
  else if (0 <? warning_sensors r)%nat then set_status "WARNING" r
  else set_status "PASS" r.

Definition validate_fan_sensors (sensors : Sensors) : result ValidationResult :=
  r <- fold_result
         (range_step "rpm" 100 20000
            "Неправильный статус вентилятора: "
            "Скорость вентилятора вне разумных пределов: " " RPM")
         sensors _create_validation_result_dict ;;
  Ok (conclude_range r).

Definition validate_power_sensors (sensors : Sensors) : result ValidationResult :=
  r <- fold_result
         (range_step "watts" 0 2000
            "Неправильный статус сенсора мощности: "
            "Потребление мощности вне разумных пределов: " "W")
         sensors _create_validation_result_dict ;;
  Ok (conclude_range r).

(** *** [validate_discrete_sensors] *)

Definition status_mismatch (sensor type actual_status : string)
    (expected : list string) (message : string) : Violation :=
  {| vi_sensor := sensor; vi_type := Some type; vi_message := Some message;
     vi_value := Some (VText actual_status); vi_limit := None;
     vi_status := None; vi_expected := Some expected; vi_issue := None |}.

Definition discrete_step (critical_sensors : list string) (sensors : Sensors)
    (r : ValidationResult) (kv : string * list string)
    : result ValidationResult :=
  let '(sensor_name, expected_statuses) := kv in
  match dict_get sensors sensor_name with
  | None =>
      Ok (add_violation
            (typed_violation sensor_name "MISSING"
               (fstr ["Дискретный сенсор "; sensor_name; " отсутствует"]))
            r)
  | Some sensor_data =>
      let r := add_checked r in
      actual_status <- item (status sensor_data) "status" ;;
      if mem actual_status expected_statuses then Ok (add_passed r)
      else if mem sensor_name critical_sensors then
        Ok (add_violation
              (status_mismatch sensor_name "CRITICAL_STATUS" actual_status
                 expected_statuses
                 (fstr [sensor_name; ": критический статус "; actual_status;
                        ", ожидался "; str_of_list expected_statuses]))
              (add_failed r))
      else
        Ok (add_violation
              (status_mismatch sensor_name "WARNING_STATUS" actual_status
                 expected_statuses
                 (fstr [sensor_name; ": неожиданный статус "; actual_status;
                        ", ожидался "; str_of_list expected_statuses]))
              (add_warning r))
  end.

(** The status derivation of the discrete validator. *)
Definition conclude_discrete (r : ValidationResult) : ValidationResult :=
  if (0 <? failed_sensors r)%nat then set_status "FAIL" r
  else if (0 <? warning_sensors r)%nat then set_status "WARNING" r
  else r.

Definition validate_discrete_sensors (limits : Limits) (sensors : Sensors)
    : result ValidationResult :=
  let acceptable_statuses :=
    match discrete_sensors limits with
    | Some c => match acceptable_statuses c with Some d => d | None => [] end
    | None => []
    end in
  let critical_sensors :=
    match discrete_sensors limits with
    | Some c => match critical_if_different c with Some l => l | None => [] end
    | None => []
    end in
  r <- fold_result (discrete_step critical_sensors sensors) acceptable_statuses
         _create_validation_result_dict ;;
  Ok (conclude_discrete r).

(** *** [perform_full_validation] *)

Record ValidationInfo : Type := {
  limits_file : string;
  validation_date : string;
  info_board_model : string;
  total_sensors_available : nat
}.

Record ErrorDetails : Type := {
  error_type : string;
  error_message : string;
  stage : string
}.

Record ReportSummary : Type := {
  total_checked : nat;
  total_passed : nat;
  total_violations : nat;
  categories_checked : nat
}.

Record Report : Type := {
  validation_info : ValidationInfo;
  overall_status : string;
  summary : ReportSummary;
  category_results : dict string ValidationResult;
  raw_sensor_data : Sensors;
  error_details : option ErrorDetails
}.

(** The result that stands in for a category whose validator raised. *)
Definition error_stub (category_error : exn) : ValidationResult :=
  {| actually_checked := 0; passed_sensors := 0; warning_sensors := 0;
     failed_sensors := 0; missing_sensors := 0; skipped_sensors := 0;
     violations := []; vr_status := "ERROR";
     vr_error := Some (exn_message category_error) |}.

Definition Validator : Type := Sensors -> result ValidationResult.

(** One iteration of the loop over [category_functions]: the [try] around
    the call of a validator. *)
Definition run_category (sensors : Sensors)
    (acc : dict string ValidationResult * nat) (cf : string * Validator)
    : dict string ValidationResult * nat :=
  let '(category_results, successful_categories) := acc in
  let '(category_name, validation_func) := cf in
  match validation_func sensors with
  | Ok category_result =>
      (dict_set category_results category_name category_result,
       successful_categories + 1)
  | Raise category_error =>
      (dict_set category_results category_name (error_stub category_error),
       successful_categories)
  end.

Definition sum_nat (l : list nat) : nat := fold_left Nat.add l 0.

(** [perform_full_validation] for a given list of category functions;
    [collected] is what [collect_sensor_data(conf)] returned or raised,
    [file] and [now] are the two strings of [validation_info]. No step
    after the collection raises past its own handler, so the outer
    handler only has to exist. *)
Definition perform_full_validation_with
    (category_functions : list (string * Validator))
    (file now : string) (limits : Limits) (collected : result Sensors)
    : result Report :=
  let info0 :=
    {| limits_file := file; validation_date := now;
       info_board_model :=
         match board_model limits with Some m => m | None => "Unknown" end;
       total_sensors_available := 0 |} in
  let summary0 :=
    {| total_checked := 0; total_passed := 0; total_violations := 0;
       categories_checked := 0 |} in
  let failed_with (details : ErrorDetails) :=
    {| validation_info := info0; overall_status := "ERROR";
       summary := summary0; category_results := []; raw_sensor_data := [];
       error_details := Some details |} in
  try_except
    (match collected with
     | Raise sensor_error =>
         Ok (failed_with
               {| error_type := "SENSOR_COLLECTION_FAILED";
                  error_message := exn_message sensor_error;
                  stage := "collect_sensor_data" |})
     | Ok sensors =>
         let '(category_results, successful_categories) :=
           fold_left (run_category sensors) category_functions ([], 0) in
         let results := dict_values category_results in
         let all_statuses := map vr_status results in
         Ok {| validation_info :=
                 {| limits_file := file; validation_date := now;
                    info_board_model := info_board_model info0;
                    total_sensors_available := length sensors |};
               overall_status :=
                 if mem "ERROR" all_statuses then "ERROR"
                 else if mem "FAIL" all_statuses then "FAIL"
                 else if mem "WARNING" all_statuses then "WARNING"
                 else "PASS";
               summary :=
                 {| total_checked := sum_nat (map actually_checked results);
                    total_passed := sum_nat (map passed_sensors results);
                    total_violations :=
                      sum_nat (map (fun r => length (violations r)) results);
                    categories_checked := successful_categories |};
               category_results := category_results;
               raw_sensor_data := sensors;
               error_details := None |}
     end)
    (fun unexpected_error =>
       Ok (failed_with
             {| error_type := "UNEXPECTED_ERROR";
                error_message := exn_message unexpected_error;
                stage := "perform_full_validation" |})).

Definition perform_full_validation (file now : string) (limits : Limits)
    (collected : result Sensors) : result Report :=
  perform_full_validation_with
    [("voltages", validate_voltage_sensors limits);
     ("temperatures", validate_temperature_sensors limits);
     ("fans", validate_fan_sensors);
     ("power", validate_power_sensors);
     ("discrete", validate_discrete_sensors limits)]
    file now limits collected.

End Validator.

Arguments Limit {A} l.
Arguments Text {A} s.

End SensorValidator.

(** ** The diff aggregator ([HardwareDiff.perform_full_diff]) *)

Module HardwareDiff.

(** A configuration document: the baseline file, or what
    [collect_current_config] returns. The baseline carries
    [baseline_date], the current configuration [scan_date]. *)
Record Config : Type := {
  scan_date : option string;
  baseline_date : option string;
  processors : option (list Processors.Processor);
  memory_modules : option (list Memory.MemoryModule);
  pci_devices : option (list Pci.PciDevice);
  usb_devices : option (list Usb.UsbDevice);
  storage_devices : option (list Storage.StorageDevice);
  riser_cards : option (list Riser.RiserCard)
}.

Record ScanInfo : Type := {
  info_baseline_date : string;
  current_scan_date : string;
  comparison_date : string
}.

Record Summary : Type := {
  total_components_checked : nat;
  components_passed : nat;
  components_warning : nat;
  components_failed : nat;
  total_differences : nat
}.

Record DiffReport : Type := {
  scan_info : ScanInfo;
  overall_status : string;
  cpu_diff : Processors.DiffResult;
  memory_diff : Memory.DiffResult;
  pci_diff : Pci.DiffResult;
  usb_diff : Usb.DiffResult;
  storage_result : Storage.DiffResult;
  riser_result : Riser.DiffResult;
  summary : Summary;
  current_config : Config
}.

(** [config[key]]. *)
Definition config_item {A : Type} (o : option A) (key : string) : result A :=
  match o with
  | Some a => Ok a
  | None => Raise (KeyError key)
  end.

(** [sum(1 for s in all_statuses if s == status)]. *)
Definition count_status (status : string) (all_statuses : list string) : nat :=
  length (filter (String.eqb status) all_statuses).

(** The overall status of the six component statuses. *)
Definition overall_of (all_statuses : list string) : string :=
  if mem "FAIL" all_statuses then "FAIL"
  else if mem "WARNING" all_statuses then "WARNING"
  else "PASS".

(** [perform_full_diff]; [collected] is what [collect_current_config]
    returned or raised, [now] the time stamp of the comparison. Nothing is
    caught: what a comparator raises leaves the function. *)
Definition perform_full_diff (set_iter : list string -> list string)
    (now : string) (baseline_config : Config) (collected : result Config)
    : result DiffReport :=
  current_config <- collected ;;
  current_cpus <- config_item (processors current_config) "processors" ;;
  baseline_cpus <- config_item (processors baseline_config) "processors" ;;
  cpu_diff <- Processors.compare_processors set_iter current_cpus baseline_cpus ;;
  current_dimms <- config_item (memory_modules current_config) "memory_modules" ;;
  baseline_dimms <- config_item (memory_modules baseline_config) "memory_modules" ;;
  memory_diff <- Memory.compare_memory current_dimms baseline_dimms ;;
  current_pci <- config_item (pci_devices current_config) "pci_devices" ;;
  baseline_pci <- config_item (pci_devices baseline_config) "pci_devices" ;;
  pci_diff <- Pci.compare_pci_devices set_iter current_pci baseline_pci ;;
  current_usb <- config_item (usb_devices current_config) "usb_devices" ;;
  baseline_usb <- config_item (usb_devices baseline_config) "usb_devices" ;;
  let usb_diff := Usb.compare_usb_devices set_iter current_usb baseline_usb in
  current_disks <- config_item (storage_devices current_config) "storage_devices" ;;
  baseline_disks <- config_item (storage_devices baseline_config) "storage_devices" ;;
  storage_result <-
    Storage.compare_storage_devices set_iter current_disks baseline_disks ;;
  current_risers <- config_item (riser_cards current_config) "riser_cards" ;;
  baseline_risers <- config_item (riser_cards baseline_config) "riser_cards" ;;
  let riser_result := Riser.compare_riser_cards current_risers baseline_risers in
  let all_statuses :=
    [Processors.status cpu_diff; Memory.status memory_diff; Pci.status pci_diff;
     Usb.status usb_diff; Storage.status storage_result;
     Riser.status riser_result] in
  let total_differences :=
    (length (Processors.differences cpu_diff)
     + length (Memory.differences memory_diff)
     + length (Pci.differences pci_diff)
     + length (Usb.differences usb_diff)
     + length (Storage.differences storage_result)
     + length (Riser.differences riser_result))%nat in
  current_scan_date <- config_item (scan_date current_config) "scan_date" ;;
  Ok {| scan_info :=
          {| info_baseline_date :=
               match baseline_date baseline_config with
               | Some d => d
               | None => "Unknown"
               end;
             current_scan_date := current_scan_date;
             comparison_date := now |};
        overall_status := overall_of all_statuses;
        cpu_diff := cpu_diff;
        memory_diff := memory_diff;
        pci_diff := pci_diff;
        usb_diff := usb_diff;
        storage_result := storage_result;
        riser_result := riser_result;
        summary :=
          {| total_components_checked :=
               length (filter (fun s => negb (String.eqb s "UNKNOWN")) all_statuses);
             components_passed := count_status "PASS" all_statuses;
             components_warning := count_status "WARNING" all_statuses;
             components_failed := count_status "FAIL" all_statuses;
             total_differences := total_differences |};
        current_config := current_config |}.

End HardwareDiff.

(** ** The exit status of [sensor_validator.main] *)

(** The three-way branch that closes [main]: 1 for FAIL, 2 for WARNING, 0
    for every other overall status. *)
Definition exit_code_of (overall_status : string) : Z :=
  if String.eqb overall_status "FAIL" then 1%Z
  else if String.eqb overall_status "WARNING" then 2%Z
  else 0%Z.

(** ** Example snapshots *)

(** The order in which a set happens to yield its members: as stored, or
    the other way round. Both are admissible. *)
Definition stored_order (l : list string) : list string := l.
Definition reverse_order (l : list string) : list string := rev l.

Definition cpu (socket model : string) (cores threads : option Processors.count)
    : Processors.Processor :=
  {| Processors.socket := Some socket; Processors.model := Some model;
     Processors.cores := cores; Processors.threads := threads |}.

Definition xeon : string := "Intel(R) Xeon(R) Gold 6338 CPU @ 2.00GHz".
Definition epyc : string := "AMD EPYC 7543 32-Core Processor".

Definition example_cpus : list Processors.Processor :=
  [cpu "CPU0" xeon (Some (Processors.CInt 32)) (Some (Processors.CInt 64));
   cpu "CPU1" xeon (Some (Processors.CInt 32)) (Some (Processors.CInt 64))].

Definition dimm (slot size : string) (populated : bool) : Memory.MemoryModule :=
  {| Memory.slot := Some slot; Memory.size := Some size;
     Memory.populated := Some populated |}.

(** Four populated slots of 32 GB: 128 GiB. *)
Definition dimms_128 : list Memory.MemoryModule :=
  [dimm "DIMM_A1" "32 GB" true; dimm "DIMM_B1" "32 GB" true;
   dimm "DIMM_C1" "32 GB" true; dimm "DIMM_D1" "32 GB" true;
   dimm "DIMM_E1" "No Module Installed" false].

(** Four populated slots, two of them 16 GB: 96 GiB. *)
Definition dimms_96 : list Memory.MemoryModule :=
  [dimm "DIMM_A1" "32 GB" true; dimm "DIMM_B1" "32 GB" true;
   dimm "DIMM_C1" "16 GB" true; dimm "DIMM_D1" "16 GB" true;
   dimm "DIMM_E1" "No Module Installed" false].

(** What [fallback_get_memory_info] returns for the four modules of
    [dimms_96]: dmidecode prints the size of a module before its locator,
    so the first record holds a size and no slot name, every later record
    the size printed after its locator, and the last one no size. *)
Definition fallback_dimms_96 : list Memory.MemoryModule :=
  [{| Memory.slot := None; Memory.size := Some "32 GB";
      Memory.populated := Some true |};
   dimm "DIMM_A1" "32 GB" true; dimm "DIMM_B1" "16 GB" true;
   dimm "DIMM_C1" "16 GB" true;
   {| Memory.slot := Some "DIMM_D1"; Memory.size := None;
      Memory.populated := None |}].

(** Three populated slots that still total 128 GiB. *)
Definition dimms_3_slots : list Memory.MemoryModule :=
  [dimm "DIMM_A1" "64 GB" true; dimm "DIMM_B1" "32 GB" true;
   dimm "DIMM_C1" "32 GB" true; dimm "DIMM_D1" "No Module Installed" false;
   dimm "DIMM_E1" "No Module Installed" false].

Definition pci (bdf class description : string) : Pci.PciDevice :=
  {| Pci.bdf := Some bdf; Pci.description := Some description;
     Pci.device_class := Some class; Pci.width := Some "unknown";
     Pci.speed := Some "unknown" |}.

Definition example_pci : list Pci.PciDevice :=
  [pci "00:00.0" "Host bridge" "Host bridge: Intel Corporation Device 09a2";
   pci "17:00.0" "Ethernet controller [0200]"
       "Ethernet controller: Intel Corporation I350 Gigabit";
   pci "65:00.0" "VGA compatible controller" "VGA compatible controller: ASPEED"].

Definition usb (bus device vid_pid description : string) : Usb.UsbDevice :=
  {| Usb.bus := Some bus; Usb.device := Some device;
     Usb.vid_pid := Some vid_pid; Usb.description := Some description;
     Usb.vendor := None; Usb.usb_version := Some "USB2.0" |}.

Definition root_hub : Usb.UsbDevice :=
  usb "001" "001" "1d6b:0002" "Linux Foundation 2.0 root hub".

(** The KVM hub of the ignore list, as [lsusb] reports it. *)
Definition kvm_hub : Usb.UsbDevice :=
  usb "001" "004" "0557:8021" "ATEN International Co., Ltd Hub".

Definition disk (name model size : string) : Storage.StorageDevice :=
  {| Storage.name := Some name; Storage.device := None;
     Storage.model := Some (JStr model); Storage.size := Some (JStr size);
     Storage.transport := None;
     Storage.dev_type := Some (if startswith name "nvme" then "nvme" else "sata");
     Storage.interface := Some (if startswith name "nvme" then "NVMe" else "SATA") |}.

(** An NVMe drive as [get_storage_info] records it. *)
Definition nvme_disk : Storage.StorageDevice :=
  disk "nvme0n1" "Samsung SSD 980 PRO 1TB" "931.5G".

(** A disk for which [lsblk] prints ["model": null], as
    [get_storage_info] records it. *)
Definition unnamed_model_disk : Storage.StorageDevice :=
  {| Storage.name := Some "sda"; Storage.device := None;
     Storage.model := Some JNull; Storage.size := Some (JStr "447.1G");
     Storage.transport := None;
     Storage.dev_type := Some "sata"; Storage.interface := Some "SATA" |}.

Definition pcie_slot (slot_id : string) : Riser.PcieSlot :=
  {| Riser.slot_id := Some slot_id; Riser.pcie_speed := Some "PCIe 4.0";
     Riser.pcie_width := Some "x16"; Riser.pcie_status := Some "active" |}.

Definition riser (slot product part serial : string) (populated : bool)
    (pcie_slots : list Riser.PcieSlot) : Riser.RiserCard :=
  {| Riser.slot := Some slot; Riser.populated := Some populated;
     Riser.fru_product_name := Some product;
     Riser.fru_manufacturer := Some "GIGA-BYTE TECHNOLOGY CO., LTD";
     Riser.fru_part_number := Some part;
     Riser.fru_serial_number := Some serial;
     Riser.pcie_slots := Some pcie_slots |}.

(** The riser list that [create_baseline_config.get_riser_info] writes
    into a baseline when it has no BMC to ask. *)
Definition baseline_risers : list Riser.RiserCard :=
  [riser "RISER_SLOT_1" "RSMB-MS93-FS0-RISER-1" "25VH1-1A00-11NN" "Required" true
         [pcie_slot "SLOT_1"; pcie_slot "SLOT_2"];
   riser "RISER_SLOT_2" "RSMB-MS93-FS0-RISER-2" "25VH1-1A00-22NN" "Required" true
         [pcie_slot "SLOT_3"];
   riser "RISER_SLOT_3" "RSMB-MS93-FS0-RISER-3" "25VH1-1A00-33NN" "Required" false
         []].

(** The same risers as read from their FRU, serial numbers included. *)
Definition scanned_risers : list Riser.RiserCard :=
  [riser "RISER_SLOT_1" "RSMB-MS93-FS0-RISER-1" "25VH1-1A00-11NN" "GB2207A0113" true
         [pcie_slot "SLOT_1"; pcie_slot "SLOT_2"];
   riser "RISER_SLOT_2" "RSMB-MS93-FS0-RISER-2" "25VH1-1A00-22NN" "GB2207A0254" true
         [pcie_slot "SLOT_3"]].

(** A processor seen by the fallback collector, which cannot count
    threads, and its baseline entries. *)
Definition degraded_cpu : Processors.Processor :=
  cpu "CPU0" xeon (Some (Processors.CInt 32)) (Some (Processors.CStr "Unknown")).

Definition baseline_cpu : Processors.Processor :=
  cpu "CPU0" xeon (Some (Processors.CInt 32)) (Some (Processors.CInt 64)).

Definition baseline_cpu_unknown_cores : Processors.Processor :=
  cpu "CPU0" xeon Processors.unknown (Some (Processors.CInt 64)).

(** Another model with hyper-threading off. *)
Definition downgraded_cpu : Processors.Processor :=
  cpu "CPU0" epyc (Some (Processors.CInt 32)) (Some (Processors.CInt 32)).

(** A processor with half of its cores. *)
Definition halved_cpu : Processors.Processor :=
  cpu "CPU0" xeon (Some (Processors.CInt 16)) (Some (Processors.CInt 64)).

(** Both processors replaced by another model. *)

Definition replaced_cpus : list Processors.Processor :=
  [cpu "CPU0" epyc (Some (Processors.CInt 32)) (Some (Processors.CInt 64));
   cpu "CPU1" epyc (Some (Processors.CInt 32)) (Some (Processors.CInt 64))].

(** A limits document that expects one discrete sensor and one voltage. *)
Definition example_limits {N : Numeric} : SensorValidator.Limits :=
  {| SensorValidator.board_model := Some "MS93-FS0";
     SensorValidator.voltage_limits :=
       Some [("P_12V",
              SensorValidator.Limit
                {| SensorValidator.v_min := Some (num_of_Z 11);
                   SensorValidator.v_max := Some (num_of_Z 13);
                   SensorValidator.v_warn_min := None;
                   SensorValidator.v_warn_max := None |})];
     SensorValidator.temperature_limits := None;
     SensorValidator.discrete_sensors :=
       Some {| SensorValidator.acceptable_statuses :=
                 Some [("PSU1_Status", ["0x0180"])];
               SensorValidator.critical_if_different := Some ["PSU1_Status"] |};
     SensorValidator.validation_rules := None |}.

(** Readings without the discrete sensor and the voltage that
    [example_limits] expects. *)
Definition example_readings {N : Numeric} : SensorValidator.Sensors :=
  [("CPU0_TEMP",
    {| SensorValidator.value := Some "45.000";
       SensorValidator.unit := Some "degrees C";
       SensorValidator.status := Some "ok";
       SensorValidator.raw_line := None |})].

(** Readings with a fan entry that lost its [value] key. *)
Definition broken_readings {N : Numeric} : SensorValidator.Sensors :=
  [("FAN1",
    {| SensorValidator.value := None;
       SensorValidator.unit := Some "RPM";
       SensorValidator.status := Some "ok";
       SensorValidator.raw_line := None |})].

(** What the aggregator stores for a category: the result of its
    validator, or the error stub when the validator raised. *)
Definition category_outcome {N : Numeric} (validation_func : SensorValidator.Validator)
    (sensors : SensorValidator.Sensors) : SensorValidator.ValidationResult :=
  match validation_func sensors with
  | Ok category_result => category_result
  | Raise category_error => SensorValidator.error_stub category_error
  end.

(** The rule of the specification for the status of a category, read on
    the counters of its result: FAIL if any sensor failed, else WARNING if
    any sensor is missing or in warning, else PASS. *)
Definition spec_category_status {N : Numeric} (r : SensorValidator.ValidationResult)
    : string :=
  if (0 <? SensorValidator.failed_sensors r)%nat then "FAIL"
  else if (0 <? SensorValidator.missing_sensors r)%nat
          || (0 <? SensorValidator.warning_sensors r)%nat
  then "WARNING"
  else "PASS".

(** The five category functions of [perform_full_validation], with
    arbitrary validators in the five places. *)
Definition five_categories {N : Numeric}
    (voltages temperatures fans power discrete : SensorValidator.Validator)
    : list (string * SensorValidator.Validator) :=
  [("voltages", voltages); ("temperatures", temperatures); ("fans", fans);
   ("power", power); ("discrete", discrete)].

(** ** Loop invariants

    What the loop of a comparator keeps when the two snapshots agree: no
    finding so far. *)

Definition pci_clean (st : Pci.LoopState) : Prop :=
  Pci.st_status st = "PASS" /\ Pci.st_differences st = [].

Definition usb_clean (st : Usb.LoopState) : Prop :=
  Usb.st_status st = "PASS" /\ Usb.st_differences st = [].

Definition riser_clean (st : Riser.LoopState) : Prop :=
  Riser.st_differences st = []
  /\ Riser.st_populated_current st = Riser.st_populated_baseline st.

(** A baseline document and two current configurations: one of a unit
    that was changed, one of a unit that matches the baseline. *)
Definition example_baseline_config : HardwareDiff.Config :=
  {| HardwareDiff.scan_date := None;
     HardwareDiff.baseline_date := Some "2024-01-15";
     HardwareDiff.processors := Some example_cpus;
     HardwareDiff.memory_modules := Some dimms_128;
     HardwareDiff.pci_devices := Some example_pci;
     HardwareDiff.usb_devices := Some [root_hub];
     HardwareDiff.storage_devices := Some [nvme_disk];
     HardwareDiff.riser_cards := Some scanned_risers |}.

Definition changed_config : HardwareDiff.Config :=
  {| HardwareDiff.scan_date := Some "2024-03-01";
     HardwareDiff.baseline_date := None;
     HardwareDiff.processors := Some replaced_cpus;
     HardwareDiff.memory_modules := Some dimms_96;
     HardwareDiff.pci_devices := Some example_pci;
     HardwareDiff.usb_devices := Some [root_hub; kvm_hub];
     HardwareDiff.storage_devices := Some [nvme_disk];
     HardwareDiff.riser_cards := Some scanned_risers |}.

Definition matching_config : HardwareDiff.Config :=
  {| HardwareDiff.scan_date := Some "2024-03-01";
     HardwareDiff.baseline_date := None;
     HardwareDiff.processors := Some example_cpus;
     HardwareDiff.memory_modules := Some dimms_128;
     HardwareDiff.pci_devices := Some example_pci;
     HardwareDiff.usb_devices := Some [root_hub];
     HardwareDiff.storage_devices := Some [nvme_disk];
     HardwareDiff.riser_cards := Some scanned_risers |}.

(** The configuration of a unit whose first processor lost half of its
    cores. *)
Definition halved_config : HardwareDiff.Config :=
  {| HardwareDiff.scan_date := Some "2024-03-01";
     HardwareDiff.baseline_date := None;
     HardwareDiff.processors :=
       Some [cpu "CPU0" xeon (Some (Processors.CInt 16)) (Some (Processors.CInt 64));
             cpu "CPU1" xeon (Some (Processors.CInt 32)) (Some (Processors.CInt 64))];
     HardwareDiff.memory_modules := Some dimms_128;
     HardwareDiff.pci_devices := Some example_pci;
     HardwareDiff.usb_devices := Some [root_hub];
     HardwareDiff.storage_devices := Some [nvme_disk];
     HardwareDiff.riser_cards := Some scanned_risers |}.

(** ** Decimal readings *)

(** An instance of [Numeric] for the evaluated examples: readings and
    limits as exact decimals. On literals of at most 15 significant digits
    the comparison agrees with that of the doubles Python reads from them,
    and [num_str] prints positional notation with the trailing zeros
    dropped, as Python does between [1e-4] and [1e16]. *)
Definition decimal_ltb (a b : float_literal) : bool :=
  match a, b with
  | FNan, _ => false
  | _, FNan => false
  | FInf na, FInf nb => na && negb nb
  | FInf na, FDec _ _ => na
  | FDec _ _, FInf nb => negb nb
  | FDec m1 e1, FDec m2 e2 =>
      let e := Z.min e1 e2 in
      (m1 * 10 ^ (e1 - e) <? m2 * 10 ^ (e2 - e))%Z
  end.

(** [s] without its trailing zeros. *)
Definition drop_trailing_zeros (s : string) : string :=
  rev_string (lstrip_class (Ascii.eqb "0") (rev_string s)).

(** [s] padded with zeros on the left up to [width] characters. *)
Fixpoint zero_pad (width : nat) (s : string) : string :=
  match width with
  | O => s
  | S w => if (String.length s <? S w)%nat
           then String "0" (zero_pad w s) else s
  end.

Definition decimal_str (f : float_literal) : string :=
  match f with
  | FNan => "nan"
  | FInf negative => if negative then "-inf" else "inf"
  | FDec m e =>
      if (0 <=? e)%Z then fstr [str_of_Z (m * 10 ^ e); ".0"]
      else
        let scale := (10 ^ (- e))%Z in
        let fraction :=
          drop_trailing_zeros
            (zero_pad (Z.to_nat (- e)) (str_of_Z (Z.abs m mod scale))) in
        fstr [if (m <? 0)%Z then "-" else ""; str_of_Z (Z.abs m / scale); ".";
              if String.eqb fraction "" then "0" else fraction]
  end.

Definition decimal_readings : Numeric :=
  {| num := float_literal;
     py_float := float_of_string;
     num_ltb := decimal_ltb;
     num_of_Z := fun z => FDec z 0;
     num_str := decimal_str |}.

(** The decimal [m * 10^e] as a reading or a limit. *)
Definition dec (m e : Z) : @num decimal_readings := FDec m e.

(** The limits of a small board and two sets of readings of it: one in
    order, one with an overvoltage, an absent temperature sensor, a fan
    that stands still and a power supply in a critical state. *)
Definition bench_limits : @SensorValidator.Limits decimal_readings :=
  {| SensorValidator.board_model := Some "MS93-FS0";
     SensorValidator.voltage_limits :=
       Some [("comment", SensorValidator.Text "all voltages in volts");
             ("P_12V",
              SensorValidator.Limit
                {| SensorValidator.v_min := Some (dec 114 (-1));
                   SensorValidator.v_max := Some (dec 126 (-1));
                   SensorValidator.v_warn_min := Some (dec 116 (-1));
                   SensorValidator.v_warn_max := Some (dec 124 (-1)) |});
             ("P_3V3",
              SensorValidator.Limit
                {| SensorValidator.v_min := Some (dec 31 (-1));
                   SensorValidator.v_max := Some (dec 35 (-1));
                   SensorValidator.v_warn_min := None;
                   SensorValidator.v_warn_max := None |})];
     SensorValidator.temperature_limits :=
       Some [("CPU0_TEMP",
              SensorValidator.Limit
                {| SensorValidator.t_min := Some (dec 5 0);
                   SensorValidator.t_max := Some (dec 95 0);
                   SensorValidator.t_warn := Some (dec 85 0) |});
             ("DIMM_TEMP",
              SensorValidator.Limit
                {| SensorValidator.t_min := Some (dec 5 0);
                   SensorValidator.t_max := Some (dec 85 0);
                   SensorValidator.t_warn := Some (dec 75 0) |})];
     SensorValidator.discrete_sensors :=
       Some {| SensorValidator.acceptable_statuses :=
                 Some [("PSU1_Status", ["0x0180"]); ("PSU2_Status", ["0x0180"])];
               SensorValidator.critical_if_different := Some ["PSU1_Status"] |};
     SensorValidator.validation_rules :=
       Some {| SensorValidator.critical_sensors := Some ["CPU0_TEMP"];
               SensorValidator.optional_sensors := Some ["DIMM_TEMP"] |} |}.

Definition reading (value unit status : string) : SensorValidator.SensorData :=
  {| SensorValidator.value := Some value;
     SensorValidator.unit := Some unit;
     SensorValidator.status := Some status;
     SensorValidator.raw_line := None |}.

Definition bench_readings : SensorValidator.Sensors :=
  [("P_12V", reading "12.096" "Volts" "ok");
   ("P_3V3", reading "3.312" "Volts" "ok");
   ("CPU0_TEMP", reading "45.000" "degrees C" "ok");
   ("DIMM_TEMP", reading "38.000" "degrees C" "ok");
   ("FAN1", reading "8400.000" "RPM" "ok");
   ("PSU1_PIN", reading "220.000" "Watts" "ok");
   ("PSU1_Status", reading "0x0" "discrete" "0x0180");
   ("PSU2_Status", reading "0x0" "discrete" "0x0180")].

Definition faulty_readings : SensorValidator.Sensors :=
  [("P_12V", reading "12.960" "Volts" "ok");
   ("P_3V3", reading "na" "Volts" "ns");
   ("CPU0_TEMP", reading "88.000" "degrees C" "ok");
   ("FAN1", reading "0.000" "RPM" "ok");
   ("FAN2", reading "na" "RPM" "ns");
   ("PSU1_PIN", reading "220.000" "Watts" "nr");
   ("PSU1_Status", reading "0x0" "discrete" "0x0182")].

(** ** Predicates of the properties *)

(** The three statuses a comparator reports. *)
Definition comparison_status (s : string) : Prop :=
  s = "PASS" \/ s = "WARNING" \/ s = "FAIL".

(** A status and a list of findings that belong together: the status is
    one of the three, and it is PASS exactly when nothing was found. *)
Definition consistent {A : Type} (status : string) (findings : list A) : Prop :=
  comparison_status status /\ (status = "PASS" <-> findings = []).

(** The same for the state of a comparator's loop. *)
Definition cpu_consistent (st : Processors.LoopState) : Prop :=
  consistent (Processors.st_status st) (Processors.st_differences st).

Definition memory_consistent (st : Memory.LoopState) : Prop :=
  consistent (Memory.st_status st) (Memory.st_differences st).

Definition pci_consistent (st : Pci.LoopState) : Prop :=
  consistent (Pci.st_status st) (Pci.st_differences st).

Definition usb_consistent (st : Usb.LoopState) : Prop :=
  consistent (Usb.st_status st) (Usb.st_differences st).

(** The number of critical USB devices of a list that carry the VID:PID
    [v]: what [compare_usb_devices] counts on each side. *)
Definition critical_count (v : string) (devices : list Usb.UsbDevice) : nat :=
  length (filter (fun dev => String.eqb (Usb.get_or (Usb.vid_pid dev) "") v)
                 (filter Usb.is_critical_usb devices)).

(** The text under a key of a storage record, [default] where the key is
    absent; a [null] reads as [default] too, and the comparison raises on
    the records for which that would matter (see [readable]). *)
Definition text_or (field : option jstring) (default : string) : string :=
  match field with
  | Some (JStr s) => s
  | _ => default
  end.

(** A storage record whose [device], [model] and [transport] hold strings
    where they are present: none of the [.lower()] calls of the
    comparison raises on it. *)
Definition textual (d : Storage.StorageDevice) : Prop :=
  Storage.device d <> Some JNull
  /\ Storage.model d <> Some JNull
  /\ Storage.transport d <> Some JNull.

(** The storage type of a record, from its texts. *)
Definition type_name (d : Storage.StorageDevice) : string :=
  Storage.classify (lower (text_or (Storage.device d) ""))
                   (lower (text_or (Storage.model d) ""))
                   (lower (text_or (Storage.transport d) ""))
                   (Storage.get_or (Storage.size d) "0").

(** A virtual disk of the BMC, by its model. *)
Definition is_virtual_disk (d : Storage.StorageDevice) : bool :=
  let model := lower (text_or (Storage.model d) "") in
  contains "virtual hdisk" model || contains "ami virtual" model.

(** The devices that are no virtual disks. *)
Definition real_disks (devices : list Storage.StorageDevice)
    : list Storage.StorageDevice :=
  filter (fun d => negb (is_virtual_disk d)) devices.

(** The buckets of a list of textual records, by storage type. *)
Definition buckets (devices : list Storage.StorageDevice)
    : dict string (list Storage.StorageDevice) :=
  fold_left
    (fun groups device =>
       let t := type_name device in
       dict_set groups t (dict_get_or groups t [] ++ [device]))
    devices Storage.empty_groups.

(** The model values of the non-virtual devices of storage type [t], in
    the order of the list: what [compare_storage_devices] compares position
    by position. *)
Definition storage_models (devices : list Storage.StorageDevice) (t : string)
    : list jstring :=
  map (fun d => Storage.get_or (Storage.model d) "Unknown")
      (filter (fun d => String.eqb (type_name d) t) (real_disks devices)).

(** A device list that the storage comparison can read: no [null] model,
    and no [null] device name or transport on a disk that is not virtual. *)
Definition readable (devices : list Storage.StorageDevice) : Prop :=
  (forall d, In d devices -> Storage.model d <> Some JNull)
  /\ (forall d, In d (real_disks devices) -> textual d).

(** The findings of the storage comparison on readable lists. *)
Definition storage_findings (set_iter : list string -> list string)
    (current baseline : list Storage.StorageDevice) : list string :=
  let current_by_type := buckets (real_disks current) in
  let baseline_by_type := buckets (real_disks baseline) in
  fold_left (Storage.compare_type current_by_type baseline_by_type)
            (set_iter (set_union (dict_keys current_by_type)
                                 (dict_keys baseline_by_type))) [].

(** Two outcomes that agree: the same exception, or two results related
    by [R]. *)
Definition same_outcome {A : Type} (R : A -> A -> Prop) (a b : result A) : Prop :=
  match a, b with
  | Ok x, Ok y => R x y
  | Raise e, Raise e' => e = e'
  | _, _ => False
  end.

(** The entries of a limit map that name a sensor: all but the one under
    the key [comment]. *)
Definition named_entries {A : Type} (d : dict string A) : nat :=
  length (filter (fun kv => negb (String.eqb (fst kv) "comment")) d).

(** The readings whose unit, in lower case, is [u]. *)
Definition with_unit (u : string) (sensors : SensorValidator.Sensors) : nat :=
  length (filter (fun kv =>
                    match SensorValidator.unit (snd kv) with
                    | Some x => String.eqb (lower x) u
                    | None => false
                    end) sensors).

(** The computation ended with a value. *)
Definition returned {A : Type} (r : result A) : bool :=
  match r with
  | Ok _ => true
  | Raise _ => false
  end.

(** The computation ended in an exception. *)
Definition raised {A : Type} (r : result A) : Prop := exists e, r = Raise e.

(** * Properties *)

(** ** Equality tests *)

Lemma opt_str_eqb_refl (a : option string) : opt_str_eqb a a = true.
Proof. destruct a as [s|]; simpl; [apply String.eqb_refl | reflexivity]. Qed.

Lemma count_eqb_refl (c : Processors.count) : Processors.count_eqb c c = true.
Proof. destruct c; simpl; [apply Z.eqb_refl | apply String.eqb_refl]. Qed.

Lemma opt_count_eqb_refl (c : option Processors.count) :
  Processors.opt_count_eqb c c = true.
Proof. destruct c; simpl; [apply count_eqb_refl | reflexivity]. Qed.

(** ** Dictionaries with string keys *)

Section DictFacts.
Context {V : Type}.
Implicit Types (d : dict string V) (k : string) (v : V).

Lemma dict_get_of_key d k :
  In k (dict_keys d) -> exists v, dict_get d k = Some v.
Proof.
  induction d as [|[k' v'] d IH]; simpl; [tauto|].
  intros [Hk | Hk].
  - subst k'. unfold keqb, string_KeyEq. rewrite String.eqb_refl. eauto.
  - unfold keqb, string_KeyEq. destruct (String.eqb k k'); eauto.
Qed.

Lemma dict_mem_of_key d k : In k (dict_keys d) -> dict_mem d k = true.
Proof.
  intros Hk. unfold dict_mem.
  destruct (dict_get_of_key d k Hk) as [v ->]. reflexivity.
Qed.

Lemma dict_get_in d k v : dict_get d k = Some v -> In v (dict_values d).
Proof.
  induction d as [|[k' v'] d IH]; simpl; [discriminate|].
  destruct (keqb k k').
  - intros [= ->]. now left.
  - intros H. right. now apply IH.
Qed.

Lemma dict_set_values d k v x :
  In x (dict_values (dict_set d k v)) -> x = v \/ In x (dict_values d).
Proof.
  induction d as [|[k' v'] d IH]; simpl.
  - intros [<- | []]. now left.
  - destruct (keqb k k'); simpl.
    + intros [<- | H]; [now left | right; now right].
    + intros [<- | H]; [right; now left |].
      destruct (IH H) as [-> | H']; [now left | right; now right].
Qed.

Lemma dict_of_list_values_acc (key : V -> string) (xs : list V) d x :
  In x (dict_values (fold_left (fun d x => dict_set d (key x) x) xs d)) ->
  In x xs \/ In x (dict_values d).
Proof.
  revert d. induction xs as [|y xs IH]; simpl; intros d H; [now right|].
  destruct (IH _ H) as [H' | H']; [left; now right |].
  destruct (dict_set_values _ _ _ _ H') as [-> | H'']; [left; now left | now right].
Qed.

Lemma dict_of_list_get (key : V -> string) (xs : list V) k v :
  dict_get (dict_of_list key xs) k = Some v -> In v xs.
Proof.
  intros H. apply dict_get_in in H.
  destruct (dict_of_list_values_acc key xs [] v H) as [H' | []]. exact H'.
Qed.

Lemma dict_by_key_total (key : V -> option string) (keyname : string)
    (xs : list V) d :
  (forall x, In x xs -> key x <> None) ->
  exists d', dict_by_key key keyname xs d = Ok d'.
Proof.
  revert d. induction xs as [|x xs IH]; simpl; intros d Hall; [eauto|].
  destruct (key x) eqn:E.
  - apply IH. intros y Hy. apply Hall. now right.
  - exfalso. apply (Hall x); auto.
Qed.

Lemma filter_keys (f : string * V -> bool) d k :
  In k (dict_keys (filter f d)) -> In k (dict_keys d).
Proof.
  unfold dict_keys. rewrite !in_map_iff.
  intros [kv [E H]]. apply filter_In in H. exists kv. tauto.
Qed.
End DictFacts.

(** ** Sets and sorting *)

Lemma set_union_in (a b : list string) (x : string) :
  In x (set_union a b) -> In x a \/ In x b.
Proof.
  unfold set_union. intros H. apply nodup_In in H. now apply in_app_or.
Qed.

Lemma set_iter_in (set_iter : list string -> list string) (l : list string) x :
  set_order set_iter -> In x (set_iter l) -> In x l.
Proof. intros Hperm H. exact (Permutation_in x (Hperm l) H). Qed.

Lemma sorted_insert_in (x y : string) (l : list string) :
  In y (sorted_insert x l) -> y = x \/ In y l.
Proof.
  induction l as [|z l IH]; simpl.
  - intros [<- | []]. now left.
  - destruct (String.leb x z); simpl.
    + intros [<- | H]; [now left | now right].
    + intros [<- | H]; [right; now left |].
      destruct (IH H) as [-> | H']; [now left | right; now right].
Qed.

Lemma sorted_in (l : list string) (x : string) : In x (sorted l) -> In x l.
Proof.
  induction l as [|y l IH]; simpl; [tauto|].
  intros H. destruct (sorted_insert_in _ _ _ H) as [-> | H']; auto.
Qed.

Lemma sorted_insert_perm (x : string) (l : list string) :
  Permutation (sorted_insert x l) (x :: l).
Proof.
  induction l as [|y l IH]; simpl; [reflexivity|].
  destruct (String.leb x y); [reflexivity|].
  rewrite IH. apply perm_swap.
Qed.

Lemma sorted_perm (l : list string) : Permutation (sorted l) l.
Proof.
  induction l as [|x l IH]; simpl; [reflexivity|].
  rewrite sorted_insert_perm. now constructor.
Qed.

(** [sorted] returns its argument in non-decreasing order. *)
Lemma sorted_insert_sorted (x : string) (l : list string) :
  Sorted (fun a b => String.leb a b = true) l ->
  Sorted (fun a b => String.leb a b = true) (sorted_insert x l).
Proof.
  induction 1 as [|y l Hs IH Hhd]; simpl.
  - repeat constructor.
  - destruct (String.leb x y) eqn:E.
    + constructor; [constructor; assumption | constructor; exact E].
    + constructor; [exact IH|].
      assert (Hyx : String.leb y x = true).
      { destruct (String.leb_total x y) as [H | H]; congruence. }
      destruct l as [|z l]; simpl.
      * constructor. exact Hyx.
      * destruct (String.leb x z); constructor; [exact Hyx|].
        now inversion Hhd.
Qed.

Lemma sorted_is_sorted (l : list string) :
  Sorted (fun a b => String.leb a b = true) (sorted l).
Proof.
  induction l as [|x l IH]; simpl; [constructor|].
  now apply sorted_insert_sorted.
Qed.

(** ** The status escalator *)

(** Claim C1: on the five statuses, [_escalate_status] returns one of its
    arguments, never one of lower priority than either, is commutative and
    associative, and has PASS as left identity. *)
Theorem escalate_status_max (a b c : Status) :
  let esc := _escalate_status in
  let na := status_name a in
  let nb := status_name b in
  let nc := status_name c in
  (esc na nb = na \/ esc na nb = nb)
  /\ (priority na <= priority (esc na nb))%Z
  /\ (priority nb <= priority (esc na nb))%Z
  /\ esc na nb = esc nb na
  /\ esc (esc na nb) nc = esc na (esc nb nc)
  /\ esc (status_name PASS) na = na
  /\ priority (status_name PASS) = 0%Z
  /\ priority (status_name WARNING) = 1%Z
  /\ priority (status_name FAIL) = 2%Z
  /\ priority (status_name ERROR) = 3%Z
  /\ priority (status_name UNKNOWN) = 4%Z.
Proof.
  destruct a, b, c; cbv zeta;
    repeat split;
    try reflexivity;
    try (left; reflexivity);
    try (right; reflexivity);
    try (vm_compute; discriminate).
Qed.

Lemma priority_unknown_string (s : string) :
  dict_get STATUS_PRIORITY s = None -> priority s = 0%Z.
Proof. intros H. unfold priority, dict_get_or. now rewrite H. Qed.

(** Claim C10: [_escalate_status] is a total function on strings; a string
    outside the priority table has priority 0, so it loses against every
    status of positive priority and never replaces PASS. *)
Theorem escalate_status_unknown_string (s x : string) :
  dict_get STATUS_PRIORITY s = None ->
  (0 < priority x)%Z ->
  priority s = 0%Z
  /\ _escalate_status s x = x
  /\ _escalate_status "PASS" s = "PASS".
Proof.
  intros Hs Hx. pose proof (priority_unknown_string s Hs) as H0.
  split; [exact H0|].
  unfold _escalate_status. rewrite H0. split.
  - destruct (priority x >? 0)%Z eqn:E; [reflexivity|].
    rewrite Z.gtb_ltb in E. apply Z.ltb_ge in E. lia.
  - reflexivity.
Qed.

Lemma escalate_status_unknown_string_witness :
  priority "BOGUS" = 0%Z
  /\ _escalate_status "BOGUS" "FAIL" = "FAIL"
  /\ _escalate_status "PASS" "BOGUS" = "PASS".
Proof.
  apply (escalate_status_unknown_string "BOGUS" "FAIL");
    [reflexivity | vm_compute; reflexivity].
Defined.

(** ** A comparator applied to two copies of one list *)

Section KeysOfDict.
Context {K V : Type} `{KeyEq K}.

Lemma dict_set_keys (d : dict K V) (k k' : K) (v : V) :
  In k' (dict_keys (dict_set d k v)) -> k' = k \/ In k' (dict_keys d).
Proof.
  induction d as [|[k0 v0] d IH]; simpl.
  - intros [<- | []]. now left.
  - destruct (keqb k k0); simpl.
    + intros [<- | Hin]; right; [now left | now right].
    + intros [<- | Hin]; [right; now left |].
      destruct (IH Hin) as [-> | Hin']; [now left | right; now right].
Qed.

Lemma dict_of_list_keys_acc (key : V -> K) (xs : list V) (d : dict K V) (k : K) :
  In k (dict_keys (fold_left (fun d x => dict_set d (key x) x) xs d)) ->
  In k (map key xs) \/ In k (dict_keys d).
Proof.
  revert d. induction xs as [|x xs IH]; simpl; intros d Hin; [now right|].
  destruct (IH _ Hin) as [Hin' | Hin']; [left; now right |].
  destruct (dict_set_keys _ _ _ _ Hin') as [-> | Hin'']; [left; now left | now right].
Qed.

Lemma dict_of_list_keys (key : V -> K) (xs : list V) (k : K) :
  In k (dict_keys (dict_of_list key xs)) -> In k (map key xs).
Proof.
  intros Hin. destruct (dict_of_list_keys_acc key xs [] k Hin) as [Hin' | []].
  exact Hin'.
Qed.
End KeysOfDict.

(** *** Processors *)

Lemma compare_socket_same (d : dict string Processors.Processor)
    (st : Processors.LoopState) (k : string) :
  In k (dict_keys d) ->
  exists st',
    Processors.compare_socket d d st k = Ok st'
    /\ Processors.st_status st' = Processors.st_status st
    /\ Processors.st_differences st' = Processors.st_differences st.
Proof.
  intros Hk. destruct (dict_get_of_key d k Hk) as [cpu Hcpu].
  unfold Processors.compare_socket, Processors.check_cores.
  rewrite Hcpu, opt_str_eqb_refl, !opt_count_eqb_refl. simpl.
  eexists. repeat split.
Qed.

Lemma compare_sockets_same (d : dict string Processors.Processor)
    (keys : list string) (st : Processors.LoopState) :
  (forall k, In k keys -> In k (dict_keys d)) ->
  exists st',
    fold_result (Processors.compare_socket d d) keys st = Ok st'
    /\ Processors.st_status st' = Processors.st_status st
    /\ Processors.st_differences st' = Processors.st_differences st.
Proof.
  revert st. induction keys as [|k keys IH]; intros st Hkeys; simpl.
  - eexists. repeat split.
  - destruct (compare_socket_same d st k) as (st1 & -> & Hs & Hd).
    { apply Hkeys. now left. }
    simpl. destruct (IH st1) as (st2 & -> & Hs2 & Hd2).
    { intros k' Hk'. apply Hkeys. now right. }
    exists st2. repeat split; congruence.
Qed.

Lemma compare_processors_same (set_iter : list string -> list string)
    (cpus : list Processors.Processor) :
  set_order set_iter ->
  (forall p, In p cpus -> Processors.socket p <> None) ->
  exists r,
    Processors.compare_processors set_iter cpus cpus = Ok r
    /\ Processors.status r = "PASS"
    /\ Processors.differences r = [].
Proof.
  intros Hiter Hwf. unfold Processors.compare_processors.
  rewrite Nat.eqb_refl. simpl negb. cbv iota.
  destruct (dict_by_key_total Processors.socket "socket" cpus [] Hwf) as [d ->].
  simpl bind.
  match goal with
  | |- context [fold_result ?f ?keys ?st] =>
      destruct (compare_sockets_same d keys st) as (st' & -> & Hs & Hd)
  end.
  { intros k Hk. apply (set_iter_in _ _ _ Hiter) in Hk.
    apply set_union_in in Hk. tauto. }
  simpl. eexists. split; [reflexivity|]. simpl. split; assumption.
Qed.

(** *** Memory *)

Lemma compare_slot_same (d : dict (option string) Memory.MemoryModule)
    (st : Memory.LoopState) (k : option string) :
  Memory.st_status (Memory.compare_slot d d st k) = Memory.st_status st
  /\ Memory.st_differences (Memory.compare_slot d d st k)
     = Memory.st_differences st.
Proof.
  unfold Memory.compare_slot. rewrite Bool.eqb_reflx. split; reflexivity.
Qed.

Lemma compare_slots_same (d : dict (option string) Memory.MemoryModule)
    (keys : list (option string)) (st : Memory.LoopState) :
  Memory.st_status (fold_left (Memory.compare_slot d d) keys st)
  = Memory.st_status st
  /\ Memory.st_differences (fold_left (Memory.compare_slot d d) keys st)
     = Memory.st_differences st.
Proof.
  revert st. induction keys as [|k keys IH]; intros st; simpl; [split; reflexivity|].
  destruct (IH (Memory.compare_slot d d st k)) as [-> ->].
  apply compare_slot_same.
Qed.

(** With a slot name on every module, [sorted] has only strings to compare. *)
Lemma sorted_slots_total (current baseline : list Memory.MemoryModule) :
  (forall m, In m current -> Memory.slot m <> None) ->
  (forall m, In m baseline -> Memory.slot m <> None) ->
  exists slots,
    Memory.sorted_slots
      (Memory.all_slots_of (dict_of_list Memory.slot current)
                           (dict_of_list Memory.slot baseline))
    = Ok slots.
Proof.
  intros Hc Hb. unfold Memory.sorted_slots.
  destruct (existsb Memory.is_none _) eqn:E; [|eauto].
  exfalso. apply existsb_exists in E. destruct E as ([s|] & Hin & Hnone);
    [discriminate|].
  unfold Memory.all_slots_of in Hin. apply nodup_In in Hin.
  apply in_app_or in Hin.
  destruct Hin as [Hin | Hin]; apply dict_of_list_keys in Hin;
    apply in_map_iff in Hin; destruct Hin as (m & Hm & Hin).
  - exact (Hc m Hin Hm).
  - exact (Hb m Hin Hm).
Qed.

Lemma compare_memory_same (dimms : list Memory.MemoryModule) :
  (forall m, In m dimms -> Memory.slot m <> None) ->
  exists r,
    Memory.compare_memory dimms dimms = Ok r
    /\ Memory.status r = "PASS"
    /\ Memory.differences r = [].
Proof.
  intros Hwf. unfold Memory.compare_memory.
  rewrite Nat.eqb_refl, Z.eqb_refl. simpl negb. cbv iota.
  destruct (sorted_slots_total dimms dimms Hwf Hwf) as [slots ->].
  simpl bind. eexists. split; [reflexivity|]. simpl.
  apply compare_slots_same.
Qed.

(** An invariant of a [for] loop written as [fold_left]. *)
Lemma fold_left_invariant {A S : Type} (f : S -> A -> S) (P : S -> Prop)
    (Q : A -> Prop) (l : list A) (st : S) :
  (forall s a, Q a -> P s -> P (f s a)) ->
  (forall a, In a l -> Q a) ->
  P st -> P (fold_left f l st).
Proof.
  intros Hstep. revert st. induction l as [|a l IH]; simpl; intros st HQ HP.
  - exact HP.
  - apply IH; [intros; apply HQ; now right |].
    apply Hstep; [apply HQ; now left | exact HP].
Qed.

(** *** PCI *)

Lemma check_baseline_class_same (by_class : dict string (list Pci.PciDevice))
    (st : Pci.LoopState) (c : string) :
  pci_clean st -> pci_clean (Pci.check_baseline_class by_class by_class st c).
Proof.
  unfold Pci.check_baseline_class. rewrite Nat.eqb_refl. simpl. tauto.
Qed.

Lemma check_new_class_same (by_class : dict string (list Pci.PciDevice))
    (st : Pci.LoopState) (c : string) :
  In c (dict_keys by_class) ->
  pci_clean st -> pci_clean (Pci.check_new_class by_class by_class st c).
Proof.
  intros Hc. unfold Pci.check_new_class.
  rewrite (dict_mem_of_key _ _ Hc). simpl. tauto.
Qed.

Lemma check_bdf_same (d : dict string Pci.PciDevice) (st : Pci.LoopState)
    (k : string) :
  In k (dict_keys d) -> pci_clean st -> pci_clean (Pci.check_bdf d d st k).
Proof.
  intros Hk. destruct (dict_get_of_key d k Hk) as [dev Hdev].
  unfold Pci.check_bdf. rewrite Hdev, opt_str_eqb_refl. simpl. tauto.
Qed.

Lemma compare_pci_devices_same (set_iter : list string -> list string)
    (devices : list Pci.PciDevice) :
  set_order set_iter ->
  (forall d, In d devices -> Pci.bdf d <> None) ->
  exists r,
    Pci.compare_pci_devices set_iter devices devices = Ok r
    /\ Pci.status r = "PASS"
    /\ Pci.differences r = [].
Proof.
  intros Hiter Hwf. unfold Pci.compare_pci_devices.
  destruct (dict_by_key_total Pci.bdf "bdf" devices [] Hwf) as [d ->].
  simpl bind. eexists. split; [reflexivity|]. cbv zeta. simpl.
  apply (fold_left_invariant _ pci_clean (fun k => In k (dict_keys d))).
  - intros s k. apply check_bdf_same.
  - intros k Hk. apply (set_iter_in _ _ _ Hiter) in Hk.
    apply set_union_in in Hk. destruct Hk as [Hk | Hk];
      exact (filter_keys _ _ _ Hk).
  - apply (fold_left_invariant _ pci_clean
             (fun c => In c (dict_keys (Pci.group_by_class (Pci.critical_of d))))).
    + intros s c. apply check_new_class_same.
    + tauto.
    + apply (fold_left_invariant _ pci_clean (fun _ => True)).
      * intros s c _. apply check_baseline_class_same.
      * trivial.
      * split; reflexivity.
Qed.

(** *** USB *)

Lemma check_vid_pid_same (hubs : dict string (list Usb.UsbDevice))
    (st : Usb.LoopState) (v : string) :
  usb_clean st -> usb_clean (Usb.check_vid_pid hubs hubs st v).
Proof.
  unfold Usb.check_vid_pid. rewrite Nat.eqb_refl. simpl. tauto.
Qed.

Lemma compare_usb_devices_same (set_iter : list string -> list string)
    (devices : list Usb.UsbDevice) :
  Usb.status (Usb.compare_usb_devices set_iter devices devices) = "PASS"
  /\ Usb.differences (Usb.compare_usb_devices set_iter devices devices) = [].
Proof.
  unfold Usb.compare_usb_devices. simpl.
  apply (fold_left_invariant _ usb_clean (fun _ => True)).
  - intros s v _. apply check_vid_pid_same.
  - trivial.
  - split; reflexivity.
Qed.

(** *** Storage *)

Lemma jstring_eqb_refl (x : jstring) : jstring_eqb x x = true.
Proof. destruct x; simpl; [reflexivity | apply String.eqb_refl]. Qed.

Lemma compare_position_same (t : string) (l : list Storage.StorageDevice) (i : nat) :
  Storage.compare_position t l l i = [].
Proof.
  unfold Storage.compare_position.
  destruct (nth_error l i); [rewrite jstring_eqb_refl|]; reflexivity.
Qed.

Lemma flat_map_all_nil {A B : Type} (f : A -> list B) (l : list A) :
  (forall a, f a = []) -> flat_map f l = [].
Proof.
  intros Hf. induction l as [|a l IH]; simpl; [reflexivity|].
  now rewrite Hf, IH.
Qed.

Lemma compare_type_same (groups : dict string (list Storage.StorageDevice))
    (differences : list string) (t : string) :
  Storage.compare_type groups groups differences t = differences.
Proof.
  unfold Storage.compare_type. rewrite Nat.eqb_refl. simpl.
  rewrite flat_map_all_nil by apply compare_position_same.
  apply app_nil_r.
Qed.

(** A loop whose body never raises on the items of the list is a plain
    fold. *)
Lemma fold_result_pure {A S : Type} (body : S -> A -> result S)
    (f : S -> A -> S) (l : list A) (st : S) :
  (forall s a, In a l -> body s a = Ok (f s a)) ->
  fold_result body l st = Ok (fold_left f l st).
Proof.
  revert st. induction l as [|a l IH]; intros st Hbody; [reflexivity|].
  cbn [fold_result fold_left]. rewrite (Hbody st a) by now left.
  cbn [bind]. apply IH. intros s b Hb. apply Hbody. now right.
Qed.

Lemma lower_of_text (field : option jstring) (default : string) :
  field <> Some JNull ->
  Storage.lower_of (Storage.get_or field default)
  = Ok (lower (text_or field default)).
Proof. destruct field as [[|s]|]; intros H; [contradiction | |]; reflexivity. Qed.

Lemma is_real_spec (d : Storage.StorageDevice) :
  Storage.is_real (lower (text_or (Storage.model d) "")) = negb (is_virtual_disk d).
Proof.
  unfold Storage.is_real, is_virtual_disk. cbv zeta. now rewrite negb_orb.
Qed.

Lemma real_disks_acc (l acc : list Storage.StorageDevice) :
  fold_left (fun filtered d =>
               if negb (is_virtual_disk d) then filtered ++ [d] else filtered)
            l acc
  = acc ++ real_disks l.
Proof.
  unfold real_disks. revert acc.
  induction l as [|d l IH]; intros acc; cbn [fold_left filter].
  - now rewrite app_nil_r.
  - rewrite IH. destruct (negb (is_virtual_disk d)); [|reflexivity].
    now rewrite <- app_assoc.
Qed.

(** Without a [null] model the filter returns, with the real disks. *)
Lemma filter_virtual_devices_textual (l : list Storage.StorageDevice) :
  (forall d, In d l -> Storage.model d <> Some JNull) ->
  Storage.filter_virtual_devices l = Ok (real_disks l).
Proof.
  intros Hl. unfold Storage.filter_virtual_devices.
  rewrite (fold_result_pure _
             (fun filtered d =>
                if negb (is_virtual_disk d) then filtered ++ [d] else filtered)).
  - now rewrite real_disks_acc.
  - intros s d Hd. rewrite (lower_of_text _ _ (Hl d Hd)). cbn [bind].
    now rewrite is_real_spec.
Qed.

Lemma type_of_textual (d : Storage.StorageDevice) :
  textual d -> Storage.type_of d = Ok (type_name d).
Proof.
  intros (Hd & Hm & Ht). unfold Storage.type_of, type_name.
  rewrite (lower_of_text _ _ Hd). cbn [bind].
  rewrite (lower_of_text _ _ Hm). cbn [bind].
  rewrite (lower_of_text _ _ Ht). reflexivity.
Qed.

(** On textual records the grouping returns, with the buckets. *)
Lemma group_by_type_textual (l : list Storage.StorageDevice) :
  (forall d, In d l -> textual d) ->
  Storage.group_by_type l = Ok (buckets l).
Proof.
  intros Hl. unfold Storage.group_by_type, buckets.
  apply fold_result_pure. intros s d Hd.
  now rewrite (type_of_textual d (Hl d Hd)).
Qed.

Lemma real_disks_in (l : list Storage.StorageDevice) (d : Storage.StorageDevice) :
  In d (real_disks l) -> In d l.
Proof. unfold real_disks. intros H. now apply filter_In in H. Qed.

Lemma compare_storage_devices_same (set_iter : list string -> list string)
    (devices : list Storage.StorageDevice) :
  (forall d, In d devices -> textual d) ->
  exists r,
    Storage.compare_storage_devices set_iter devices devices = Ok r
    /\ Storage.status r = "PASS"
    /\ Storage.differences r = [].
Proof.
  intros Hl. unfold Storage.compare_storage_devices.
  rewrite filter_virtual_devices_textual by (intros d Hd; apply (Hl d Hd)).
  cbn [bind].
  rewrite group_by_type_textual
    by (intros d Hd; apply Hl; now apply real_disks_in).
  cbn [bind]. eexists. split; [reflexivity|].
  cbn [Storage.status Storage.differences].
  match goal with
  | |- context [fold_left ?f ?l []] =>
      assert (E : fold_left f l [] = [])
  end.
  { apply (fold_left_invariant _ (fun ds => ds = []) (fun _ => True)).
    - intros s t _ ->. apply compare_type_same.
    - trivial.
    - reflexivity. }
  rewrite E. split; reflexivity.
Qed.

(** *** Risers *)

Lemma compare_fru_same (slot : string) (riser : Riser.RiserCard) :
  Riser.serial_missing riser = false -> Riser.compare_fru slot riser riser = [].
Proof.
  intros Hserial. unfold Riser.compare_fru.
  rewrite !String.eqb_refl, Hserial, Nat.eqb_refl. reflexivity.
Qed.

Lemma riser_compare_slot_same (d : dict string Riser.RiserCard)
    (st : Riser.LoopState) (k : string) :
  (forall r, In r (dict_values d) ->
             Riser.is_populated r = true -> Riser.serial_missing r = false) ->
  In k (dict_keys d) ->
  riser_clean st -> riser_clean (Riser.compare_slot d d st k).
Proof.
  intros Hserial Hk [Hd Hp]. destruct (dict_get_of_key d k Hk) as [r Hr].
  unfold Riser.compare_slot. rewrite Hr, Bool.eqb_reflx. simpl negb. cbv iota.
  destruct (Riser.is_populated r) eqn:E; simpl; split; simpl; try congruence.
  rewrite Hd, compare_fru_same; [reflexivity|].
  apply Hserial; [exact (dict_get_in d k r Hr) | exact E].
Qed.

Lemma compare_riser_cards_same (risers : list Riser.RiserCard) :
  (forall r, In r risers ->
             Riser.is_populated r = true -> Riser.serial_missing r = false) ->
  Riser.status (Riser.compare_riser_cards risers risers) = "PASS"
  /\ Riser.differences (Riser.compare_riser_cards risers risers) = [].
Proof.
  intros Hserial. unfold Riser.compare_riser_cards.
  set (d := dict_of_list Riser.slot_of risers).
  match goal with
  | |- context [fold_left ?f ?l ?st0] =>
      assert (Hclean : riser_clean (fold_left f l st0))
  end.
  { apply (fold_left_invariant _ riser_clean (fun k => In k (dict_keys d))).
    - intros s k. apply riser_compare_slot_same.
      intros r Hr. apply Hserial.
      destruct (dict_of_list_values_acc Riser.slot_of risers [] r Hr) as [H | []].
      exact H.
    - intros k Hk. apply sorted_in in Hk. apply set_union_in in Hk. tauto.
    - split; reflexivity. }
  destruct Hclean as [Hd Hp]. cbv zeta. simpl.
  rewrite Hp, Nat.eqb_refl, Hd. simpl. split; reflexivity.
Qed.

(** *** All six comparators *)

(** Claim C2, as amended: a comparator applied to a list and an identical
    copy of it reports PASS and no difference; for the risers this holds
    when every populated riser of the list carries a serial number that is
    neither empty nor the placeholder [Required]. The lists are well formed:
    every processor has its socket, every memory module its slot, every
    PCI device its address, and every disk has strings where it has a
    device name, a model or a transport. *)
Theorem comparators_reflexive
    (set_iter : list string -> list string)
    (cpus : list Processors.Processor) (dimms : list Memory.MemoryModule)
    (devices : list Pci.PciDevice) (usbs : list Usb.UsbDevice)
    (disks : list Storage.StorageDevice) (risers : list Riser.RiserCard) :
  set_order set_iter ->
  (forall p, In p cpus -> Processors.socket p <> None) ->
  (forall m, In m dimms -> Memory.slot m <> None) ->
  (forall d, In d devices -> Pci.bdf d <> None) ->
  (forall d, In d disks -> textual d) ->
  (forall r, In r risers ->
             Riser.is_populated r = true -> Riser.serial_missing r = false) ->
  (exists r, Processors.compare_processors set_iter cpus cpus = Ok r
             /\ Processors.status r = "PASS" /\ Processors.differences r = [])
  /\ (exists r, Memory.compare_memory dimms dimms = Ok r
                /\ Memory.status r = "PASS" /\ Memory.differences r = [])
  /\ (exists r, Pci.compare_pci_devices set_iter devices devices = Ok r
                /\ Pci.status r = "PASS" /\ Pci.differences r = [])
  /\ (Usb.status (Usb.compare_usb_devices set_iter usbs usbs) = "PASS"
      /\ Usb.differences (Usb.compare_usb_devices set_iter usbs usbs) = [])
  /\ (exists r, Storage.compare_storage_devices set_iter disks disks = Ok r
                /\ Storage.status r = "PASS" /\ Storage.differences r = [])
  /\ (Riser.status (Riser.compare_riser_cards risers risers) = "PASS"
      /\ Riser.differences (Riser.compare_riser_cards risers risers) = []).
Proof.
  intros Hiter Hcpus Hdimms Hpci Hdisks Hrisers.
  split; [now apply compare_processors_same|].
  split; [now apply compare_memory_same|].
  split; [now apply compare_pci_devices_same|].
  split; [apply compare_usb_devices_same|].
  split; [now apply compare_storage_devices_same|].
  now apply compare_riser_cards_same.
Qed.

Lemma comparators_reflexive_witness :
  (exists r, Processors.compare_processors stored_order example_cpus example_cpus = Ok r
             /\ Processors.status r = "PASS" /\ Processors.differences r = [])
  /\ (exists r, Memory.compare_memory dimms_128 dimms_128 = Ok r
                /\ Memory.status r = "PASS" /\ Memory.differences r = [])
  /\ (exists r, Pci.compare_pci_devices stored_order example_pci example_pci = Ok r
                /\ Pci.status r = "PASS" /\ Pci.differences r = [])
  /\ (Usb.status (Usb.compare_usb_devices stored_order [root_hub; kvm_hub]
                                          [root_hub; kvm_hub]) = "PASS"
      /\ Usb.differences (Usb.compare_usb_devices stored_order [root_hub; kvm_hub]
                                                  [root_hub; kvm_hub]) = [])
  /\ (exists r, Storage.compare_storage_devices stored_order [nvme_disk] [nvme_disk]
                = Ok r
                /\ Storage.status r = "PASS" /\ Storage.differences r = [])
  /\ (Riser.status (Riser.compare_riser_cards scanned_risers scanned_risers) = "PASS"
      /\ Riser.differences (Riser.compare_riser_cards scanned_risers scanned_risers)
         = []).
Proof.
  apply (comparators_reflexive stored_order example_cpus dimms_128 example_pci
           [root_hub; kvm_hub] [nvme_disk] scanned_risers).
  - intros l. apply Permutation_refl.
  - intros p [<- | [<- | []]]; discriminate.
  - intros m [<- | [<- | [<- | [<- | [<- | []]]]]]; discriminate.
  - intros d [<- | [<- | [<- | []]]]; discriminate.
  - intros d [<- | []]. repeat split; discriminate.
  - intros r [<- | [<- | []]] _; reflexivity.
Defined.

(** Claim C2 as stated fails for the risers: the riser list of a generated
    baseline compared with itself is a FAIL with two differences, because
    the populated risers still carry the placeholder serial number. *)
Lemma riser_baseline_not_reflexive :
  Riser.status (Riser.compare_riser_cards baseline_risers baseline_risers) = "FAIL"
  /\ Riser.differences (Riser.compare_riser_cards baseline_risers baseline_risers)
     = ["Slot RISER_SLOT_1: FRU Serial Number missing or invalid - current='Required'";
        "Slot RISER_SLOT_2: FRU Serial Number missing or invalid - current='Required'"]
  /\ ~ (Riser.status (Riser.compare_riser_cards baseline_risers baseline_risers) = "PASS"
        /\ Riser.differences (Riser.compare_riser_cards baseline_risers baseline_risers)
           = []).
Proof.
  split; [vm_compute; reflexivity|].
  split; [vm_compute; reflexivity|].
  intros [H _]. vm_compute in H. discriminate.
Qed.

(** ** Findings of the processor comparison *)

Lemma escalate_status_idempotent (s x : string) :
  _escalate_status (_escalate_status s x) x = _escalate_status s x.
Proof.
  unfold _escalate_status.
  destruct (priority x >? priority s)%Z eqn:E.
  - rewrite Z.gtb_ltb, Z.ltb_irrefl. reflexivity.
  - rewrite E. reflexivity.
Qed.

(** The cores block stays silent when the two values agree and when the
    baseline value is unavailable. *)
Lemma check_cores_silent (current_cpu baseline_cpu : Processors.Processor) :
  Processors.cores current_cpu = Processors.cores baseline_cpu
  \/ Processors.cores baseline_cpu = Processors.unknown ->
  Processors.check_cores current_cpu baseline_cpu = Ok tt.
Proof.
  unfold Processors.check_cores. intros [E | E].
  - rewrite E, opt_count_eqb_refl. reflexivity.
  - rewrite E.
    destruct (Processors.opt_count_eqb (Processors.cores current_cpu)
                                       Processors.unknown) eqn:Ec; simpl;
      [reflexivity|].
    unfold Processors.is_unknown. rewrite Ec. reflexivity.
Qed.

(** In every other case the block raises: it reports through [result], a
    name the function does not define. *)
Lemma check_cores_raises (current_cpu baseline_cpu : Processors.Processor) :
  Processors.opt_count_eqb (Processors.cores current_cpu)
                           (Processors.cores baseline_cpu) = false ->
  Processors.is_unknown (Processors.cores baseline_cpu) = false ->
  Processors.check_cores current_cpu baseline_cpu = Raise (NameError "result").
Proof.
  intros Hne Hb. unfold Processors.check_cores. rewrite Hne, Hb. simpl.
  destruct (Processors.is_unknown (Processors.cores current_cpu)
            && Processors.is_int_or_str (Processors.cores baseline_cpu));
    simpl; try reflexivity.
  rewrite !andb_false_r. reflexivity.
Qed.

(** What the loop body adds for a socket present in both snapshots when
    the cores block stays silent (equal core counts, or a baseline count of
    ['Unknown']): a model mismatch adds one finding and escalates the
    status with FAIL, and so does a thread count that differs; equal values
    add nothing. *)
Lemma matched_socket_findings
    (baseline_by_socket current_by_socket : dict string Processors.Processor)
    (st : Processors.LoopState) (socket_name : string)
    (current_cpu baseline_cpu : Processors.Processor) :
  dict_get current_by_socket socket_name = Some current_cpu ->
  dict_get baseline_by_socket socket_name = Some baseline_cpu ->
  (Processors.cores current_cpu = Processors.cores baseline_cpu
   \/ Processors.cores baseline_cpu = Processors.unknown) ->
  (Processors.threads current_cpu = Processors.threads baseline_cpu
   \/ (Processors.is_unknown (Processors.threads current_cpu) = false
       /\ Processors.is_unknown (Processors.threads baseline_cpu) = false)) ->
  let same_model :=
    opt_str_eqb (Processors.model current_cpu) (Processors.model baseline_cpu) in
  let same_threads :=
    Processors.opt_count_eqb (Processors.threads current_cpu)
                             (Processors.threads baseline_cpu) in
  exists st',
    Processors.compare_socket baseline_by_socket current_by_socket st socket_name
    = Ok st'
    /\ Processors.st_differences st'
       = Processors.st_differences st
         ++ (if same_model then []
             else [fstr ["CPU "; socket_name; " model mismatch: ";
                         str_of_opt (Processors.model current_cpu); " vs ";
                         str_of_opt (Processors.model baseline_cpu)]])
         ++ (if same_threads then []
             else [fstr ["CPU "; socket_name; " threads mismatch: ";
                         Processors.str_of_count (Processors.threads current_cpu);
                         " vs ";
                         Processors.str_of_count (Processors.threads baseline_cpu)]])
    /\ Processors.st_status st'
       = (if same_model && same_threads then Processors.st_status st
          else _escalate_status (Processors.st_status st) "FAIL").
Proof.
  intros Hc Hb Hcores _ same_model same_threads.
  unfold Processors.compare_socket. rewrite Hc, Hb.
  rewrite (check_cores_silent _ _ Hcores).
  fold same_model. fold same_threads.
  destruct same_model, same_threads; simpl; eexists;
    (split; [reflexivity|]); simpl; split;
    rewrite ?app_nil_r, <- ?app_assoc, ?escalate_status_idempotent; reflexivity.
Qed.

Lemma matched_socket_findings_witness :
  exists st',
    Processors.compare_socket [("CPU0", baseline_cpu_unknown_cores)]
      [("CPU0", downgraded_cpu)]
      {| Processors.st_status := "PASS"; Processors.st_differences := [];
         Processors.st_sockets := [] |}
      "CPU0"
    = Ok st'
    /\ Processors.st_differences st'
       = [fstr ["CPU CPU0 model mismatch: "; epyc; " vs "; xeon];
          "CPU CPU0 threads mismatch: 32 vs 64"]
    /\ Processors.st_status st' = "FAIL".
Proof.
  exact (matched_socket_findings
           [("CPU0", baseline_cpu_unknown_cores)] [("CPU0", downgraded_cpu)]
           {| Processors.st_status := "PASS"; Processors.st_differences := [];
              Processors.st_sockets := [] |}
           "CPU0" downgraded_cpu baseline_cpu_unknown_cores
           eq_refl eq_refl (or_intror eq_refl)
           (or_intror (conj eq_refl eq_refl))).
Defined.

(** A core count that only the baseline lacks is no finding at all: the
    third branch of the cores block passes on purpose. *)
Lemma baseline_unknown_cores_is_no_warning :
  exists r,
    Processors.compare_processors stored_order [baseline_cpu]
      [baseline_cpu_unknown_cores] = Ok r
    /\ Processors.status r = "PASS"
    /\ Processors.differences r = []
    /\ Processors.status r <> "WARNING".
Proof.
  eexists. split; [vm_compute; reflexivity|].
  repeat split; try reflexivity. simpl. discriminate.
Qed.

(** A thread count that only the current side lacks is reported like any
    other mismatch: the thread block has no case for ['Unknown']. *)
Lemma unknown_threads_reported_as_fail :
  exists r,
    Processors.compare_processors stored_order [degraded_cpu] [baseline_cpu] = Ok r
    /\ Processors.status r = "FAIL"
    /\ Processors.differences r = ["CPU CPU0 threads mismatch: Unknown vs 64"].
Proof.
  eexists. split; [vm_compute; reflexivity|]. split; reflexivity.
Qed.

(** Claim C3, evaluated: on the socket CPU0, with the same model and the
    same thread count on both sides, 16 cores against a baseline of 32 and
    a core count ['Unknown'] against a baseline of 32 are the two cases
    that the comments of the cores block mark as FAIL and as WARNING. In
    both the block reports through [result], a name that the function never
    binds, and [compare_processors] ends with [NameError] instead of a
    report, under either iteration order; a model or a thread count that
    differs is reported as FAIL. *)
Theorem cores_findings_end_in_name_error :
  Processors.socket halved_cpu = Processors.socket baseline_cpu
  /\ Processors.model halved_cpu = Processors.model baseline_cpu
  /\ Processors.threads halved_cpu = Processors.threads baseline_cpu
  /\ Processors.cores halved_cpu = Some (Processors.CInt 16)
  /\ Processors.cores baseline_cpu = Some (Processors.CInt 32)
  /\ Processors.compare_processors stored_order [halved_cpu] [baseline_cpu]
     = Raise (NameError "result")
  /\ Processors.compare_processors reverse_order [halved_cpu] [baseline_cpu]
     = Raise (NameError "result")
  /\ Processors.cores baseline_cpu_unknown_cores = Some (Processors.CStr "Unknown")
  /\ Processors.compare_processors stored_order [baseline_cpu_unknown_cores]
       [baseline_cpu]
     = Raise (NameError "result")
  /\ Processors.compare_processors reverse_order [baseline_cpu_unknown_cores]
       [baseline_cpu]
     = Raise (NameError "result")
  /\ (exists r,
        Processors.compare_processors stored_order [downgraded_cpu] [baseline_cpu]
        = Ok r
        /\ Processors.status r = "FAIL"
        /\ Processors.differences r
           = [fstr ["CPU CPU0 model mismatch: "; epyc; " vs "; xeon];
              "CPU CPU0 threads mismatch: 32 vs 64"]).
Proof.
  repeat (split; [vm_compute; reflexivity|]).
  eexists. split; [vm_compute; reflexivity|]. split; reflexivity.
Qed.

(** ** The USB ignore list *)

(** Claim C4, evaluated: the KVM hub 0557:8021, present only in the current
    snapshot, is listed among the ignored devices and still turns the
    status from PASS into WARNING. *)
Theorem ignored_usb_device_changes_status :
  mem "0557:8021" Usb.IGNORABLE_DEVICES = true
  /\ Usb.status (Usb.compare_usb_devices stored_order [root_hub] [root_hub]) = "PASS"
  /\ Usb.status (Usb.compare_usb_devices stored_order [root_hub; kvm_hub] [root_hub])
     = "WARNING"
  /\ Usb.status (Usb.compare_usb_devices reverse_order [root_hub; kvm_hub] [root_hub])
     = "WARNING"
  /\ Usb.differences
       (Usb.compare_usb_devices stored_order [root_hub; kvm_hub] [root_hub])
     = ["USB device 0557:8021 (Unknown): expected 0, found 1"]
  /\ Usb.ignored_devices
       (Usb.compare_usb_devices stored_order [root_hub; kvm_hub] [root_hub])
     = Some [kvm_hub].
Proof. repeat split; vm_compute; reflexivity. Qed.

(** ** Storage buckets *)

(** A record whose [device] key starts with [nvme] goes to the NVMe bucket
    whatever its model and transport are. *)
Lemma type_of_nvme_device (d : Storage.StorageDevice) :
  textual d ->
  startswith (lower (text_or (Storage.device d) "")) "nvme" = true ->
  Storage.type_of d = Ok "nvme".
Proof.
  intros Hd H. rewrite (type_of_textual d Hd).
  unfold type_name, Storage.classify. rewrite H. reflexivity.
Qed.

(** Claim C8, evaluated: the bucketing reads the key [device], which the
    collectors never write, so the name [nvme0n1] is not seen and the drive
    lands in the bucket [other]. *)
Theorem nvme_name_is_not_read :
  Storage.name nvme_disk = Some "nvme0n1"
  /\ Storage.type_of nvme_disk = Ok "other"
  /\ (exists groups,
        (filtered <- Storage.filter_virtual_devices [nvme_disk] ;;
         Storage.group_by_type filtered) = Ok groups
        /\ dict_get groups "nvme" = Some []
        /\ dict_get groups "other" = Some [nvme_disk])
  /\ Storage.type_of (disk "sda" "INTEL SSDSC2KB480G8" "447.1G") = Ok "other"
  /\ Storage.type_of (disk "mmcblk0" "DG4064" "58.2G") = Ok "other".
Proof.
  split; [reflexivity|]. split; [vm_compute; reflexivity|].
  split; [eexists; repeat split; vm_compute; reflexivity|].
  split; vm_compute; reflexivity.
Qed.

(** ** Order of the differences *)

Lemma stored_order_admissible : set_order stored_order.
Proof. intros l. apply Permutation_refl. Qed.

Lemma reverse_order_admissible : set_order reverse_order.
Proof. intros l. apply Permutation_sym, Permutation_rev. Qed.

(** Claim C9, evaluated: the processor, PCI and USB loops run over a set
    as it comes, so two admissible iteration orders give the same findings
    in different orders, one of them not the sorted one. *)
Theorem differences_follow_set_order :
  set_order stored_order
  /\ set_order reverse_order
  /\ (exists r,
         Processors.compare_processors stored_order replaced_cpus example_cpus = Ok r
         /\ Processors.differences r
            = [fstr ["CPU CPU0 model mismatch: "; epyc; " vs "; xeon];
               fstr ["CPU CPU1 model mismatch: "; epyc; " vs "; xeon]])
  /\ (exists r,
         Processors.compare_processors reverse_order replaced_cpus example_cpus = Ok r
         /\ Processors.differences r
            = [fstr ["CPU CPU1 model mismatch: "; epyc; " vs "; xeon];
               fstr ["CPU CPU0 model mismatch: "; epyc; " vs "; xeon]])
  /\ (exists r,
         Pci.compare_pci_devices stored_order [] example_pci = Ok r
         /\ Pci.differences r
            = ["Host bridge: expected 1, found 0";
               "Ethernet controller: expected 1, found 0";
               "Critical device 00:00.0 missing";
               "Critical device 17:00.0 missing"])
  /\ (exists r,
         Pci.compare_pci_devices reverse_order [] example_pci = Ok r
         /\ Pci.differences r
            = ["Host bridge: expected 1, found 0";
               "Ethernet controller: expected 1, found 0";
               "Critical device 17:00.0 missing";
               "Critical device 00:00.0 missing"])
  /\ Usb.differences
       (Usb.compare_usb_devices stored_order [] [root_hub; kvm_hub])
     = ["USB device 1d6b:0002 (Linux Foundation 2.0 root hub): expected 1, found 0";
        "USB device 0557:8021 (ATEN International Co., Ltd Hub): expected 1, found 0"]
  /\ Usb.differences
       (Usb.compare_usb_devices reverse_order [] [root_hub; kvm_hub])
     = ["USB device 0557:8021 (ATEN International Co., Ltd Hub): expected 1, found 0";
        "USB device 1d6b:0002 (Linux Foundation 2.0 root hub): expected 1, found 0"].
Proof.
  split; [exact stored_order_admissible|].
  split; [exact reverse_order_admissible|].
  split; [eexists; split; vm_compute; reflexivity|].
  split; [eexists; split; vm_compute; reflexivity|].
  split; [eexists; split; vm_compute; reflexivity|].
  split; [eexists; split; vm_compute; reflexivity|].
  split; vm_compute; reflexivity.
Qed.

(** ** Memory: population count against capacity *)

(** The slot loop only ever escalates with WARNING, which changes neither
    a WARNING nor a FAIL. *)
Lemma memory_slots_keep_status
    (current_slots baseline_slots : dict (option string) Memory.MemoryModule)
    (keys : list (option string)) (st : Memory.LoopState) (s : string) :
  s = "WARNING" \/ s = "FAIL" ->
  Memory.st_status st = s ->
  Memory.st_status
    (fold_left (Memory.compare_slot current_slots baseline_slots) keys st) = s.
Proof.
  intros Hs.
  apply (fold_left_invariant _ (fun st => Memory.st_status st = s) (fun _ => True));
    [|trivial].
  intros st' k _ Hst. unfold Memory.compare_slot.
  destruct (Bool.eqb _ _); simpl; [exact Hst|].
  rewrite Hst. destruct Hs as [-> | ->]; reflexivity.
Qed.

(** When every module carries its slot name the comparison returns: a
    populated-slot count that differs while the total capacity agrees gives
    WARNING, a total capacity that differs gives FAIL, and 96 GiB in four
    slots against a baseline of 128 GiB in four slots is a FAIL. *)
Lemma memory_capacity_outranks_population
    (current baseline : list Memory.MemoryModule) :
  (forall m, In m current -> Memory.slot m <> None) ->
  (forall m, In m baseline -> Memory.slot m <> None) ->
  (exists r,
      Memory.compare_memory current baseline = Ok r
      /\ (Memory.total_gb current <> Memory.total_gb baseline ->
          Memory.status r = "FAIL")
      /\ (Memory.total_gb current = Memory.total_gb baseline ->
          Memory.count_populated current <> Memory.count_populated baseline ->
          Memory.status r = "WARNING"))
  /\ (exists r,
         Memory.compare_memory dimms_96 dimms_128 = Ok r
         /\ Memory.count_populated dimms_96 = 4
         /\ Memory.count_populated dimms_128 = 4
         /\ Memory.total_gb dimms_96 = 96%Z
         /\ Memory.total_gb dimms_128 = 128%Z
         /\ Memory.status r = "FAIL").
Proof.
  intros Hc Hb. split.
  - unfold Memory.compare_memory.
    destruct (sorted_slots_total current baseline Hc Hb) as [slots ->].
    destruct (Nat.eqb (Memory.count_populated current)
                      (Memory.count_populated baseline)) eqn:Ecount;
      destruct (Memory.total_gb current =? Memory.total_gb baseline)%Z eqn:Etotal;
      simpl; eexists; (split; [reflexivity|]); simpl; split; intros H1; try intros H2.
    + apply Z.eqb_eq in Etotal. contradiction.
    + apply Nat.eqb_eq in Ecount. contradiction.
    + apply memory_slots_keep_status; [now right | reflexivity].
    + apply Z.eqb_neq in Etotal. contradiction.
    + apply Z.eqb_eq in Etotal. contradiction.
    + apply memory_slots_keep_status; [now left | reflexivity].
    + apply memory_slots_keep_status; [now right | reflexivity].
    + apply Z.eqb_neq in Etotal. contradiction.
  - eexists. split; [vm_compute; reflexivity|].
    repeat split; vm_compute; reflexivity.
Qed.

Lemma memory_capacity_outranks_population_witness :
  (exists r,
      Memory.compare_memory dimms_3_slots dimms_128 = Ok r
      /\ (Memory.total_gb dimms_3_slots <> Memory.total_gb dimms_128 ->
          Memory.status r = "FAIL")
      /\ (Memory.total_gb dimms_3_slots = Memory.total_gb dimms_128 ->
          Memory.count_populated dimms_3_slots <> Memory.count_populated dimms_128 ->
          Memory.status r = "WARNING"))
  /\ (exists r,
         Memory.compare_memory dimms_96 dimms_128 = Ok r
         /\ Memory.count_populated dimms_96 = 4
         /\ Memory.count_populated dimms_128 = 4
         /\ Memory.total_gb dimms_96 = 96%Z
         /\ Memory.total_gb dimms_128 = 128%Z
         /\ Memory.status r = "FAIL").
Proof.
  apply (memory_capacity_outranks_population dimms_3_slots dimms_128).
  - intros m [<- | [<- | [<- | [<- | [<- | []]]]]]; discriminate.
  - intros m [<- | [<- | [<- | [<- | [<- | []]]]]]; discriminate.
Defined.

(** Claim C7, evaluated: the list that [fallback_get_memory_info] builds
    for four modules of 96 GiB starts with a record that has a size and no
    slot name. Against the baseline of 128 GiB in four slots both lists
    count four populated slots, the totals are 96 and 128, and the
    comparison ends with [TypeError] when it sorts the slot names: no
    report, and no FAIL. With the slot names in place the same modules
    give FAIL. *)
Theorem unnamed_slot_hides_capacity_mismatch :
  Memory.count_populated fallback_dimms_96 = 4
  /\ Memory.count_populated dimms_128 = 4
  /\ Memory.total_gb fallback_dimms_96 = 96%Z
  /\ Memory.total_gb dimms_128 = 128%Z
  /\ (exists msg,
        Memory.compare_memory fallback_dimms_96 dimms_128 = Raise (TypeError msg))
  /\ (forall r, Memory.compare_memory fallback_dimms_96 dimms_128 <> Ok r)
  /\ (exists r,
        Memory.compare_memory dimms_96 dimms_128 = Ok r
        /\ Memory.status r = "FAIL").
Proof.
  repeat (split; [vm_compute; reflexivity|]).
  split; [eexists; vm_compute; reflexivity|].
  split; [intros r; vm_compute; discriminate|].
  eexists. split; vm_compute; reflexivity.
Qed.

(** ** Sensor categories *)

Section SensorFacts.
Context {N : Numeric}.

Import SensorValidator.

(** An invariant of a [for] loop whose body may raise. *)
Lemma fold_result_invariant {A S : Type} (body : S -> A -> result S)
    (P : S -> Prop) (l : list A) (st st' : S) :
  (forall s a s', P s -> body s a = Ok s' -> P s') ->
  P st -> fold_result body l st = Ok st' -> P st'.
Proof.
  intros Hstep. revert st. induction l as [|a l IH]; simpl; intros st HP Hrun.
  - now inversion Hrun; subst.
  - destruct (body st a) as [s1|e] eqn:E; simpl in Hrun; [|discriminate].
    exact (IH s1 (Hstep _ _ _ HP E) Hrun).
Qed.

(** Splits the body of a loop into its paths, each ending in a result. *)
Ltac loop_paths H :=
  repeat match type of H with
         | context [match ?x with _ => _ end] => destruct x eqn:?; simpl in H
         | context [if ?b then _ else _] => destruct b eqn:?; simpl in H
         end;
  try discriminate; inversion H; subst; clear H.

(** The loops count; none of them writes the status. *)
Lemma voltage_step_status sensors r kv r' :
  vr_status r = "PASS" -> voltage_step sensors r kv = Ok r' -> vr_status r' = "PASS".
Proof.
  intros HP H. unfold voltage_step, status_violation, item, as_limit, bind in H.
  destruct kv as [sensor_name limits]. loop_paths H; exact HP.
Qed.

Lemma temperature_step_status limits sensors r kv r' :
  vr_status r = "PASS" -> temperature_step limits sensors r kv = Ok r' ->
  vr_status r' = "PASS".
Proof.
  intros HP H. unfold temperature_step, status_violation, item, as_limit, bind in H.
  destruct kv as [sensor_name lim]. loop_paths H; exact HP.
Qed.

Lemma discrete_step_status critical sensors r kv r' :
  vr_status r = "PASS" -> discrete_step critical sensors r kv = Ok r' ->
  vr_status r' = "PASS".
Proof.
  intros HP H. unfold discrete_step, item, bind in H.
  destruct kv as [sensor_name expected]. loop_paths H; exact HP.
Qed.

(** The discrete loop never counts a missing sensor. *)
Lemma discrete_step_missing critical sensors r kv r' :
  missing_sensors r = 0 -> discrete_step critical sensors r kv = Ok r' ->
  missing_sensors r' = 0.
Proof.
  intros HP H. unfold discrete_step, item, bind in H.
  destruct kv as [sensor_name expected]. loop_paths H; exact HP.
Qed.

Lemma range_step_missing unit_name lo hi i1 i2 i3 r kv r' :
  missing_sensors r = 0 -> range_step unit_name lo hi i1 i2 i3 r kv = Ok r' ->
  missing_sensors r' = 0.
Proof.
  intros HP H. unfold range_step, item, bind in H.
  destruct kv as [sensor_name sensor_data]. loop_paths H; exact HP.
Qed.

Lemma conclude_spec r :
  vr_status r = "PASS" -> vr_status (conclude r) = spec_category_status (conclude r).
Proof.
  intros HP. unfold conclude, spec_category_status.
  destruct (0 <? failed_sensors r)%nat eqn:Ef; simpl; [now rewrite Ef|].
  destruct ((0 <? missing_sensors r)%nat || (0 <? warning_sensors r)%nat) eqn:Ew;
    simpl; rewrite Ef, Ew; [reflexivity | exact HP].
Qed.

(** On the counters, the five validators follow the rule of the
    specification. *)
Lemma category_status_follows_counters (limits : Limits) (sensors : Sensors)
    (r : ValidationResult) :
  validate_voltage_sensors limits sensors = Ok r
  \/ validate_temperature_sensors limits sensors = Ok r
  \/ validate_fan_sensors sensors = Ok r
  \/ validate_power_sensors sensors = Ok r
  \/ validate_discrete_sensors limits sensors = Ok r ->
  vr_status r = spec_category_status r.
Proof.
  intros [H | [H | [H | [H | H]]]].
  - unfold validate_voltage_sensors in H.
    destruct (fold_result _ _ _) as [r0|e] eqn:E; simpl in H; [|discriminate].
    inversion H; subst. apply conclude_spec.
    apply (fold_result_invariant _ (fun r => vr_status r = "PASS") _
             _create_validation_result_dict _
             (voltage_step_status sensors) eq_refl E).
  - unfold validate_temperature_sensors in H.
    destruct (fold_result _ _ _) as [r0|e] eqn:E; simpl in H; [|discriminate].
    inversion H; subst. apply conclude_spec.
    apply (fold_result_invariant _ (fun r => vr_status r = "PASS") _
             _create_validation_result_dict _
             (temperature_step_status limits sensors) eq_refl E).
  - unfold validate_fan_sensors in H.
    destruct (fold_result _ _ _) as [r0|e] eqn:E; simpl in H; [|discriminate].
    inversion H; subst.
    pose proof (fold_result_invariant _ (fun r => missing_sensors r = 0) _
                  _create_validation_result_dict _
                  (range_step_missing _ _ _ _ _ _) eq_refl E) as Hm.
    unfold conclude_range, spec_category_status.
    destruct (0 <? failed_sensors r0)%nat eqn:Ef; simpl; [now rewrite Ef|].
    destruct (0 <? warning_sensors r0)%nat eqn:Ew; simpl;
      rewrite Ef, Ew, Hm; reflexivity.
  - unfold validate_power_sensors in H.
    destruct (fold_result _ _ _) as [r0|e] eqn:E; simpl in H; [|discriminate].
    inversion H; subst.
    pose proof (fold_result_invariant _ (fun r => missing_sensors r = 0) _
                  _create_validation_result_dict _
                  (range_step_missing _ _ _ _ _ _) eq_refl E) as Hm.
    unfold conclude_range, spec_category_status.
    destruct (0 <? failed_sensors r0)%nat eqn:Ef; simpl; [now rewrite Ef|].
    destruct (0 <? warning_sensors r0)%nat eqn:Ew; simpl;
      rewrite Ef, Ew, Hm; reflexivity.
  - unfold validate_discrete_sensors in H.
    destruct (fold_result _ _ _) as [r0|e] eqn:E; simpl in H; [|discriminate].
    inversion H; subst.
    pose proof (fold_result_invariant _ (fun r => missing_sensors r = 0) _
                  _create_validation_result_dict _
                  (discrete_step_missing _ sensors) eq_refl E) as Hm.
    pose proof (fold_result_invariant _ (fun r => vr_status r = "PASS") _
                  _create_validation_result_dict _
                  (discrete_step_status _ sensors) eq_refl E) as Hs.
    unfold conclude_discrete, spec_category_status.
    destruct (0 <? failed_sensors r0)%nat eqn:Ef; simpl; [now rewrite Ef|].
    destruct (0 <? warning_sensors r0)%nat eqn:Ew; simpl;
      rewrite Ef, Ew, Hm; [reflexivity | exact Hs].
Qed.

(** Claim C5, evaluated: with the one expected discrete sensor absent from
    the readings, the discrete validator records the MISSING finding, counts
    no missing sensor and stays at PASS; the voltage validator, given an
    absent sensor, counts it and answers WARNING. *)
Theorem discrete_missing_sensor_passes :
  (exists r,
      validate_discrete_sensors example_limits example_readings = Ok r
      /\ map vi_sensor (violations r) = ["PSU1_Status"]
      /\ map vi_type (violations r) = [Some "MISSING"]
      /\ failed_sensors r = 0
      /\ warning_sensors r = 0
      /\ missing_sensors r = 0
      /\ vr_status r = "PASS")
  /\ (exists r,
         validate_voltage_sensors example_limits example_readings = Ok r
         /\ map vi_sensor (violations r) = ["P_12V"]
         /\ map vi_type (violations r) = [Some "MISSING"]
         /\ missing_sensors r = 1
         /\ vr_status r = "WARNING").
Proof.
  split; eexists; (split; [reflexivity|]); repeat split; reflexivity.
Qed.

(** ** The validation aggregator *)

Lemma run_five_categories (fv ft ff fp fd : Validator) (sensors : Sensors) :
  fst (fold_left (run_category sensors) (five_categories fv ft ff fp fd) ([], 0))
  = [("voltages", category_outcome fv sensors);
     ("temperatures", category_outcome ft sensors);
     ("fans", category_outcome ff sensors);
     ("power", category_outcome fp sensors);
     ("discrete", category_outcome fd sensors)].
Proof.
  unfold five_categories, category_outcome, run_category. simpl.
  destruct (fv sensors), (ft sensors), (ff sensors), (fp sensors), (fd sensors);
    reflexivity.
Qed.

Lemma overall_status_known (all_statuses : list string) :
  In (if mem "ERROR" all_statuses then "ERROR"
      else if mem "FAIL" all_statuses then "FAIL"
      else if mem "WARNING" all_statuses then "WARNING"
      else "PASS")
     ["PASS"; "WARNING"; "FAIL"; "ERROR"].
Proof.
  destruct (mem "ERROR" all_statuses), (mem "FAIL" all_statuses),
    (mem "WARNING" all_statuses); simpl; tauto.
Qed.

(** The aggregator over any five validators: a report comes back with the
    five outcomes under their names. *)
Lemma perform_full_validation_with_five
    (fv ft ff fp fd : Validator) (file now : string) (limits : Limits)
    (sensors : Sensors) :
  exists report,
    perform_full_validation_with (five_categories fv ft ff fp fd)
      file now limits (Ok sensors) = Ok report
    /\ category_results report
       = [("voltages", category_outcome fv sensors);
          ("temperatures", category_outcome ft sensors);
          ("fans", category_outcome ff sensors);
          ("power", category_outcome fp sensors);
          ("discrete", category_outcome fd sensors)]
    /\ overall_status report
       = (let all_statuses :=
            map vr_status (dict_values (category_results report)) in
          if mem "ERROR" all_statuses then "ERROR"
          else if mem "FAIL" all_statuses then "FAIL"
          else if mem "WARNING" all_statuses then "WARNING"
          else "PASS").
Proof.
  unfold perform_full_validation_with, try_except.
  pose proof (run_five_categories fv ft ff fp fd sensors) as Hres.
  destruct (fold_left (run_category sensors) _ _) as [results successful].
  cbn [fst] in Hres. rewrite Hres.
  eexists. split; [reflexivity|]. split; reflexivity.
Qed.

(** A fan entry without its [value] key makes the fan validator raise
    [KeyError]; the report still comes back, with the stub in the place of
    the fans and the other four categories evaluated. *)
Lemma fan_validator_error_is_contained (file now : string) :
  exists report,
    perform_full_validation file now example_limits (Ok broken_readings) = Ok report
    /\ validate_fan_sensors broken_readings = Raise (KeyError "value")
    /\ map (fun kv => (fst kv, vr_status (snd kv))) (category_results report)
       = [("voltages", "WARNING"); ("temperatures", "PASS"); ("fans", "ERROR");
          ("power", "PASS"); ("discrete", "PASS")]
    /\ option_map vr_error (dict_get (category_results report) "fans")
       = Some (Some "'value'")
    /\ categories_checked (summary report) = 4
    /\ overall_status report = "ERROR".
Proof.
  eexists. split; [reflexivity|]. repeat split; reflexivity.
Qed.

(** Claim C6: [perform_full_validation] always returns a report, whatever
    its five validators do with the readings. Once the readings are
    collected the report holds five category results, under the names
    voltages, temperatures, fans, power and discrete in this order: each is
    the result of its own validator on the readings or, when that validator
    raised, the ERROR stub with the message of the exception and no
    violation, so a validator that raises changes the result of no other
    category; the overall status is one of the four report statuses, and it
    is ERROR when a validator raised. When the collection itself raised,
    the report says ERROR and holds no category. A fan reading without its
    value is a case in which a validator does raise. *)
Theorem perform_full_validation_contains_errors
    (file now : string) (limits : Limits) :
  let category_functions :=
    [("voltages", validate_voltage_sensors limits);
     ("temperatures", validate_temperature_sensors limits);
     ("fans", validate_fan_sensors);
     ("power", validate_power_sensors);
     ("discrete", validate_discrete_sensors limits)] in
  (forall sensors, exists report,
      perform_full_validation file now limits (Ok sensors) = Ok report
      /\ category_results report
         = map (fun cf => (fst cf, category_outcome (snd cf) sensors))
               category_functions
      /\ In (overall_status report) ["PASS"; "WARNING"; "FAIL"; "ERROR"]
      /\ (forall category_name validation_func,
             In (category_name, validation_func) category_functions ->
             (forall category_error,
                 validation_func sensors = Raise category_error ->
                 dict_get (category_results report) category_name
                 = Some (error_stub category_error)
                 /\ overall_status report = "ERROR")
             /\ (forall category_result,
                    validation_func sensors = Ok category_result ->
                    dict_get (category_results report) category_name
                    = Some category_result)))
  /\ (forall sensor_error, exists report,
         perform_full_validation file now limits (Raise sensor_error) = Ok report
         /\ overall_status report = "ERROR"
         /\ category_results report = [])
  /\ (forall category_error,
         vr_status (error_stub category_error) = "ERROR"
         /\ vr_error (error_stub category_error) = Some (exn_message category_error)
         /\ violations (error_stub category_error) = []
         /\ actually_checked (error_stub category_error) = 0)
  /\ (exists report,
         perform_full_validation file now example_limits (Ok broken_readings)
         = Ok report
         /\ validate_fan_sensors broken_readings = Raise (KeyError "value")
         /\ map (fun kv => (fst kv, vr_status (snd kv))) (category_results report)
            = [("voltages", "WARNING"); ("temperatures", "PASS"); ("fans", "ERROR");
               ("power", "PASS"); ("discrete", "PASS")]).
Proof.
  intros category_functions. subst category_functions.
  split; [|split; [|split]].
  - intros sensors.
    destruct (perform_full_validation_with_five
                (validate_voltage_sensors limits)
                (validate_temperature_sensors limits)
                validate_fan_sensors validate_power_sensors
                (validate_discrete_sensors limits) file now limits sensors)
      as (report & E & Hres & Hstatus).
    exists report. split; [exact E|]. split; [exact Hres|].
    split; [rewrite Hstatus; apply overall_status_known|].
    intros category_name validation_func Hin. split.
    + intros category_error Hraise.
      assert (Hstub : category_outcome validation_func sensors
                      = error_stub category_error)
        by (unfold category_outcome; now rewrite Hraise).
      rewrite Hstatus, Hres. cbn [dict_values map snd]. cbv zeta.
      destruct Hin as [Ef | [Ef | [Ef | [Ef | [Ef | []]]]]];
        inversion Ef; subst category_name validation_func; rewrite Hstub;
        (split; [reflexivity|]);
        match goal with
        | |- (if mem "ERROR" ?l then _ else _) = _ =>
            assert (Hm : mem "ERROR" l = true)
              by (unfold mem; apply existsb_exists; exists "ERROR";
                  split; [simpl; tauto | reflexivity]);
            rewrite Hm; reflexivity
        end.
    + intros category_result Hok.
      assert (Hout : category_outcome validation_func sensors = category_result)
        by (unfold category_outcome; now rewrite Hok).
      rewrite Hres.
      destruct Hin as [Ef | [Ef | [Ef | [Ef | [Ef | []]]]]];
        inversion Ef; subst category_name validation_func; rewrite Hout;
        reflexivity.
  - intros sensor_error. eexists. split; [reflexivity|]. split; reflexivity.
  - intros category_error. repeat split; reflexivity.
  - destruct (fan_validator_error_is_contained file now)
      as (report & E & Hfan & Hstatuses & _).
    exists report. split; [exact E|]. split; [exact Hfan | exact Hstatuses].
Qed.

End SensorFacts.

(** * Further properties of the engine *)

(** ** Status and findings of a comparator *)

Lemma consistent_start {A : Type} : consistent (A := A) "PASS" [].
Proof. split; [now left | tauto]. Qed.

Lemma app_singleton_not_nil {A : Type} (l : list A) (x : A) : l ++ [x] <> [].
Proof. destruct l; discriminate. Qed.

Lemma escalate_fail (s : string) :
  comparison_status s -> _escalate_status s "FAIL" = "FAIL".
Proof. intros [-> | [-> | ->]]; reflexivity. Qed.

Lemma escalate_warning (s : string) :
  comparison_status s ->
  _escalate_status s "WARNING" = "WARNING" \/ _escalate_status s "WARNING" = "FAIL".
Proof. intros [-> | [-> | ->]]; [left | left | right]; reflexivity. Qed.

Lemma consistent_fail {A : Type} (s : string) (l : list A) (x : A) :
  comparison_status s -> consistent (_escalate_status s "FAIL") (l ++ [x]).
Proof.
  intros Hs. rewrite (escalate_fail s Hs). split; [now right; right|].
  split; [discriminate | intros H; now apply app_singleton_not_nil in H].
Qed.

Lemma consistent_warning {A : Type} (s : string) (l : list A) (x : A) :
  comparison_status s -> consistent (_escalate_status s "WARNING") (l ++ [x]).
Proof.
  intros Hs. destruct (escalate_warning s Hs) as [-> | ->];
    (split; [unfold comparison_status; tauto|]);
    (split; [discriminate | intros H; now apply app_singleton_not_nil in H]).
Qed.

Lemma compare_socket_consistent
    (bs cs : dict string Processors.Processor) (st st' : Processors.LoopState)
    (k : string) :
  cpu_consistent st -> Processors.compare_socket bs cs st k = Ok st' ->
  cpu_consistent st'.
Proof.
  unfold cpu_consistent. intros [Hs Hd] H. unfold Processors.compare_socket in H.
  destruct (dict_get cs k) as [cur|].
  - destruct (dict_get bs k) as [base|].
    + destruct (opt_str_eqb (Processors.model cur) (Processors.model base));
        simpl in H;
        (destruct (Processors.check_cores cur base); simpl in H; [|discriminate]);
        destruct (Processors.opt_count_eqb (Processors.threads cur)
                                           (Processors.threads base));
        simpl in H; inversion H; subst; clear H; simpl.
      * now split.
      * now apply consistent_fail.
      * now apply consistent_fail.
      * rewrite escalate_status_idempotent. now apply consistent_fail.
    + inversion H; subst; clear H; simpl. now apply consistent_warning.
  - inversion H; subst; clear H; simpl. now apply consistent_fail.
Qed.

(** X1. Whenever the processor comparison returns, its status is PASS,
    WARNING or FAIL, and it is PASS exactly when the list of differences is
    empty. *)
Theorem compare_processors_consistent (set_iter : list string -> list string)
    (current baseline : list Processors.Processor) (r : Processors.DiffResult) :
  Processors.compare_processors set_iter current baseline = Ok r ->
  consistent (Processors.status r) (Processors.differences r).
Proof.
  unfold Processors.compare_processors. intros H.
  destruct (dict_by_key Processors.socket "socket" baseline []) as [bs|];
    simpl in H; [|discriminate].
  destruct (dict_by_key Processors.socket "socket" current []) as [cs|];
    simpl in H; [|discriminate].
  destruct (fold_result _ _ _) as [st|] eqn:E; simpl in H; [|discriminate].
  inversion H; subst; clear H. simpl.
  apply (fold_result_invariant _ cpu_consistent _ _ _
           (fun s a s' => compare_socket_consistent bs cs s s' a)) in E;
    [exact E|].
  destruct (negb (length current =? length baseline)%nat).
  - apply (consistent_fail "PASS" []). now left.
  - apply consistent_start.
Qed.

Lemma compare_processors_consistent_witness :
  exists r,
    Processors.compare_processors stored_order replaced_cpus example_cpus = Ok r
    /\ consistent (Processors.status r) (Processors.differences r).
Proof.
  eexists. split; [vm_compute; reflexivity|].
  apply (compare_processors_consistent stored_order replaced_cpus example_cpus).
  vm_compute. reflexivity.
Defined.

Lemma memory_compare_slot_consistent
    (cs bs : dict (option string) Memory.MemoryModule) (st : Memory.LoopState)
    (k : option string) :
  memory_consistent st -> memory_consistent (Memory.compare_slot cs bs st k).
Proof.
  unfold memory_consistent, Memory.compare_slot. intros [Hs Hd].
  destruct (Bool.eqb _ _); simpl; [now split|].
  now apply consistent_warning.
Qed.

(** X2. Whenever the memory comparison returns, its status is PASS, WARNING
    or FAIL, and it is PASS exactly when the list of differences is empty. *)
Theorem compare_memory_consistent (current baseline : list Memory.MemoryModule)
    (r : Memory.DiffResult) :
  Memory.compare_memory current baseline = Ok r ->
  consistent (Memory.status r) (Memory.differences r).
Proof.
  unfold Memory.compare_memory. intros H.
  destruct (Memory.sorted_slots _) as [slots|]; [|
    destruct (negb (Nat.eqb _ _)), (negb (Z.eqb _ _)); discriminate].
  assert (Hinv : forall st, memory_consistent st ->
            memory_consistent
              (fold_left (Memory.compare_slot (dict_of_list Memory.slot current)
                                              (dict_of_list Memory.slot baseline))
                         slots st)).
  { intros st Hst.
    apply (fold_left_invariant _ memory_consistent (fun _ => True)); trivial.
    intros s k _. apply memory_compare_slot_consistent. }
  destruct (negb (Nat.eqb _ _)), (negb (Z.eqb _ _)); simpl in H;
    inversion H; subst; clear H; simpl; apply Hinv; unfold memory_consistent; simpl.
  - apply (consistent_fail (_escalate_status "PASS" "WARNING") [_]).
    right; now left.
  - apply (consistent_warning "PASS" []). now left.
  - apply (consistent_fail "PASS" []). now left.
  - apply consistent_start.
Qed.

Lemma compare_memory_consistent_witness :
  exists r,
    Memory.compare_memory dimms_3_slots dimms_128 = Ok r
    /\ consistent (Memory.status r) (Memory.differences r).
Proof.
  eexists. split; [vm_compute; reflexivity|].
  apply (compare_memory_consistent dimms_3_slots dimms_128).
  vm_compute. reflexivity.
Defined.

Lemma pci_steps_consistent
    (bc cc : dict string (list Pci.PciDevice)) (bb cb : dict string Pci.PciDevice)
    (st : Pci.LoopState) (k : string) :
  pci_consistent st ->
  pci_consistent (Pci.check_baseline_class bc cc st k)
  /\ pci_consistent (Pci.check_new_class bc cc st k)
  /\ pci_consistent (Pci.check_bdf bb cb st k).
Proof.
  unfold pci_consistent. intros [Hs Hd]. split; [|split].
  - unfold Pci.check_baseline_class. destruct (negb _); simpl;
      [now apply consistent_fail | now split].
  - unfold Pci.check_new_class. destruct (negb _); simpl;
      [now apply consistent_warning | now split].
  - unfold Pci.check_bdf. destruct (dict_get cb k) as [cur|]; simpl;
      [|now apply consistent_fail].
    destruct (dict_get bb k) as [base|]; simpl; [|now split].
    destruct (negb _ && _); [now apply consistent_warning | now split].
Qed.

(** X3. Whenever the PCI comparison returns, its status is PASS, WARNING or
    FAIL, and it is PASS exactly when the list of differences is empty. *)
Theorem compare_pci_devices_consistent (set_iter : list string -> list string)
    (current baseline : list Pci.PciDevice) (r : Pci.DiffResult) :
  Pci.compare_pci_devices set_iter current baseline = Ok r ->
  consistent (Pci.status r) (Pci.differences r).
Proof.
  unfold Pci.compare_pci_devices. intros H.
  destruct (dict_by_key Pci.bdf "bdf" baseline []) as [bb|]; simpl in H;
    [|discriminate].
  destruct (dict_by_key Pci.bdf "bdf" current []) as [cb|]; simpl in H;
    [|discriminate].
  inversion H; subst; clear H. simpl.
  apply (fold_left_invariant _ pci_consistent (fun _ => True)); trivial.
  { intros s k _ Hs. now apply (pci_steps_consistent [] [] bb cb s k). }
  apply (fold_left_invariant _ pci_consistent (fun _ => True)); trivial.
  { intros s k _ Hs.
    now apply (pci_steps_consistent _ _ [] [] s k). }
  apply (fold_left_invariant _ pci_consistent (fun _ => True)); trivial.
  { intros s k _ Hs.
    now apply (pci_steps_consistent _ _ [] [] s k). }
  apply consistent_start.
Qed.

Lemma compare_pci_devices_consistent_witness :
  exists r,
    Pci.compare_pci_devices stored_order [] example_pci = Ok r
    /\ consistent (Pci.status r) (Pci.differences r).
Proof.
  eexists. split; [vm_compute; reflexivity|].
  apply (compare_pci_devices_consistent stored_order [] example_pci).
  vm_compute. reflexivity.
Defined.

Lemma check_vid_pid_consistent (bh ch : dict string (list Usb.UsbDevice))
    (st : Usb.LoopState) (k : string) :
  usb_consistent st -> usb_consistent (Usb.check_vid_pid bh ch st k).
Proof.
  unfold usb_consistent, Usb.check_vid_pid. intros [Hs Hd].
  set (b := length (dict_get_or bh k [])).
  set (c := length (dict_get_or ch k [])).
  destruct (Nat.eqb b c) eqn:E; simpl; [now split|].
  apply Nat.eqb_neq in E.
  destruct (Nat.ltb c b) eqn:E1; [now apply consistent_fail|].
  destruct (Nat.ltb b c) eqn:E2; [now apply consistent_warning|].
  apply Nat.ltb_ge in E1, E2. lia.
Qed.

(** X4. The status of the USB comparison is PASS, WARNING or FAIL, and it
    is PASS exactly when the list of differences is empty. *)
Theorem compare_usb_devices_consistent (set_iter : list string -> list string)
    (current baseline : list Usb.UsbDevice) :
  consistent (Usb.status (Usb.compare_usb_devices set_iter current baseline))
             (Usb.differences (Usb.compare_usb_devices set_iter current baseline)).
Proof.
  unfold Usb.compare_usb_devices. simpl.
  apply (fold_left_invariant _ usb_consistent (fun _ => True)); trivial.
  - intros s k _. apply check_vid_pid_consistent.
  - apply consistent_start.
Qed.

Lemma storage_consistent (set_iter : list string -> list string)
    (current baseline : list Storage.StorageDevice) (r : Storage.DiffResult) :
  Storage.compare_storage_devices set_iter current baseline = Ok r ->
  consistent (Storage.status r) (Storage.differences r).
Proof.
  unfold Storage.compare_storage_devices. intros H.
  repeat match type of H with
         | bind ?m _ = Ok _ => destruct m; cbn [bind] in H; [|discriminate]
         end.
  inversion H; subst; clear H. cbn [Storage.status Storage.differences].
  destruct (fold_left _ _ _); split; unfold comparison_status; try tauto;
    split; congruence.
Qed.

Lemma riser_consistent (current baseline : list Riser.RiserCard) :
  consistent (Riser.status (Riser.compare_riser_cards current baseline))
             (Riser.differences (Riser.compare_riser_cards current baseline)).
Proof.
  unfold Riser.compare_riser_cards. simpl.
  match goal with
  | |- context [filter Riser.is_critical ?d] =>
      destruct d as [|x d'] eqn:E; simpl
  end.
  - split; [now left | tauto].
  - destruct (Riser.is_critical x); simpl.
    + split; [now right; right | split; discriminate].
    + destruct (filter Riser.is_critical d');
        (split; [unfold comparison_status; tauto | split; discriminate]).
Qed.

(** ** The diff aggregator *)

Lemma overall_of_cons (s x : string) (l : list string) :
  comparison_status s -> comparison_status x ->
  HardwareDiff.overall_of (_escalate_status s x :: l)
  = HardwareDiff.overall_of (s :: x :: l).
Proof.
  unfold HardwareDiff.overall_of.
  intros [-> | [-> | ->]] [-> | [-> | ->]]; simpl;
    destruct (mem "FAIL" l), (mem "WARNING" l); reflexivity.
Qed.

Lemma escalate_comparison_status (s x : string) :
  comparison_status s -> comparison_status x ->
  comparison_status (_escalate_status s x).
Proof.
  unfold comparison_status.
  intros [-> | [-> | ->]] [-> | [-> | ->]]; vm_compute; tauto.
Qed.

Lemma fold_escalate_comparison_status (l : list string) (s : string) :
  comparison_status s -> Forall comparison_status l ->
  comparison_status (fold_left _escalate_status l s).
Proof.
  intros Hs Hl. revert s Hs. induction Hl as [|x l Hx Hl IH]; intros s Hs; simpl.
  - exact Hs.
  - apply IH. now apply escalate_comparison_status.
Qed.

(** Folding [_escalate_status] over component statuses gives the status
    that the aggregator computes with its two membership tests. *)
Lemma overall_of_is_escalation (l : list string) (s : string) :
  comparison_status s -> Forall comparison_status l ->
  fold_left _escalate_status l s = HardwareDiff.overall_of (s :: l).
Proof.
  intros Hs Hl. revert s Hs. induction Hl as [|x l Hx Hl IH]; intros s Hs; simpl.
  - destruct Hs as [-> | [-> | ->]]; reflexivity.
  - rewrite IH by now apply escalate_comparison_status.
    now apply overall_of_cons.
Qed.

(** Evaluates the equality tests between string literals of the goal. *)
Ltac eval_eqb :=
  repeat match goal with
         | |- context [String.eqb ?a ?b] =>
             let v := eval vm_compute in (String.eqb a b) in
             change (String.eqb a b) with v
         end.

Lemma overall_of_pass (l : list string) :
  Forall comparison_status l ->
  (HardwareDiff.overall_of l = "PASS" <-> Forall (fun s => s = "PASS") l).
Proof.
  unfold HardwareDiff.overall_of, mem.
  induction 1 as [|x l Hx Hl IH]; [split; [constructor | reflexivity]|].
  destruct Hx as [-> | [-> | ->]]; cbn [existsb]; eval_eqb; cbn [orb].
  - rewrite IH. split; [now constructor | now inversion 1].
  - split; [|inversion 1; discriminate].
    destruct (existsb (String.eqb "FAIL") l); discriminate.
  - split; [discriminate | inversion 1; discriminate].
Qed.

Lemma count_statuses (l : list string) :
  Forall comparison_status l ->
  HardwareDiff.count_status "PASS" l + HardwareDiff.count_status "WARNING" l
  + HardwareDiff.count_status "FAIL" l = length l
  /\ length (filter (fun s => negb (String.eqb s "UNKNOWN")) l) = length l.
Proof.
  unfold HardwareDiff.count_status.
  induction 1 as [|x l Hx Hl [IH1 IH2]]; [split; reflexivity|].
  destruct Hx as [-> | [-> | ->]]; cbn [filter]; eval_eqb;
    cbn [negb length]; lia.
Qed.

Lemma Ok_injective {A : Type} (a b : A) : Ok a = Ok b -> a = b.
Proof. now inversion 1. Qed.

(** X5. Whenever [perform_full_diff] returns a report: the overall status
    is PASS, WARNING or FAIL and equals the escalation of the six component
    statuses from PASS; all six components are counted, each as passed,
    warning or failed; and the overall status is PASS exactly when the
    report counts no difference. *)
Theorem perform_full_diff_summary (set_iter : list string -> list string)
    (now : string) (baseline_config : HardwareDiff.Config)
    (collected : result HardwareDiff.Config) (report : HardwareDiff.DiffReport) :
  HardwareDiff.perform_full_diff set_iter now baseline_config collected = Ok report ->
  let all_statuses :=
    [Processors.status (HardwareDiff.cpu_diff report);
     Memory.status (HardwareDiff.memory_diff report);
     Pci.status (HardwareDiff.pci_diff report);
     Usb.status (HardwareDiff.usb_diff report);
     Storage.status (HardwareDiff.storage_result report);
     Riser.status (HardwareDiff.riser_result report)] in
  let summary := HardwareDiff.summary report in
  comparison_status (HardwareDiff.overall_status report)
  /\ HardwareDiff.overall_status report
     = fold_left _escalate_status all_statuses "PASS"
  /\ HardwareDiff.total_components_checked summary = 6
  /\ HardwareDiff.components_passed summary + HardwareDiff.components_warning summary
     + HardwareDiff.components_failed summary = 6
  /\ (HardwareDiff.overall_status report = "PASS"
      <-> HardwareDiff.total_differences summary = 0).
Proof.
  unfold HardwareDiff.perform_full_diff, HardwareDiff.config_item. intros H.
  repeat match type of H with
         | bind ?m _ = Ok _ =>
             let E := fresh "E" in
             destruct m eqn:E; cbn [bind] in H; [|discriminate]
         end.
  cbv zeta in H.
  repeat match type of H with
         | bind ?m _ = Ok _ =>
             let E := fresh "E" in
             destruct m eqn:E; cbn [bind] in H; [|discriminate]
         end.
  apply Ok_injective in H. subst report. cbv zeta.
  cbn [HardwareDiff.overall_status HardwareDiff.summary HardwareDiff.cpu_diff
       HardwareDiff.memory_diff HardwareDiff.pci_diff HardwareDiff.usb_diff
       HardwareDiff.storage_result HardwareDiff.riser_result
       HardwareDiff.total_components_checked HardwareDiff.components_passed
       HardwareDiff.components_warning HardwareDiff.components_failed
       HardwareDiff.total_differences].
  match goal with
  | E : Processors.compare_processors _ _ _ = Ok ?r |- _ =>
      pose proof (compare_processors_consistent _ _ _ _ E) as [Hc1 Hc2];
      rename r into cpu
  end.
  match goal with
  | E : Memory.compare_memory _ _ = Ok ?r |- _ =>
      pose proof (compare_memory_consistent _ _ _ E) as [Hm1 Hm2];
      rename r into mem_diff
  end.
  match goal with
  | E : Pci.compare_pci_devices _ _ _ = Ok ?r |- _ =>
      pose proof (compare_pci_devices_consistent _ _ _ _ E) as [Hp1 Hp2];
      rename r into pci_diff
  end.
  match goal with
  | |- context [Usb.compare_usb_devices ?i ?c ?b] =>
      pose proof (compare_usb_devices_consistent i c b) as [Hu1 Hu2];
      set (usb := Usb.compare_usb_devices i c b) in *
  end.
  match goal with
  | E : Storage.compare_storage_devices _ _ _ = Ok ?r |- _ =>
      pose proof (storage_consistent _ _ _ _ E) as [Hs1 Hs2];
      rename r into sto
  end.
  match goal with
  | |- context [Riser.compare_riser_cards ?c ?b] =>
      pose proof (riser_consistent c b) as [Hr1 Hr2];
      set (ris := Riser.compare_riser_cards c b) in *
  end.
  match goal with
  | |- context [HardwareDiff.overall_of ?l] =>
      assert (Hall : Forall comparison_status l)
        by (repeat (apply Forall_cons; [assumption|]); apply Forall_nil);
      set (statuses := l) in *
  end.
  assert (Hfold : HardwareDiff.overall_of statuses
                  = fold_left _escalate_status statuses "PASS").
  { rewrite (overall_of_is_escalation statuses "PASS"); [|now left | exact Hall].
    unfold HardwareDiff.overall_of. reflexivity. }
  destruct (count_statuses statuses Hall) as [Hcount Hchecked].
  split; [|split; [exact Hfold | split; [exact Hchecked | split; [exact Hcount|]]]].
  - rewrite Hfold. clear Hfold Hcount Hchecked.
    apply fold_escalate_comparison_status; [now left | exact Hall].
  - rewrite (overall_of_pass statuses Hall). subst statuses. split.
    + intros Hpass. rewrite Forall_forall in Hpass.
      pose proof (Hpass _ (or_introl eq_refl)) as P1.
      pose proof (Hpass _ (or_intror (or_introl eq_refl))) as P2.
      pose proof (Hpass _ (or_intror (or_intror (or_introl eq_refl)))) as P3.
      pose proof (Hpass _ (or_intror (or_intror (or_intror (or_introl eq_refl)))))
        as P4.
      pose proof (Hpass _ (or_intror (or_intror (or_intror (or_intror
                             (or_introl eq_refl)))))) as P5.
      pose proof (Hpass _ (or_intror (or_intror (or_intror (or_intror
                             (or_intror (or_introl eq_refl))))))) as P6.
      rewrite (proj1 Hc2 P1), (proj1 Hm2 P2), (proj1 Hp2 P3), (proj1 Hu2 P4),
        (proj1 Hs2 P5), (proj1 Hr2 P6). reflexivity.
    + intros Hzero.
      assert (HZ : Processors.differences cpu = [] /\ Memory.differences mem_diff = []
                   /\ Pci.differences pci_diff = [] /\ Usb.differences usb = []
                   /\ Storage.differences sto = [] /\ Riser.differences ris = []).
      { repeat split; apply length_zero_iff_nil; lia. }
      destruct HZ as (Z1 & Z2 & Z3 & Z4 & Z5 & Z6).
      repeat (apply Forall_cons; [tauto|]). apply Forall_nil.
Qed.

Lemma perform_full_diff_summary_witness :
  exists report,
    HardwareDiff.perform_full_diff stored_order "2024-03-01 10:00:00"
      example_baseline_config (Ok changed_config) = Ok report
    /\ (let all_statuses :=
          [Processors.status (HardwareDiff.cpu_diff report);
           Memory.status (HardwareDiff.memory_diff report);
           Pci.status (HardwareDiff.pci_diff report);
           Usb.status (HardwareDiff.usb_diff report);
           Storage.status (HardwareDiff.storage_result report);
           Riser.status (HardwareDiff.riser_result report)] in
        let summary := HardwareDiff.summary report in
        comparison_status (HardwareDiff.overall_status report)
        /\ HardwareDiff.overall_status report
           = fold_left _escalate_status all_statuses "PASS"
        /\ HardwareDiff.total_components_checked summary = 6
        /\ HardwareDiff.components_passed summary
           + HardwareDiff.components_warning summary
           + HardwareDiff.components_failed summary = 6
        /\ (HardwareDiff.overall_status report = "PASS"
            <-> HardwareDiff.total_differences summary = 0)).
Proof.
  eexists. split; [vm_compute; reflexivity|].
  apply (perform_full_diff_summary stored_order "2024-03-01 10:00:00"
           example_baseline_config (Ok changed_config)).
  vm_compute. reflexivity.
Defined.

(** ** Lookup in a dictionary built from a list *)

Section DictLaws.
Context {V : Type}.
Implicit Types (d : dict string V) (k : string) (v : V).

Lemma keqb_string_eq k k' : keqb k k' = true <-> k = k'.
Proof. unfold keqb, string_KeyEq. apply String.eqb_eq. Qed.

Lemma dict_get_set_same d k v : dict_get (dict_set d k v) k = Some v.
Proof.
  induction d as [|[k' v'] d IH]; simpl.
  - unfold keqb, string_KeyEq. now rewrite String.eqb_refl.
  - destruct (keqb k k') eqn:E; simpl; rewrite E; [reflexivity | exact IH].
Qed.

Lemma dict_get_set_other d k k' v :
  k <> k' -> dict_get (dict_set d k v) k' = dict_get d k'.
Proof.
  intros Hne. induction d as [|[k0 v0] d IH]; simpl.
  - destruct (keqb k' k) eqn:E; [|reflexivity].
    apply keqb_string_eq in E. congruence.
  - destruct (keqb k k0) eqn:E; simpl.
    + apply keqb_string_eq in E. subst k0.
      destruct (keqb k' k) eqn:E'; [|reflexivity].
      apply keqb_string_eq in E'. congruence.
    + destruct (keqb k' k0); [reflexivity | exact IH].
Qed.

Lemma dict_key_of_get d k v : dict_get d k = Some v -> In k (dict_keys d).
Proof.
  induction d as [|[k' v'] d IH]; simpl; [discriminate|].
  destruct (keqb k k') eqn:E.
  - apply keqb_string_eq in E. now left.
  - intros H. right. now apply IH.
Qed.

Lemma dict_get_none d k : ~ In k (dict_keys d) -> dict_get d k = None.
Proof.
  intros Hk. destruct (dict_get d k) eqn:E; [|reflexivity].
  exfalso. apply Hk. exact (dict_key_of_get _ _ _ E).
Qed.

Lemma dict_by_key_get_other (key : V -> option string) (keyname : string)
    (xs : list V) d d' k :
  dict_by_key key keyname xs d = Ok d' ->
  ~ In (Some k) (map key xs) ->
  dict_get d' k = dict_get d k.
Proof.
  revert d. induction xs as [|x xs IH]; simpl; intros d H Hk.
  - now inversion H.
  - destruct (key x) as [kx|] eqn:E; [|discriminate].
    rewrite (IH _ H) by tauto.
    apply dict_get_set_other. intros ->. tauto.
Qed.

(** With distinct keys, every record is found under its key. *)
Lemma dict_by_key_get (key : V -> option string) (keyname : string)
    (xs : list V) d d' k x :
  dict_by_key key keyname xs d = Ok d' ->
  NoDup (map key xs) -> In x xs -> key x = Some k ->
  dict_get d' k = Some x.
Proof.
  revert d. induction xs as [|y xs IH]; simpl; intros d H Hnd Hin Hk; [tauto|].
  inversion Hnd as [|? ? Hy Hnd']; subst.
  destruct (key y) as [ky|] eqn:E; [|discriminate].
  destruct Hin as [-> | Hin].
  - assert (ky = k) by congruence. subst ky.
    rewrite (dict_by_key_get_other _ _ _ _ _ k H) by exact Hy.
    apply dict_get_set_same.
  - exact (IH _ H Hnd' Hin Hk).
Qed.

Lemma dict_by_key_keys (key : V -> option string) (keyname : string)
    (xs : list V) d d' k :
  dict_by_key key keyname xs d = Ok d' ->
  In k (dict_keys d') -> In (Some k) (map key xs) \/ In k (dict_keys d).
Proof.
  revert d. induction xs as [|x xs IH]; simpl; intros d H Hk.
  - inversion H; subst. now right.
  - destruct (key x) as [kx|] eqn:E; [|discriminate].
    destruct (IH _ H Hk) as [Hin | Hin]; [left; now right|].
    destruct (dict_set_keys _ _ _ _ Hin) as [-> | Hin']; [left; now left | now right].
Qed.

End DictLaws.

Lemma set_union_member (a b : list string) (x : string) :
  In x a \/ In x b -> In x (set_union a b).
Proof. intros H. unfold set_union. apply nodup_In. now apply in_or_app. Qed.

Lemma set_iter_member (set_iter : list string -> list string) (l : list string) x :
  set_order set_iter -> In x l -> In x (set_iter l).
Proof. intros Hperm H. exact (Permutation_in x (Permutation_sym (Hperm l)) H). Qed.

(** ** What the processor comparison raises *)

(** A loop that raises [e] at one of its items, and nothing else anywhere,
    raises [e]. *)
Lemma fold_result_raises {A S : Type} (body : S -> A -> result S) (e : exn)
    (l : list A) (k : A) (st : S) :
  In k l ->
  (forall s, body s k = Raise e) ->
  (forall s a e', body s a = Raise e' -> e' = e) ->
  fold_result body l st = Raise e.
Proof.
  intros Hin Hk Honly. revert st.
  induction l as [|a l IH]; intros st; [destruct Hin|]. simpl.
  destruct (body st a) as [s1|e1] eqn:E; simpl.
  - destruct Hin as [-> | Hin]; [rewrite Hk in E; discriminate | now apply IH].
  - now rewrite (Honly _ _ _ E).
Qed.

Lemma check_cores_raises_only (cur base : Processors.Processor) (e : exn) :
  Processors.check_cores cur base = Raise e -> e = NameError "result".
Proof.
  unfold Processors.check_cores. intros H.
  repeat match type of H with
         | context [if ?b then _ else _] => destruct b
         end;
    try discriminate; now inversion H.
Qed.

Lemma compare_socket_raises_only (bs cs : dict string Processors.Processor)
    (st : Processors.LoopState) (k : string) (e : exn) :
  Processors.compare_socket bs cs st k = Raise e -> e = NameError "result".
Proof.
  unfold Processors.compare_socket. intros H.
  destruct (dict_get cs k) as [cur|]; [|discriminate].
  destruct (dict_get bs k) as [base|]; [|discriminate].
  destruct (opt_str_eqb (Processors.model cur) (Processors.model base));
    simpl in H;
    (destruct (Processors.check_cores cur base) eqn:E; simpl in H;
     [destruct (Processors.opt_count_eqb (Processors.threads cur)
                                         (Processors.threads base));
      discriminate
     |inversion H; subst; exact (check_cores_raises_only _ _ _ E)]).
Qed.

(** X6. With distinct socket names on each side, a socket present in both
    snapshots whose core counts differ while the baseline count is not
    ['Unknown'] makes [compare_processors] raise [NameError] for the
    undefined name [result], under any iteration order of the socket set;
    [perform_full_diff] catches nothing, so the whole diff ends with that
    exception. *)
Theorem core_count_change_aborts_diff
    (set_iter : list string -> list string) (now : string)
    (baseline_config current_config : HardwareDiff.Config)
    (current baseline : list Processors.Processor)
    (cur base : Processors.Processor) (k : string) :
  set_order set_iter ->
  HardwareDiff.processors current_config = Some current ->
  HardwareDiff.processors baseline_config = Some baseline ->
  (forall p, In p current -> Processors.socket p <> None) ->
  (forall p, In p baseline -> Processors.socket p <> None) ->
  NoDup (map Processors.socket current) ->
  NoDup (map Processors.socket baseline) ->
  In cur current -> In base baseline ->
  Processors.socket cur = Some k -> Processors.socket base = Some k ->
  Processors.opt_count_eqb (Processors.cores cur) (Processors.cores base) = false ->
  Processors.is_unknown (Processors.cores base) = false ->
  Processors.compare_processors set_iter current baseline
  = Raise (NameError "result")
  /\ HardwareDiff.perform_full_diff set_iter now baseline_config (Ok current_config)
     = Raise (NameError "result").
Proof.
  intros Hiter Hcfg Hbase Hwc Hwb Hndc Hndb Hinc Hinb Hkc Hkb Hne Hunk.
  assert (Hraise : Processors.compare_processors set_iter current baseline
                   = Raise (NameError "result")).
  { unfold Processors.compare_processors.
    destruct (dict_by_key_total Processors.socket "socket" baseline [] Hwb)
      as [bs Ebs].
    destruct (dict_by_key_total Processors.socket "socket" current [] Hwc)
      as [cs Ecs].
    rewrite Ebs, Ecs. cbn [bind].
    pose proof (dict_by_key_get _ _ _ _ _ _ _ Ebs Hndb Hinb Hkb) as Hgb.
    pose proof (dict_by_key_get _ _ _ _ _ _ _ Ecs Hndc Hinc Hkc) as Hgc.
    rewrite (fold_result_raises _ (NameError "result") _ k); [reflexivity| | |].
    - apply (set_iter_member _ _ _ Hiter). apply set_union_member. left.
      exact (dict_key_of_get _ _ _ Hgb).
    - intros s. unfold Processors.compare_socket. rewrite Hgc, Hgb.
      rewrite (check_cores_raises _ _ Hne Hunk).
      destruct (negb _); reflexivity.
    - intros s a e'. apply compare_socket_raises_only. }
  split; [exact Hraise|].
  unfold HardwareDiff.perform_full_diff. cbn [bind].
  rewrite Hcfg, Hbase. cbn [HardwareDiff.config_item bind].
  rewrite Hraise. reflexivity.
Qed.

Lemma core_count_change_aborts_diff_witness :
  Processors.compare_processors stored_order
    [cpu "CPU0" xeon (Some (Processors.CInt 16)) (Some (Processors.CInt 64));
     cpu "CPU1" xeon (Some (Processors.CInt 32)) (Some (Processors.CInt 64))]
    example_cpus
  = Raise (NameError "result")
  /\ HardwareDiff.perform_full_diff stored_order "2024-03-01 10:00:00"
       example_baseline_config (Ok halved_config)
     = Raise (NameError "result").
Proof.
  apply (core_count_change_aborts_diff stored_order "2024-03-01 10:00:00"
           example_baseline_config halved_config
           [cpu "CPU0" xeon (Some (Processors.CInt 16)) (Some (Processors.CInt 64));
            cpu "CPU1" xeon (Some (Processors.CInt 32)) (Some (Processors.CInt 64))]
           example_cpus
           (cpu "CPU0" xeon (Some (Processors.CInt 16)) (Some (Processors.CInt 64)))
           (cpu "CPU0" xeon (Some (Processors.CInt 32)) (Some (Processors.CInt 64)))
           "CPU0").
  - intros l. apply Permutation_refl.
  - reflexivity.
  - reflexivity.
  - intros p [<- | [<- | []]]; discriminate.
  - intros p [<- | [<- | []]]; discriminate.
  - constructor; [simpl; intros [H | []]; discriminate|].
    constructor; [simpl; tauto | constructor].
  - constructor; [simpl; intros [H | []]; discriminate|].
    constructor; [simpl; tauto | constructor].
  - now left.
  - now left.
  - reflexivity.
  - reflexivity.
  - reflexivity.
  - reflexivity.
Defined.

(** X7. A unit whose six collections equal those of the baseline, each
    well formed (no disk with a [null] device name, model or transport) and
    every populated riser with a real serial number, gets a report with
    overall status PASS, six components passed and no difference. *)
Theorem perform_full_diff_of_matching_unit
    (set_iter : list string -> list string) (now date : string)
    (baseline_config current_config : HardwareDiff.Config)
    (cpus : list Processors.Processor) (dimms : list Memory.MemoryModule)
    (devices : list Pci.PciDevice) (usbs : list Usb.UsbDevice)
    (disks : list Storage.StorageDevice) (risers : list Riser.RiserCard) :
  set_order set_iter ->
  HardwareDiff.scan_date current_config = Some date ->
  HardwareDiff.processors current_config = Some cpus ->
  HardwareDiff.processors baseline_config = Some cpus ->
  HardwareDiff.memory_modules current_config = Some dimms ->
  HardwareDiff.memory_modules baseline_config = Some dimms ->
  HardwareDiff.pci_devices current_config = Some devices ->
  HardwareDiff.pci_devices baseline_config = Some devices ->
  HardwareDiff.usb_devices current_config = Some usbs ->
  HardwareDiff.usb_devices baseline_config = Some usbs ->
  HardwareDiff.storage_devices current_config = Some disks ->
  HardwareDiff.storage_devices baseline_config = Some disks ->
  HardwareDiff.riser_cards current_config = Some risers ->
  HardwareDiff.riser_cards baseline_config = Some risers ->
  (forall p, In p cpus -> Processors.socket p <> None) ->
  (forall m, In m dimms -> Memory.slot m <> None) ->
  (forall d, In d devices -> Pci.bdf d <> None) ->
  (forall d, In d disks -> textual d) ->
  (forall r, In r risers ->
             Riser.is_populated r = true -> Riser.serial_missing r = false) ->
  exists report,
    HardwareDiff.perform_full_diff set_iter now baseline_config (Ok current_config)
    = Ok report
    /\ HardwareDiff.overall_status report = "PASS"
    /\ HardwareDiff.components_passed (HardwareDiff.summary report) = 6
    /\ HardwareDiff.total_differences (HardwareDiff.summary report) = 0.
Proof.
  intros Hiter Hdate Hc1 Hb1 Hc2 Hb2 Hc3 Hb3 Hc4 Hb4 Hc5 Hb5 Hc6 Hb6
    Hcpus Hdimms Hpci Hdisks Hrisers.
  destruct (compare_processors_same set_iter cpus Hiter Hcpus) as (r1 & E1 & S1 & D1).
  destruct (compare_memory_same dimms Hdimms) as (r2 & E2 & S2 & D2).
  destruct (compare_pci_devices_same set_iter devices Hiter Hpci)
    as (r3 & E3 & S3 & D3).
  destruct (compare_usb_devices_same set_iter usbs) as [S4 D4].
  destruct (compare_storage_devices_same set_iter disks Hdisks)
    as (r5 & E5 & S5 & D5).
  destruct (compare_riser_cards_same risers Hrisers) as [S6 D6].
  unfold HardwareDiff.perform_full_diff. cbn [bind].
  rewrite Hc1, Hb1, Hc2, Hb2, Hc3, Hb3, Hc4, Hb4, Hc5, Hb5, Hc6, Hb6.
  cbn [HardwareDiff.config_item bind]. rewrite E1. cbn [bind].
  rewrite E2. cbn [bind]. rewrite E3. cbn [bind]. cbv zeta.
  rewrite E5. cbn [bind]. rewrite Hdate. cbn [bind].
  eexists. split; [reflexivity|].
  cbn [HardwareDiff.overall_status HardwareDiff.summary
       HardwareDiff.components_passed HardwareDiff.total_differences].
  rewrite S1, S2, S3, S4, S5, S6, D1, D2, D3, D4, D5, D6.
  repeat split; reflexivity.
Qed.

Lemma perform_full_diff_of_matching_unit_witness :
  exists report,
    HardwareDiff.perform_full_diff stored_order "2024-03-01 10:00:00"
      example_baseline_config (Ok matching_config) = Ok report
    /\ HardwareDiff.overall_status report = "PASS"
    /\ HardwareDiff.components_passed (HardwareDiff.summary report) = 6
    /\ HardwareDiff.total_differences (HardwareDiff.summary report) = 0.
Proof.
  apply (perform_full_diff_of_matching_unit stored_order "2024-03-01 10:00:00"
           "2024-03-01" example_baseline_config matching_config
           example_cpus dimms_128 example_pci [root_hub] [nvme_disk] scanned_risers);
    try reflexivity.
  - intros l. apply Permutation_refl.
  - intros p [<- | [<- | []]]; discriminate.
  - intros m [<- | [<- | [<- | [<- | [<- | []]]]]]; discriminate.
  - intros d [<- | [<- | [<- | []]]]; discriminate.
  - intros d [<- | []]. repeat split; discriminate.
  - intros r [<- | [<- | []]] _; reflexivity.
Defined.

(** ** The USB comparison in terms of device counts *)

(** A loop that reaches a state with [P] at the item [k] and keeps [P]
    afterwards ends with [P]; [Inv] holds all along. *)
Lemma fold_left_reaches {A S : Type} (f : S -> A -> S) (Inv P : S -> Prop)
    (l : list A) (k : A) (st : S) :
  In k l -> Inv st ->
  (forall s a, In a l -> Inv s -> Inv (f s a)) ->
  (forall s, Inv s -> P (f s k)) ->
  (forall s a, In a l -> Inv s -> P s -> P (f s a)) ->
  P (fold_left f l st).
Proof.
  intros Hin Hinv Hstep Hk Hkeep.
  assert (Hafter : forall l' s, incl l' l -> Inv s -> P s -> P (fold_left f l' s)).
  { induction l' as [|a l' IH]; intros s Hsub Hs HP; simpl; [exact HP|].
    apply IH.
    - intros x Hx. apply Hsub. now right.
    - apply Hstep; [apply Hsub; now left | exact Hs].
    - apply Hkeep; [apply Hsub; now left | exact Hs | exact HP]. }
  assert (Hgen : forall l' s, incl l' l -> In k l' -> Inv s -> P (fold_left f l' s)).
  { induction l' as [|a l' IH]; intros s Hsub Hk' Hs; [destruct Hk'|]. simpl.
    assert (Ha : In a l) by (apply Hsub; now left).
    assert (Hsub' : incl l' l) by (intros x Hx; apply Hsub; now right).
    destruct Hk' as [-> | Hk'].
    - apply Hafter; [exact Hsub' | now apply Hstep | now apply Hk].
    - apply IH; [exact Hsub' | exact Hk' | now apply Hstep]. }
  apply Hgen; [apply incl_refl | exact Hin | exact Hinv].
Qed.

(** The devices grouped under a VID:PID are those of the list that carry
    it, in their order. *)
Lemma group_by_vid_pid_acc (devices : list Usb.UsbDevice)
    (acc : dict string (list Usb.UsbDevice)) (v : string) :
  dict_get_or
    (fold_left
       (fun hubs dev =>
          let vid_pid := Usb.get_or (Usb.vid_pid dev) "" in
          dict_set hubs vid_pid (dict_get_or hubs vid_pid [] ++ [dev]))
       devices acc) v []
  = dict_get_or acc v []
    ++ filter (fun dev => String.eqb (Usb.get_or (Usb.vid_pid dev) "") v) devices.
Proof.
  revert acc. induction devices as [|dev devices IH]; intros acc; simpl.
  - now rewrite app_nil_r.
  - rewrite IH. unfold dict_get_or at 1.
    destruct (String.eqb (Usb.get_or (Usb.vid_pid dev) "") v) eqn:E.
    + apply String.eqb_eq in E. rewrite E, dict_get_set_same.
      now rewrite <- app_assoc.
    + apply String.eqb_neq in E. rewrite (dict_get_set_other _ _ _ _ E).
      reflexivity.
Qed.

Lemma group_by_vid_pid_count (devices : list Usb.UsbDevice) (v : string) :
  length (dict_get_or (Usb.group_by_vid_pid (filter Usb.is_critical_usb devices)) v [])
  = critical_count v devices.
Proof.
  unfold Usb.group_by_vid_pid, critical_count.
  now rewrite group_by_vid_pid_acc.
Qed.

Lemma group_by_vid_pid_key (devices : list Usb.UsbDevice) (v : string) :
  0 < critical_count v devices ->
  In v (dict_keys (Usb.group_by_vid_pid (filter Usb.is_critical_usb devices))).
Proof.
  rewrite <- group_by_vid_pid_count. unfold dict_get_or.
  destruct (dict_get _ v) eqn:E; [intros _ | simpl; lia].
  exact (dict_key_of_get _ _ _ E).
Qed.

Lemma escalate_from_fail (x : string) :
  comparison_status x -> _escalate_status "FAIL" x = "FAIL".
Proof. intros [-> | [-> | ->]]; reflexivity. Qed.

(** X8. The USB status in terms of the numbers of critical devices per
    VID:PID, under any iteration order of the VID:PID set: FAIL as soon as
    one VID:PID has fewer critical devices than in the baseline; WARNING
    when none has fewer and one has more; PASS with no difference when all
    numbers agree. *)
Theorem usb_status_by_counts (set_iter : list string -> list string)
    (current baseline : list Usb.UsbDevice) :
  set_order set_iter ->
  let r := Usb.compare_usb_devices set_iter current baseline in
  ((exists v, critical_count v current < critical_count v baseline) ->
   Usb.status r = "FAIL")
  /\ ((forall v, critical_count v baseline <= critical_count v current) ->
      (exists v, critical_count v baseline < critical_count v current) ->
      Usb.status r = "WARNING")
  /\ ((forall v, critical_count v baseline = critical_count v current) ->
      Usb.status r = "PASS" /\ Usb.differences r = []).
Proof.
  intros Hiter r. subst r. unfold Usb.compare_usb_devices.
  cbn [Usb.status Usb.differences].
  set (bh := Usb.group_by_vid_pid (filter Usb.is_critical_usb baseline)).
  set (ch := Usb.group_by_vid_pid (filter Usb.is_critical_usb current)).
  set (st0 := {| Usb.st_status := "PASS"; Usb.st_differences := [];
                 Usb.st_hubs := [] |}).
  assert (Hst0 : usb_consistent st0) by apply consistent_start.
  assert (Hinv : forall s a, usb_consistent s ->
                   usb_consistent (Usb.check_vid_pid bh ch s a))
    by (intros; now apply check_vid_pid_consistent).
  assert (Hstep : forall s v,
             Usb.st_status (Usb.check_vid_pid bh ch s v)
             = if Nat.eqb (critical_count v baseline) (critical_count v current)
               then Usb.st_status s
               else if Nat.ltb (critical_count v current) (critical_count v baseline)
                    then _escalate_status (Usb.st_status s) "FAIL"
                    else if Nat.ltb (critical_count v baseline)
                                    (critical_count v current)
                         then _escalate_status (Usb.st_status s) "WARNING"
                         else Usb.st_status s).
  { intros s v. unfold Usb.check_vid_pid. subst bh ch.
    rewrite !group_by_vid_pid_count.
    destruct (Nat.eqb _ _); reflexivity. }
  split; [|split].
  - intros [v Hv].
    apply (fold_left_reaches _ usb_consistent
             (fun s => Usb.st_status s = "FAIL") _ v).
    + apply (set_iter_member _ _ _ Hiter). apply set_union_member. left.
      apply group_by_vid_pid_key. lia.
    + exact Hst0.
    + intros s a _ Hs. now apply Hinv.
    + intros s [Hs _]. rewrite Hstep.
      destruct (Nat.eqb_spec (critical_count v baseline) (critical_count v current));
        [lia|].
      destruct (Nat.ltb_spec (critical_count v current) (critical_count v baseline));
        [now apply escalate_fail | lia].
    + intros s a _ _ HP. rewrite Hstep, HP.
      destruct (Nat.eqb _ _); [reflexivity|].
      destruct (Nat.ltb (critical_count a current) _); [reflexivity|].
      destruct (Nat.ltb _ _); reflexivity.
  - intros Hall [v Hv].
    apply (fold_left_reaches _
             (fun s => Usb.st_status s = "PASS" \/ Usb.st_status s = "WARNING")
             (fun s => Usb.st_status s = "WARNING") _ v).
    + apply (set_iter_member _ _ _ Hiter). apply set_union_member. right.
      apply group_by_vid_pid_key. lia.
    + now left.
    + intros s a _ Hs. rewrite Hstep. specialize (Hall a).
      destruct (Nat.eqb _ _); [exact Hs|].
      destruct (Nat.ltb_spec (critical_count a current) (critical_count a baseline));
        [lia|].
      destruct (Nat.ltb _ _); [|exact Hs].
      right. destruct Hs as [-> | ->]; reflexivity.
    + intros s Hs. rewrite Hstep. specialize (Hall v).
      destruct (Nat.eqb_spec (critical_count v baseline) (critical_count v current));
        [lia|].
      destruct (Nat.ltb_spec (critical_count v current) (critical_count v baseline));
        [lia|].
      destruct (Nat.ltb_spec (critical_count v baseline) (critical_count v current));
        [|lia].
      destruct Hs as [-> | ->]; reflexivity.
    + intros s a _ _ HP. rewrite Hstep, HP. specialize (Hall a).
      destruct (Nat.eqb _ _); [reflexivity|].
      destruct (Nat.ltb_spec (critical_count a current) (critical_count a baseline));
        [lia|].
      destruct (Nat.ltb _ _); reflexivity.
  - intros Hall.
    apply (fold_left_invariant _ usb_clean (fun _ => True)).
    + intros s v _ [Hs Hd]. unfold usb_clean, Usb.check_vid_pid. subst bh ch.
      rewrite !group_by_vid_pid_count, Hall, Nat.eqb_refl. simpl. now split.
    + trivial.
    + split; reflexivity.
Qed.

Lemma usb_status_by_counts_witness :
  set_order reverse_order
  /\ (forall v, critical_count v [root_hub] <= critical_count v [root_hub; kvm_hub])
  /\ critical_count "0557:8021" [root_hub] < critical_count "0557:8021" [root_hub; kvm_hub]
  /\ Usb.status (Usb.compare_usb_devices reverse_order [root_hub; kvm_hub] [root_hub])
     = "WARNING".
Proof.
  assert (Hle : forall v, critical_count v [root_hub]
                          <= critical_count v [root_hub; kvm_hub]).
  { intros v. unfold critical_count.
    change (filter Usb.is_critical_usb [root_hub]) with [root_hub].
    change (filter Usb.is_critical_usb [root_hub; kvm_hub]) with [root_hub; kvm_hub].
    cbn [filter].
    destruct (String.eqb (Usb.get_or (Usb.vid_pid root_hub) "") v);
      destruct (String.eqb (Usb.get_or (Usb.vid_pid kvm_hub) "") v);
      cbn [length]; lia. }
  assert (Hlt : critical_count "0557:8021" [root_hub]
                < critical_count "0557:8021" [root_hub; kvm_hub])
    by (vm_compute; lia).
  split; [exact reverse_order_admissible|].
  split; [exact Hle|]. split; [exact Hlt|].
  destruct (usb_status_by_counts reverse_order [root_hub; kvm_hub] [root_hub]
              reverse_order_admissible) as [_ [H _]].
  apply H; [exact Hle|]. exists "0557:8021". exact Hlt.
Defined.

(** ** A critical PCI device that disappeared *)

Lemma dict_get_pair {V : Type} (d : dict string V) (k : string) (v : V) :
  dict_get d k = Some v -> In (k, v) d.
Proof.
  induction d as [|[k' v'] d IH]; simpl; [discriminate|].
  destruct (keqb k k') eqn:E.
  - apply keqb_string_eq in E. subst k'. intros [= ->]. now left.
  - intros H. right. now apply IH.
Qed.

Lemma pci_steps_keep_fail
    (bc cc : dict string (list Pci.PciDevice)) (bb cb : dict string Pci.PciDevice)
    (st : Pci.LoopState) (k msg : string) :
  Pci.st_status st = "FAIL" /\ In msg (Pci.st_differences st) ->
  (Pci.st_status (Pci.check_bdf bb cb st k) = "FAIL"
   /\ In msg (Pci.st_differences (Pci.check_bdf bb cb st k))).
Proof.
  intros [Hs Hd]. unfold Pci.check_bdf.
  destruct (dict_get cb k) as [c|]; [destruct (dict_get bb k) as [b|]|];
    cbn [Pci.st_status Pci.st_differences]; rewrite ?Hs.
  - destruct (_ && _); [split; [reflexivity | apply in_or_app; now left] | now split].
  - now split.
  - split; [reflexivity | apply in_or_app; now left].
Qed.

(** X9. A critical PCI device of the baseline whose address no current
    device carries makes the PCI comparison FAIL, with the finding
    "Critical device <bdf> missing", under any iteration order of the
    address set. *)
Theorem missing_critical_pci_device_fails (set_iter : list string -> list string)
    (current baseline : list Pci.PciDevice) (dev : Pci.PciDevice) (k : string) :
  set_order set_iter ->
  (forall d, In d current -> Pci.bdf d <> None) ->
  (forall d, In d baseline -> Pci.bdf d <> None) ->
  NoDup (map Pci.bdf baseline) ->
  In dev baseline -> Pci.bdf dev = Some k -> Pci.is_critical dev = true ->
  ~ In (Some k) (map Pci.bdf current) ->
  exists r,
    Pci.compare_pci_devices set_iter current baseline = Ok r
    /\ Pci.status r = "FAIL"
    /\ In (fstr ["Critical device "; k; " missing"]) (Pci.differences r).
Proof.
  intros Hiter Hwc Hwb Hnd Hin Hk Hcrit Hmiss. unfold Pci.compare_pci_devices.
  destruct (dict_by_key_total Pci.bdf "bdf" baseline [] Hwb) as [bb Ebb].
  destruct (dict_by_key_total Pci.bdf "bdf" current [] Hwc) as [cb Ecb].
  rewrite Ebb, Ecb. cbn [bind]. eexists. split; [reflexivity|].
  cbv zeta. cbn [Pci.status Pci.differences].
  pose proof (dict_by_key_get _ _ _ _ _ _ _ Ebb Hnd Hin Hk) as Hgb.
  pose proof (dict_by_key_get_other _ _ _ _ _ k Ecb Hmiss) as Hgc.
  simpl in Hgc.
  apply (fold_left_reaches _ pci_consistent
           (fun s => Pci.st_status s = "FAIL"
                     /\ In (fstr ["Critical device "; k; " missing"])
                           (Pci.st_differences s)) _ k).
  - apply (set_iter_member _ _ _ Hiter). apply set_union_member. left.
    unfold dict_keys, Pci.critical_of.
    change k with (fst (k, dev)). apply in_map. apply filter_In. split.
    + now apply dict_get_pair.
    + exact Hcrit.
  - apply (fold_left_invariant _ pci_consistent (fun _ => True)); trivial.
    { intros s a _ Hs. now apply (pci_steps_consistent _ _ [] [] s a). }
    apply (fold_left_invariant _ pci_consistent (fun _ => True)); trivial.
    { intros s a _ Hs. now apply (pci_steps_consistent _ _ [] [] s a). }
    apply consistent_start.
  - intros s a _ Hs. now apply (pci_steps_consistent [] [] bb cb s a).
  - intros s [Hs _]. unfold Pci.check_bdf. rewrite Hgc.
    cbn [Pci.st_status Pci.st_differences]. split.
    + now apply escalate_fail.
    + apply in_or_app. right. now left.
  - intros s a _ _ HP. now apply (pci_steps_keep_fail [] []).
Qed.

Lemma missing_critical_pci_device_fails_witness :
  exists r,
    Pci.compare_pci_devices reverse_order
      [pci "00:00.0" "Host bridge" "Host bridge: Intel Corporation Device 09a2"]
      example_pci = Ok r
    /\ Pci.status r = "FAIL"
    /\ In (fstr ["Critical device "; "17:00.0"; " missing"]) (Pci.differences r).
Proof.
  apply (missing_critical_pci_device_fails reverse_order _ example_pci
           (pci "17:00.0" "Ethernet controller [0200]"
                "Ethernet controller: Intel Corporation I350 Gigabit")
           "17:00.0").
  - exact reverse_order_admissible.
  - intros d [<- | []]; discriminate.
  - intros d [<- | [<- | [<- | []]]]; discriminate.
  - repeat constructor; simpl; intuition discriminate.
  - right. now left.
  - reflexivity.
  - vm_compute. reflexivity.
  - simpl. intuition discriminate.
Defined.

(** ** The storage comparison in terms of models per type *)

Lemma flat_map_nil_iff {A B : Type} (f : A -> list B) (l : list A) :
  flat_map f l = [] <-> (forall x, In x l -> f x = []).
Proof.
  induction l as [|a l IH]; simpl; [tauto|]. split.
  - intros H. apply app_eq_nil in H. destruct H as [Ha Hl].
    intros x [<- | Hx]; [exact Ha | now apply IH].
  - intros H. rewrite (H a) by now left. apply IH. intros x Hx. apply H. now right.
Qed.

Lemma empty_groups_get (t : string) :
  dict_get_or Storage.empty_groups t [] = ([] : list Storage.StorageDevice).
Proof.
  unfold dict_get_or, Storage.empty_groups. cbn [dict_get].
  repeat match goal with
         | |- context [keqb ?a ?b] => destruct (keqb a b)
         end; reflexivity.
Qed.

Lemma buckets_acc (devices : list Storage.StorageDevice)
    (acc : dict string (list Storage.StorageDevice)) (t : string) :
  dict_get_or
    (fold_left
       (fun groups device =>
          let t := type_name device in
          dict_set groups t (dict_get_or groups t [] ++ [device]))
       devices acc) t []
  = dict_get_or acc t []
    ++ filter (fun d => String.eqb (type_name d) t) devices.
Proof.
  revert acc. induction devices as [|dev devices IH]; intros acc; simpl.
  - now rewrite app_nil_r.
  - rewrite IH. unfold dict_get_or at 1.
    destruct (String.eqb (type_name dev) t) eqn:E.
    + apply String.eqb_eq in E. rewrite E, dict_get_set_same.
      now rewrite <- app_assoc.
    + apply String.eqb_neq in E. rewrite (dict_get_set_other _ _ _ _ E).
      reflexivity.
Qed.

(** The bucket of a type holds the devices of that type, in their order. *)
Lemma buckets_get (devices : list Storage.StorageDevice) (t : string) :
  dict_get_or (buckets devices) t []
  = filter (fun d => String.eqb (type_name d) t) devices.
Proof. unfold buckets. now rewrite buckets_acc, empty_groups_get. Qed.

Lemma compare_type_acc
    (c b : dict string (list Storage.StorageDevice)) (l : list string)
    (acc : list string) :
  fold_left (Storage.compare_type c b) l acc
  = acc ++ flat_map (Storage.compare_type c b []) l.
Proof.
  revert acc. induction l as [|t l IH]; intros acc; simpl.
  - now rewrite app_nil_r.
  - rewrite IH. unfold Storage.compare_type. simpl.
    now rewrite <- !app_assoc.
Qed.

Lemma jstring_eqb_eq (x y : jstring) : jstring_eqb x y = true <-> x = y.
Proof.
  destruct x as [|a], y as [|b]; simpl; try (split; [discriminate | discriminate]).
  - tauto.
  - rewrite String.eqb_eq. split; [now intros -> | now inversion 1].
Qed.

(** One storage type contributes no finding exactly when both sides list
    the same models in the same order. *)
Lemma compare_type_nil_iff
    (c b : dict string (list Storage.StorageDevice)) (t : string) :
  Storage.compare_type c b [] t = []
  <-> map (fun d => Storage.get_or (Storage.model d) "Unknown") (dict_get_or c t [])
      = map (fun d => Storage.get_or (Storage.model d) "Unknown") (dict_get_or b t []).
Proof.
  unfold Storage.compare_type. cbn [app].
  set (l1 := dict_get_or c t []). set (l2 := dict_get_or b t []).
  set (m := fun d => Storage.get_or (Storage.model d) "Unknown").
  split.
  - intros H. apply app_eq_nil in H. destruct H as [Hc Hp].
    assert (Hlen : length l1 = length l2).
    { destruct (Nat.eqb_spec (length l1) (length l2)); [assumption|].
      simpl in Hc. discriminate. }
    apply nth_error_ext. intros i. rewrite !nth_error_map.
    destruct (Nat.lt_ge_cases i (length l1)) as [Hi | Hi].
    + assert (Hin : In i (seq 0 (Nat.max (length l1) (length l2))))
        by (apply in_seq; lia).
      pose proof (proj1 (flat_map_nil_iff _ _) Hp i Hin) as Hi'.
      unfold Storage.compare_position in Hi'.
      destruct (nth_error l1 i) as [x|] eqn:E1;
        [|apply nth_error_None in E1; lia].
      destruct (nth_error l2 i) as [y|] eqn:E2;
        [|apply nth_error_None in E2; lia].
      simpl. fold (m x) (m y). f_equal. apply jstring_eqb_eq.
      cbv zeta in Hi'. fold (m x) (m y) in Hi'.
      destruct (jstring_eqb (m x) (m y)); [reflexivity | discriminate].
    + rewrite (proj2 (nth_error_None l1 i)) by lia.
      rewrite (proj2 (nth_error_None l2 i)) by lia. reflexivity.
  - intros H.
    assert (Hlen : length l1 = length l2)
      by (rewrite <- (length_map m l1), <- (length_map m l2); now rewrite H).
    rewrite Hlen, Nat.eqb_refl. cbn [negb app].
    apply flat_map_nil_iff. intros i _. unfold Storage.compare_position.
    assert (Hi : option_map m (nth_error l1 i) = option_map m (nth_error l2 i))
      by (rewrite <- !nth_error_map; now rewrite H).
    destruct (nth_error l1 i) as [x|], (nth_error l2 i) as [y|];
      simpl in Hi; try discriminate; [|reflexivity].
    injection Hi as Hi. unfold m in Hi. cbv zeta. rewrite Hi, jstring_eqb_refl.
    reflexivity.
Qed.

Lemma storage_findings_nil_iff (set_iter : list string -> list string)
    (current baseline : list Storage.StorageDevice) :
  set_order set_iter ->
  storage_findings set_iter current baseline = []
  <-> (forall t, storage_models current t = storage_models baseline t).
Proof.
  intros Hiter. unfold storage_findings, storage_models. cbv zeta.
  rewrite compare_type_acc. cbn [app]. rewrite flat_map_nil_iff.
  set (cf := real_disks current). set (bf := real_disks baseline).
  split.
  - intros H t. rewrite <- !buckets_get.
    destruct (in_dec string_dec t
                (set_iter (set_union (dict_keys (buckets cf))
                                     (dict_keys (buckets bf)))))
      as [Hin | Hout].
    + now apply compare_type_nil_iff, H.
    + assert (Hc : ~ In t (dict_keys (buckets cf))).
      { intros Hc. apply Hout. apply (set_iter_member _ _ _ Hiter).
        apply set_union_member. now left. }
      assert (Hb : ~ In t (dict_keys (buckets bf))).
      { intros Hb. apply Hout. apply (set_iter_member _ _ _ Hiter).
        apply set_union_member. now right. }
      unfold dict_get_or.
      now rewrite (dict_get_none _ _ Hc), (dict_get_none _ _ Hb).
  - intros H t _. apply compare_type_nil_iff.
    rewrite !buckets_get. apply H.
Qed.

(** A loop that returns ran its body on every item without an exception. *)
Lemma fold_result_pure_inv {A S : Type} (body : S -> A -> result S)
    (f : S -> A -> S) (P : A -> Prop) (l : list A) (st s : S) :
  (forall s a s', body s a = Ok s' -> P a /\ s' = f s a) ->
  fold_result body l st = Ok s ->
  s = fold_left f l st /\ (forall a, In a l -> P a).
Proof.
  intros Hbody. revert st.
  induction l as [|a l IH]; intros st H; cbn [fold_result fold_left] in *.
  - split; [now inversion H | intros a []].
  - destruct (body st a) as [s1|e] eqn:E; cbn [bind] in H; [|discriminate].
    destruct (Hbody _ _ _ E) as [Pa ->].
    destruct (IH _ H) as [-> Hl]. split; [reflexivity|].
    intros b [<- | Hb]; [exact Pa | now apply Hl].
Qed.

(** A loop whose body raises nothing but [e] raises nothing but [e]. *)
Lemma fold_result_raises_only {A S : Type} (body : S -> A -> result S)
    (e : exn) (l : list A) (st : S) (e' : exn) :
  (forall s a e', body s a = Raise e' -> e' = e) ->
  fold_result body l st = Raise e' -> e' = e.
Proof.
  intros Hbody. revert st.
  induction l as [|a l IH]; intros st H; cbn [fold_result] in H; [discriminate|].
  destruct (body st a) as [s1|e1] eqn:E; cbn [bind] in H.
  - exact (IH _ H).
  - inversion H; subst. exact (Hbody _ _ _ E).
Qed.

Lemma lower_of_inv (field : option jstring) (default s : string) :
  Storage.lower_of (Storage.get_or field default) = Ok s ->
  field <> Some JNull /\ s = lower (text_or field default).
Proof.
  destruct field as [[|x]|]; simpl; intros H; [discriminate | |];
    (split; [discriminate | now inversion H]).
Qed.

Lemma lower_of_raises_only (value : jstring) (e : exn) :
  Storage.lower_of value = Raise e -> e = Storage.no_lower.
Proof. destruct value; simpl; intros H; [now inversion H | discriminate]. Qed.

Lemma filter_virtual_devices_inv (l filtered : list Storage.StorageDevice) :
  Storage.filter_virtual_devices l = Ok filtered ->
  filtered = real_disks l /\ (forall d, In d l -> Storage.model d <> Some JNull).
Proof.
  unfold Storage.filter_virtual_devices. intros H.
  apply (fold_result_pure_inv _
           (fun filtered d =>
              if negb (is_virtual_disk d) then filtered ++ [d] else filtered)
           (fun d => Storage.model d <> Some JNull)) in H.
  - now rewrite real_disks_acc in H.
  - intros s d s' E.
    destruct (Storage.lower_of _) as [m|] eqn:Em; cbn [bind] in E; [|discriminate].
    apply lower_of_inv in Em. destruct Em as [Hm ->].
    rewrite is_real_spec in E. split; [exact Hm | now inversion E].
Qed.

Lemma type_of_inv (d : Storage.StorageDevice) (t : string) :
  Storage.type_of d = Ok t -> textual d /\ t = type_name d.
Proof.
  unfold Storage.type_of, type_name. intros H.
  destruct (Storage.lower_of (Storage.get_or (Storage.device d) _)) as [x|] eqn:E1;
    cbn [bind] in H; [|discriminate].
  destruct (Storage.lower_of (Storage.get_or (Storage.model d) _)) as [y|] eqn:E2;
    cbn [bind] in H; [|discriminate].
  destruct (Storage.lower_of (Storage.get_or (Storage.transport d) _)) as [z|] eqn:E3;
    cbn [bind] in H; [|discriminate].
  apply lower_of_inv in E1, E2, E3.
  destruct E1 as [H1 ->], E2 as [H2 ->], E3 as [H3 ->].
  split; [now repeat split | now inversion H].
Qed.

Lemma type_of_raises_only (d : Storage.StorageDevice) (e : exn) :
  Storage.type_of d = Raise e -> e = Storage.no_lower.
Proof.
  unfold Storage.type_of. intros H.
  repeat match type of H with
         | bind ?m _ = Raise _ =>
             let E := fresh "E" in
             destruct m eqn:E; cbn [bind] in H;
             [|inversion H; subst; now apply lower_of_raises_only in E]
         end.
  discriminate.
Qed.

Lemma group_by_type_inv (l : list Storage.StorageDevice)
    (groups : dict string (list Storage.StorageDevice)) :
  Storage.group_by_type l = Ok groups ->
  groups = buckets l /\ (forall d, In d l -> textual d).
Proof.
  unfold Storage.group_by_type, buckets.
  apply fold_result_pure_inv. intros s d s' E.
  destruct (Storage.type_of d) as [t|] eqn:Et; cbn [bind] in E; [|discriminate].
  apply type_of_inv in Et. destruct Et as [Hd ->].
  split; [exact Hd | now inversion E].
Qed.

Lemma filter_virtual_devices_raises_only (l : list Storage.StorageDevice) (e : exn) :
  Storage.filter_virtual_devices l = Raise e -> e = Storage.no_lower.
Proof.
  apply fold_result_raises_only. intros s d e' E.
  destruct (Storage.lower_of _) eqn:Em; cbn [bind] in E; [discriminate|].
  inversion E; subst. now apply lower_of_raises_only in Em.
Qed.

Lemma group_by_type_raises_only (l : list Storage.StorageDevice) (e : exn) :
  Storage.group_by_type l = Raise e -> e = Storage.no_lower.
Proof.
  apply fold_result_raises_only. intros s d e' E.
  destruct (Storage.type_of d) eqn:Et; cbn [bind] in E; [discriminate|].
  inversion E; subst. now apply type_of_raises_only in Et.
Qed.

(** The comparison raises nothing but the [AttributeError] of
    [None.lower()]. *)
Lemma compare_storage_devices_raises_only (set_iter : list string -> list string)
    (current baseline : list Storage.StorageDevice) (e : exn) :
  Storage.compare_storage_devices set_iter current baseline = Raise e ->
  e = Storage.no_lower.
Proof.
  unfold Storage.compare_storage_devices. intros H.
  destruct (Storage.filter_virtual_devices current) eqn:E1; cbn [bind] in H;
    [|inversion H; subst; now apply filter_virtual_devices_raises_only in E1].
  destruct (Storage.filter_virtual_devices baseline) eqn:E2; cbn [bind] in H;
    [|inversion H; subst; now apply filter_virtual_devices_raises_only in E2].
  destruct (Storage.group_by_type _) eqn:E3 in H; cbn [bind] in H;
    [|inversion H; subst; now apply group_by_type_raises_only in E3].
  destruct (Storage.group_by_type _) eqn:E4 in H; cbn [bind] in H;
    [|inversion H; subst; now apply group_by_type_raises_only in E4].
  discriminate.
Qed.

(** What a report of the storage comparison holds. *)
Lemma compare_storage_devices_inv (set_iter : list string -> list string)
    (current baseline : list Storage.StorageDevice) (r : Storage.DiffResult) :
  Storage.compare_storage_devices set_iter current baseline = Ok r ->
  readable current /\ readable baseline
  /\ Storage.differences r = storage_findings set_iter current baseline
  /\ Storage.status r
     = match Storage.differences r with [] => "PASS" | _ => "FAIL" end
  /\ Storage.current_count r = length (real_disks current)
  /\ Storage.baseline_count r = length (real_disks baseline)
  /\ Storage.virtual_devices_filtered r
     = (length current - length (real_disks current),
        length baseline - length (real_disks baseline)).
Proof.
  unfold Storage.compare_storage_devices. intros H.
  destruct (Storage.filter_virtual_devices current) as [cf|] eqn:E1;
    cbn [bind] in H; [|discriminate].
  destruct (Storage.filter_virtual_devices baseline) as [bf|] eqn:E2;
    cbn [bind] in H; [|discriminate].
  destruct (Storage.group_by_type cf) as [cg|] eqn:E3; cbn [bind] in H;
    [|discriminate].
  destruct (Storage.group_by_type bf) as [bg|] eqn:E4; cbn [bind] in H;
    [|discriminate].
  apply filter_virtual_devices_inv in E1, E2.
  destruct E1 as [-> Hc], E2 as [-> Hb].
  apply group_by_type_inv in E3, E4.
  destruct E3 as [-> Hct], E4 as [-> Hbt].
  inversion H; subst; clear H.
  cbn [Storage.differences Storage.status Storage.current_count
       Storage.baseline_count Storage.virtual_devices_filtered].
  split; [now split|]. split; [now split|]. repeat split; reflexivity.
Qed.

(** On readable lists the storage comparison returns. *)
Lemma compare_storage_devices_returns (set_iter : list string -> list string)
    (current baseline : list Storage.StorageDevice) :
  readable current -> readable baseline ->
  exists r, Storage.compare_storage_devices set_iter current baseline = Ok r.
Proof.
  intros [Hc Hct] [Hb Hbt]. unfold Storage.compare_storage_devices.
  rewrite (filter_virtual_devices_textual current Hc),
          (filter_virtual_devices_textual baseline Hb). cbn [bind].
  rewrite (group_by_type_textual _ Hct), (group_by_type_textual _ Hbt).
  cbn [bind]. eexists. reflexivity.
Qed.

(** A list with a [null] model cannot be read. *)
Lemma null_model_not_readable (devices : list Storage.StorageDevice)
    (d : Storage.StorageDevice) :
  In d devices -> Storage.model d = Some JNull -> ~ readable devices.
Proof. intros Hin Hd [H _]. exact (H d Hin Hd). Qed.

(** X10. On lists it can read (no [null] model, and no [null] device name
    or transport on a disk that is not virtual) the storage comparison
    returns a report that is PASS exactly when, for every storage type, the
    non-virtual devices of that type have the same models in the same order
    on both sides, and FAIL otherwise, under any iteration order of the
    type set. It returns on no other lists: there it raises the
    [AttributeError] of [None.lower()], as it does whenever a device of
    either list has a [null] model. *)
Theorem storage_pass_iff_same_models (set_iter : list string -> list string)
    (current baseline : list Storage.StorageDevice) :
  set_order set_iter ->
  (readable current -> readable baseline ->
   exists r,
     Storage.compare_storage_devices set_iter current baseline = Ok r
     /\ (Storage.status r = "PASS"
         <-> forall t, storage_models current t = storage_models baseline t)
     /\ (Storage.status r = "PASS" \/ Storage.status r = "FAIL"))
  /\ (forall r, Storage.compare_storage_devices set_iter current baseline = Ok r ->
                readable current /\ readable baseline)
  /\ (forall e, Storage.compare_storage_devices set_iter current baseline = Raise e ->
                e = Storage.no_lower)
  /\ (forall d, In d current \/ In d baseline -> Storage.model d = Some JNull ->
                Storage.compare_storage_devices set_iter current baseline
                = Raise Storage.no_lower).
Proof.
  intros Hiter. split; [|split; [|split]].
  - intros Hc Hb.
    destruct (compare_storage_devices_returns set_iter current baseline Hc Hb)
      as [r E].
    exists r. split; [exact E|].
    destruct (compare_storage_devices_inv _ _ _ _ E) as (_ & _ & Hd & Hs & _).
    rewrite Hs, Hd.
    pose proof (storage_findings_nil_iff set_iter current baseline Hiter) as Hnil.
    destruct (storage_findings set_iter current baseline) as [|x l].
    + split; [|now left]. split; [intros _; now apply Hnil | reflexivity].
    + split; [|now right]. split; [discriminate|].
      intros H. apply Hnil in H. discriminate.
  - intros r E.
    destruct (compare_storage_devices_inv _ _ _ _ E) as (Hc & Hb & _).
    now split.
  - intros e. apply compare_storage_devices_raises_only.
  - intros d Hin Hnull.
    destruct (Storage.compare_storage_devices set_iter current baseline)
      as [r|e] eqn:E.
    + destruct (compare_storage_devices_inv _ _ _ _ E) as (Hc & Hb & _).
      destruct Hin as [Hin | Hin];
        [exact (False_ind _ (null_model_not_readable _ _ Hin Hnull Hc))
        |exact (False_ind _ (null_model_not_readable _ _ Hin Hnull Hb))].
    + now rewrite (compare_storage_devices_raises_only _ _ _ _ E).
Qed.

Lemma storage_pass_iff_same_models_witness :
  set_order reverse_order
  /\ (exists r,
        Storage.compare_storage_devices reverse_order
          [disk "sda" "Samsung SSD 870" "480GB"]
          [disk "sda" "Samsung SSD 870" "480GB"] = Ok r
        /\ (Storage.status r = "PASS"
            <-> forall t, storage_models [disk "sda" "Samsung SSD 870" "480GB"] t
                          = storage_models [disk "sda" "Samsung SSD 870" "480GB"] t)
        /\ (Storage.status r = "PASS" \/ Storage.status r = "FAIL"))
  /\ Storage.compare_storage_devices reverse_order
       [unnamed_model_disk] [unnamed_model_disk] = Raise Storage.no_lower.
Proof.
  split; [exact reverse_order_admissible|]. split.
  - apply (proj1 (storage_pass_iff_same_models reverse_order
                    [disk "sda" "Samsung SSD 870" "480GB"]
                    [disk "sda" "Samsung SSD 870" "480GB"]
                    reverse_order_admissible));
      (split; [intros d [<- | []]; discriminate|];
       intros d Hd; vm_compute in Hd; destruct Hd as [<- | []];
       repeat split; discriminate).
  - vm_compute. reflexivity.
Defined.

Lemma type_name_known (d : Storage.StorageDevice) :
  In (type_name d) (dict_keys Storage.empty_groups).
Proof.
  unfold type_name, Storage.classify.
  repeat match goal with
         | |- context [if ?b then _ else _] => destruct b
         end;
    try destruct (Storage.get_or (Storage.size d) "0");
    repeat match goal with
           | |- context [if ?b then _ else _] => destruct b
           end;
    try destruct (float_of_string _);
    repeat match goal with
           | |- context [if ?b then _ else _] => destruct b
           end;
    simpl; auto 10.
Qed.

(** Every device is of exactly one of the seven types. *)
Lemma length_by_type (l : list Storage.StorageDevice) :
  length l
  = list_sum (map (fun t => length (filter (fun d => String.eqb (type_name d) t) l))
                  (dict_keys Storage.empty_groups)).
Proof.
  induction l as [|d l IH]; [reflexivity|].
  cbn [length]. rewrite IH.
  change (dict_keys Storage.empty_groups)
    with ["nvme"; "sata"; "sas"; "mmc"; "usb"; "raid"; "other"].
  cbn [map list_sum fold_right filter].
  pose proof (type_name_known d) as Hd.
  change (dict_keys Storage.empty_groups)
    with ["nvme"; "sata"; "sas"; "mmc"; "usb"; "raid"; "other"] in Hd.
  set (ty := type_name d) in *.
  destruct Hd as [H | [H | [H | [H | [H | [H | [H | []]]]]]]];
    rewrite <- H; eval_eqb; cbn [length]; lia.
Qed.

(** X11. A storage report whose two device counts differ is FAIL.  The
    counts are those of the non-virtual devices, as the report gives them
    in [current_count] and [baseline_count]. *)
Theorem storage_count_mismatch_fails (set_iter : list string -> list string)
    (current baseline : list Storage.StorageDevice) (r : Storage.DiffResult) :
  set_order set_iter ->
  Storage.compare_storage_devices set_iter current baseline = Ok r ->
  Storage.current_count r <> Storage.baseline_count r ->
  Storage.status r = "FAIL" /\ Storage.differences r <> [].
Proof.
  intros Hiter E Hcount.
  destruct (compare_storage_devices_inv _ _ _ _ E)
    as (_ & _ & Hd & Hs & Hcc & Hbc & _).
  assert (Hne : Storage.differences r <> []).
  { intros Hnil. apply Hcount. rewrite Hcc, Hbc. rewrite Hd in Hnil.
    pose proof (proj1 (storage_findings_nil_iff set_iter current baseline Hiter) Hnil)
      as Hm.
    rewrite (length_by_type (real_disks current)),
            (length_by_type (real_disks baseline)).
    f_equal. apply map_ext. intros t.
    specialize (Hm t). unfold storage_models in Hm.
    apply (f_equal (@length jstring)) in Hm. now rewrite !length_map in Hm. }
  split; [|exact Hne].
  rewrite Hs. destruct (Storage.differences r); [now contradiction Hne | reflexivity].
Qed.

Lemma storage_count_mismatch_fails_witness :
  exists r,
    Storage.compare_storage_devices reverse_order
      [disk "sda" "Samsung SSD 870" "480GB"]
      [disk "sda" "Samsung SSD 870" "480GB";
       disk "sdb" "Samsung SSD 870" "480GB"] = Ok r
    /\ Storage.status r = "FAIL" /\ Storage.differences r <> [].
Proof.
  eexists. split; [vm_compute; reflexivity|].
  apply (storage_count_mismatch_fails reverse_order
           [disk "sda" "Samsung SSD 870" "480GB"]
           [disk "sda" "Samsung SSD 870" "480GB";
            disk "sdb" "Samsung SSD 870" "480GB"]).
  - exact reverse_order_admissible.
  - vm_compute. reflexivity.
  - vm_compute. discriminate.
Defined.

Lemma filter_idempotent {A : Type} (f : A -> bool) (l : list A) :
  filter f (filter f l) = filter f l.
Proof.
  induction l as [|a l IH]; simpl; [reflexivity|].
  destruct (f a) eqn:E; simpl; [rewrite E; now f_equal | exact IH].
Qed.

Lemma filter_complement_length {A : Type} (f : A -> bool) (l : list A) :
  length l - length (filter (fun a => negb (f a)) l) = length (filter f l).
Proof.
  induction l as [|a l IH]; [reflexivity|].
  pose proof (filter_length_le (fun a => negb (f a)) l) as Hle.
  cbn [filter length]. destruct (f a); cbn [negb length]; lia.
Qed.

Lemma real_disks_idempotent (l : list Storage.StorageDevice) :
  real_disks (real_disks l) = real_disks l.
Proof. apply filter_idempotent. Qed.

(** A record with a [null] model does not count as a virtual disk. *)
Lemma null_model_is_real (d : Storage.StorageDevice) :
  Storage.model d = Some JNull -> is_virtual_disk d = false.
Proof. unfold is_virtual_disk. intros ->. reflexivity. Qed.

(** Leaving the virtual disks out changes nothing to what can be read. *)
Lemma readable_real_disks (l : list Storage.StorageDevice) :
  readable (real_disks l) <-> readable l.
Proof.
  unfold readable. rewrite real_disks_idempotent. split; intros [Hm Ht].
  - split; [|exact Ht]. intros d Hd Hnull. apply (Hm d); [|exact Hnull].
    apply filter_In. split; [exact Hd|].
    now rewrite (null_model_is_real d Hnull).
  - split; [|exact Ht]. intros d Hd. apply Hm. now apply real_disks_in.
Qed.

(** X12. The virtual disks of the BMC (model containing "virtual hdisk" or
    "ami virtual", in any letter case) take no part in the storage
    comparison: it ends as the comparison of the lists without them does,
    with the same exception or with a report of the same status,
    differences and counts; the report counts the virtual disks of each
    side. *)
Theorem virtual_disks_are_ignored (set_iter : list string -> list string)
    (current baseline : list Storage.StorageDevice) :
  same_outcome
    (fun r r' =>
       Storage.status r = Storage.status r'
       /\ Storage.differences r = Storage.differences r'
       /\ Storage.current_count r = Storage.current_count r'
       /\ Storage.baseline_count r = Storage.baseline_count r'
       /\ Storage.virtual_devices_filtered r
          = (length (filter is_virtual_disk current),
             length (filter is_virtual_disk baseline))
       /\ Storage.virtual_devices_filtered r' = (0, 0))
    (Storage.compare_storage_devices set_iter current baseline)
    (Storage.compare_storage_devices set_iter (real_disks current)
                                     (real_disks baseline)).
Proof.
  destruct (Storage.compare_storage_devices set_iter current baseline)
    as [r|e] eqn:E.
  - destruct (compare_storage_devices_inv _ _ _ _ E)
      as (Hc & Hb & Hd & Hs & Hcc & Hbc & Hv).
    destruct (compare_storage_devices_returns set_iter
                (real_disks current) (real_disks baseline)
                (proj2 (readable_real_disks current) Hc)
                (proj2 (readable_real_disks baseline) Hb)) as [r' E'].
    rewrite E'. cbn [same_outcome].
    destruct (compare_storage_devices_inv _ _ _ _ E')
      as (_ & _ & Hd' & Hs' & Hcc' & Hbc' & Hv').
    unfold storage_findings in Hd'. rewrite !real_disks_idempotent in *.
    fold (storage_findings set_iter current baseline) in Hd'.
    rewrite !Nat.sub_diag in Hv'.
    unfold real_disks in Hv. rewrite !filter_complement_length in Hv.
    assert (Hdd : Storage.differences r = Storage.differences r')
      by now rewrite Hd, Hd'.
    repeat split; try assumption; try congruence.
    now rewrite Hs, Hs', Hdd.
  - pose proof (compare_storage_devices_raises_only _ _ _ _ E) as ->.
    destruct (Storage.compare_storage_devices set_iter (real_disks current)
                                              (real_disks baseline))
      as [r'|e'] eqn:E'; cbn [same_outcome].
    + destruct (compare_storage_devices_inv _ _ _ _ E') as (Hc & Hb & _).
      apply (proj1 (readable_real_disks current)) in Hc.
      apply (proj1 (readable_real_disks baseline)) in Hb.
      destruct (compare_storage_devices_returns set_iter current baseline Hc Hb)
        as [r Er].
      rewrite Er in E. discriminate.
    + symmetry. exact (compare_storage_devices_raises_only _ _ _ _ E').
Qed.

(** ** Critical findings of the riser comparison *)

Lemma lower_append (a b : string) :
  lower (a ++ b)%string = (lower a ++ lower b)%string.
Proof.
  unfold lower. induction a as [|c a IH]; simpl; [reflexivity | now rewrite IH].
Qed.

Lemma prefix_append (sub a b : string) :
  String.prefix sub a = true -> String.prefix sub (a ++ b)%string = true.
Proof.
  revert a. induction sub as [|c sub IH]; intros a H.
  - now destruct (a ++ b)%string.
  - destruct a as [|c' a]; simpl in *; [discriminate|].
    destruct (ascii_dec c c'); [now apply IH | discriminate].
Qed.

Lemma contains_append_l (sub a b : string) :
  contains sub a = true -> contains sub (a ++ b)%string = true.
Proof.
  induction a as [|c a IH]; simpl; intros H.
  - apply orb_true_iff in H. destruct H as [H | H]; [|discriminate].
    destruct sub; [|discriminate]. now destruct b.
  - apply orb_true_iff in H. apply orb_true_iff. destruct H as [H | H].
    + left. exact (prefix_append sub (String c a) b H).
    + right. now apply IH.
Qed.

Lemma contains_append_r (sub a b : string) :
  contains sub b = true -> contains sub (a ++ b)%string = true.
Proof.
  intros H. induction a as [|c a IH]; simpl; [exact H|].
  apply orb_true_iff. now right.
Qed.

Lemma is_critical_append_l (a b : string) :
  Riser.is_critical a = true -> Riser.is_critical (a ++ b)%string = true.
Proof.
  unfold Riser.is_critical, any_in. rewrite !existsb_exists, lower_append.
  intros [k [Hk H]]. exists k. split; [exact Hk | now apply contains_append_l].
Qed.

Lemma is_critical_append_r (a b : string) :
  Riser.is_critical b = true -> Riser.is_critical (a ++ b)%string = true.
Proof.
  unfold Riser.is_critical, any_in. rewrite !existsb_exists, lower_append.
  intros [k [Hk H]]. exists k. split; [exact Hk | now apply contains_append_r].
Qed.

Lemma missing_message_is_critical (slot : string) :
  Riser.is_critical (fstr ["Slot "; slot; ": Missing in current configuration"])
  = true.
Proof.
  unfold fstr. cbn [String.concat].
  do 4 apply is_critical_append_r. vm_compute. reflexivity.
Qed.

Lemma population_message_is_critical (slot a b : string) :
  Riser.is_critical
    (fstr ["Slot "; slot; ": Population status mismatch - ";
           "current="; a; ", "; "baseline="; b])
  = true.
Proof.
  unfold fstr. cbn [String.concat].
  do 4 apply is_critical_append_r. apply is_critical_append_l.
  vm_compute. reflexivity.
Qed.

Lemma serial_message_is_critical (slot serial : string) :
  Riser.is_critical
    (fstr ["Slot "; slot; ": FRU Serial Number missing or invalid - current='";
           serial; "'"])
  = true.
Proof.
  unfold fstr. cbn [String.concat].
  do 4 apply is_critical_append_r. apply is_critical_append_l.
  vm_compute. reflexivity.
Qed.

Section DictOfList.
Context {V : Type}.
Implicit Types (d : dict string V) (k : string) (v : V).

Lemma dict_set_keeps_key d k k' v :
  In k (dict_keys d) -> In k (dict_keys (dict_set d k' v)).
Proof.
  induction d as [|[k0 v0] d IH]; simpl; [tauto|].
  destruct (keqb k' k0); simpl; intros [H | H]; auto.
Qed.

Lemma dict_set_adds_key d k v : In k (dict_keys (dict_set d k v)).
Proof. exact (dict_key_of_get _ _ _ (dict_get_set_same d k v)). Qed.

Lemma dict_of_list_acc_key (key : V -> string) (xs : list V) d k :
  In k (map key xs) \/ In k (dict_keys d) ->
  In k (dict_keys (fold_left (fun d x => dict_set d (key x) x) xs d)).
Proof.
  revert d. induction xs as [|x xs IH]; simpl; intros d H; [tauto|].
  apply IH. destruct H as [[<- | H] | H].
  - right. apply dict_set_adds_key.
  - now left.
  - right. now apply dict_set_keeps_key.
Qed.

Lemma dict_of_list_key (key : V -> string) (xs : list V) x :
  In x xs -> In (key x) (dict_keys (dict_of_list key xs)).
Proof.
  intros H. apply dict_of_list_acc_key. left. now apply in_map.
Qed.

Lemma dict_of_list_acc_get_other (key : V -> string) (xs : list V) d k :
  ~ In k (map key xs) ->
  dict_get (fold_left (fun d x => dict_set d (key x) x) xs d) k = dict_get d k.
Proof.
  revert d. induction xs as [|x xs IH]; simpl; intros d H; [reflexivity|].
  rewrite IH by tauto. apply dict_get_set_other. intros E. apply H. now left.
Qed.

Lemma dict_of_list_get_none (key : V -> string) (xs : list V) k :
  ~ In k (map key xs) -> dict_get (dict_of_list key xs) k = None.
Proof. intros H. unfold dict_of_list. now rewrite dict_of_list_acc_get_other. Qed.

Lemma dict_of_list_acc_get (key : V -> string) (xs : list V) d x :
  NoDup (map key xs) -> In x xs ->
  dict_get (fold_left (fun d x => dict_set d (key x) x) xs d) (key x) = Some x.
Proof.
  revert d. induction xs as [|y xs IH]; simpl; intros d Hnd Hin; [tauto|].
  inversion Hnd as [|? ? Hy Hnd']; subst. destruct Hin as [-> | Hin].
  - rewrite dict_of_list_acc_get_other by exact Hy. apply dict_get_set_same.
  - now apply IH.
Qed.

(** With distinct keys, every record is found under its key. *)
Lemma dict_of_list_get_found (key : V -> string) (xs : list V) x :
  NoDup (map key xs) -> In x xs ->
  dict_get (dict_of_list key xs) (key x) = Some x.
Proof. apply dict_of_list_acc_get. Qed.

End DictOfList.

Lemma sorted_member (l : list string) (x : string) : In x l -> In x (sorted l).
Proof.
  intros H. exact (Permutation_in x (Permutation_sym (sorted_perm l)) H).
Qed.

Lemma riser_compare_slot_appends (cs bs : dict string Riser.RiserCard)
    (st : Riser.LoopState) (k msg : string) :
  In msg (Riser.st_differences st) ->
  In msg (Riser.st_differences (Riser.compare_slot cs bs st k)).
Proof.
  intros H. unfold Riser.compare_slot.
  destruct (dict_get cs k) as [c|]; [destruct (dict_get bs k) as [b|]|];
    cbv zeta;
    repeat match goal with
           | |- context [if ?b then _ else _] => destruct b
           end;
    cbn [Riser.st_differences]; try (apply in_or_app; now left); exact H.
Qed.

(** A finding that the loop over the slots adds at one slot is in the
    differences of the report; a critical one makes the report FAIL. *)
Lemma riser_critical_finding (current baseline : list Riser.RiserCard)
    (k msg : string) :
  In k (set_union (dict_keys (dict_of_list Riser.slot_of current))
                  (dict_keys (dict_of_list Riser.slot_of baseline))) ->
  (forall st,
      In msg (Riser.st_differences
                (Riser.compare_slot (dict_of_list Riser.slot_of current)
                                    (dict_of_list Riser.slot_of baseline) st k))) ->
  Riser.is_critical msg = true ->
  let r := Riser.compare_riser_cards current baseline in
  Riser.status r = "FAIL"
  /\ In msg (Riser.critical_differences r)
  /\ In msg (Riser.differences r).
Proof.
  intros Hk Hstep Hcrit r. subst r. unfold Riser.compare_riser_cards. cbv zeta.
  cbn [Riser.status Riser.critical_differences Riser.differences].
  match goal with
  | |- context [fold_left ?f ?l ?st0] =>
      assert (Hin : In msg (Riser.st_differences (fold_left f l st0)));
        [|set (st := fold_left f l st0) in *]
  end.
  { apply (fold_left_reaches _ (fun _ => True)
             (fun s => In msg (Riser.st_differences s)) _ k); trivial.
    - now apply sorted_member.
    - intros s a _ _. apply riser_compare_slot_appends. }
  match goal with
  | |- context [filter Riser.is_critical ?d] =>
      assert (Hd : In msg d)
        by (destruct (negb _); [apply in_or_app; now left | exact Hin]);
        set (diffs := d) in *
  end.
  assert (Hc : In msg (filter Riser.is_critical diffs))
    by (apply filter_In; now split).
  split; [|now split].
  destruct (filter Riser.is_critical diffs); [destruct Hc | reflexivity].
Qed.

(** X13. A riser slot of the baseline that no current riser carries makes
    the riser comparison FAIL, with the critical finding
    "Slot <slot>: Missing in current configuration". *)
Theorem missing_riser_slot_fails (current baseline : list Riser.RiserCard)
    (base : Riser.RiserCard) :
  In base baseline ->
  (forall r, In r current -> Riser.slot_of r <> Riser.slot_of base) ->
  let r := Riser.compare_riser_cards current baseline in
  let finding :=
    fstr ["Slot "; Riser.slot_of base; ": Missing in current configuration"] in
  Riser.status r = "FAIL"
  /\ In finding (Riser.critical_differences r)
  /\ In finding (Riser.differences r).
Proof.
  intros Hin Hmiss r finding. subst r finding.
  apply (riser_critical_finding current baseline (Riser.slot_of base)).
  - apply set_union_member. right. now apply dict_of_list_key.
  - intros st. unfold Riser.compare_slot.
    rewrite dict_of_list_get_none.
    + cbn [Riser.st_differences]. apply in_or_app. right. now left.
    + intros H. apply in_map_iff in H. destruct H as [c [E Hc]].
      exact (Hmiss c Hc E).
  - apply missing_message_is_critical.
Qed.

Lemma missing_riser_slot_fails_witness :
  let r := Riser.compare_riser_cards scanned_risers baseline_risers in
  let finding :=
    fstr ["Slot "; "RISER_SLOT_3"; ": Missing in current configuration"] in
  Riser.status r = "FAIL"
  /\ In finding (Riser.critical_differences r)
  /\ In finding (Riser.differences r).
Proof.
  apply (missing_riser_slot_fails scanned_risers baseline_risers
           (riser "RISER_SLOT_3" "RSMB-MS93-FS0-RISER-3" "25VH1-1A00-33NN"
                  "Required" false [])).
  - right. right. now left.
  - intros r [<- | [<- | []]]; vm_compute; discriminate.
Defined.

(** X14. For a slot that both sides carry (slot names distinct on each
    side): a riser populated on one side only is a FAIL with the critical
    finding "Population status mismatch", and a riser populated on both
    sides whose current serial number is absent, empty or the placeholder
    "Required" is a FAIL with the critical finding "FRU Serial Number
    missing or invalid". *)
Theorem riser_population_and_serial_fail (current baseline : list Riser.RiserCard)
    (cur base : Riser.RiserCard) :
  NoDup (map Riser.slot_of current) -> NoDup (map Riser.slot_of baseline) ->
  In cur current -> In base baseline ->
  Riser.slot_of cur = Riser.slot_of base ->
  let r := Riser.compare_riser_cards current baseline in
  let populated (b : bool) := if b then "populated" else "empty" in
  (Riser.is_populated cur <> Riser.is_populated base ->
   Riser.status r = "FAIL"
   /\ In (fstr ["Slot "; Riser.slot_of cur; ": Population status mismatch - ";
                "current="; populated (Riser.is_populated cur); ", ";
                "baseline="; populated (Riser.is_populated base)])
         (Riser.critical_differences r))
  /\ (Riser.is_populated cur = true -> Riser.is_populated base = true ->
      Riser.serial_missing cur = true ->
      Riser.status r = "FAIL"
      /\ In (fstr ["Slot "; Riser.slot_of cur;
                   ": FRU Serial Number missing or invalid - current='";
                   Riser.get_or (Riser.fru_serial_number cur) ""; "'"])
            (Riser.critical_differences r)).
Proof.
  intros Hndc Hndb Hc Hb Hslot r populated. subst r populated.
  pose proof (dict_of_list_get_found Riser.slot_of current cur Hndc Hc) as Hgc.
  pose proof (dict_of_list_get_found Riser.slot_of baseline base Hndb Hb) as Hgb.
  rewrite <- Hslot in Hgb.
  assert (Hk : In (Riser.slot_of cur)
                 (set_union (dict_keys (dict_of_list Riser.slot_of current))
                            (dict_keys (dict_of_list Riser.slot_of baseline))))
    by (apply set_union_member; left; now apply dict_of_list_key).
  split.
  - intros Hpop.
    match goal with
    | |- _ /\ In ?m _ =>
        destruct (riser_critical_finding current baseline (Riser.slot_of cur) m Hk)
          as [Hs [Hf _]]
    end.
    + intros st. unfold Riser.compare_slot. rewrite Hgc, Hgb. cbv zeta.
      destruct (Bool.eqb (Riser.is_populated cur) (Riser.is_populated base)) eqn:E;
        [apply Bool.eqb_prop in E; contradiction|].
      cbn [negb Riser.st_differences]. apply in_or_app. right. now left.
    + apply population_message_is_critical.
    + now split.
  - intros Hpc Hpb Hser.
    match goal with
    | |- _ /\ In ?m _ =>
        destruct (riser_critical_finding current baseline (Riser.slot_of cur) m Hk)
          as [Hs [Hf _]]
    end.
    + intros st. unfold Riser.compare_slot. rewrite Hgc, Hgb. cbv zeta.
      rewrite Hpc, Hpb. cbn [Bool.eqb negb andb Riser.st_differences].
      apply in_or_app. right. unfold Riser.compare_fru. cbv zeta. rewrite Hser.
      apply in_or_app. right. apply in_or_app. right. apply in_or_app. right.
      apply in_or_app. left. now left.
    + apply serial_message_is_critical.
    + now split.
Qed.

Lemma riser_population_and_serial_fail_witness :
  let r := Riser.compare_riser_cards baseline_risers scanned_risers in
  Riser.status r = "FAIL"
  /\ In (fstr ["Slot "; "RISER_SLOT_1";
               ": FRU Serial Number missing or invalid - current='";
               "Required"; "'"])
        (Riser.critical_differences r).
Proof.
  apply (riser_population_and_serial_fail baseline_risers scanned_risers
           (riser "RISER_SLOT_1" "RSMB-MS93-FS0-RISER-1" "25VH1-1A00-11NN"
                  "Required" true [pcie_slot "SLOT_1"; pcie_slot "SLOT_2"])
           (riser "RISER_SLOT_1" "RSMB-MS93-FS0-RISER-1" "25VH1-1A00-11NN"
                  "GB2207A0113" true [pcie_slot "SLOT_1"; pcie_slot "SLOT_2"])).
  - repeat constructor; simpl; intuition discriminate.
  - repeat constructor; simpl; intuition discriminate.
  - now left.
  - now left.
  - reflexivity.
  - reflexivity.
  - reflexivity.
  - reflexivity.
Defined.

(** ** The counters of the sensor validators *)

Section SensorAccounting.
Context {N : Numeric}.

Import SensorValidator.

(** An invariant of a [for] loop whose body may raise, relative to the
    items already seen. *)
Lemma fold_result_prefix_invariant {A S : Type} (body : S -> A -> result S)
    (P : list A -> S -> Prop) (l : list A) (st st' : S) :
  (forall pre s a s', P pre s -> body s a = Ok s' -> P (pre ++ [a]) s') ->
  P [] st -> fold_result body l st = Ok st' -> P l st'.
Proof.
  intros Hstep H0 Hrun.
  assert (Hgen : forall l pre s, P pre s -> fold_result body l s = Ok st' ->
                                 P (pre ++ l) st').
  { clear l st H0 Hrun. induction l as [|a l IH]; simpl; intros pre s HP Hrun.
    - rewrite app_nil_r. now inversion Hrun; subst.
    - destruct (body s a) as [s1|e] eqn:E; simpl in Hrun; [|discriminate].
      change (a :: l) with ([a] ++ l). rewrite app_assoc.
      exact (IH _ s1 (Hstep _ _ _ _ HP E) Hrun). }
  exact (Hgen l [] st H0 Hrun).
Qed.

Lemma named_entries_snoc {A : Type} (pre : dict string A) (k : string) (v : A) :
  named_entries (pre ++ [(k, v)])
  = named_entries pre + (if String.eqb k "comment" then 0 else 1).
Proof.
  unfold named_entries. rewrite filter_app, length_app. cbn [filter fst].
  destruct (String.eqb k "comment"); reflexivity.
Qed.

Lemma with_unit_snoc (u : string) (pre : Sensors) (k : string) (d : SensorData) :
  with_unit u (pre ++ [(k, d)])
  = with_unit u pre
    + (match unit d with
       | Some x => if String.eqb (lower x) u then 1 else 0
       | None => 0
       end).
Proof.
  unfold with_unit. rewrite filter_app, length_app. cbn [filter snd].
  destruct (unit d) as [x|]; [destruct (String.eqb (lower x) u)|]; reflexivity.
Qed.

(** Splits the body of a loop into its paths, each ending in a result. *)
Ltac step_paths H :=
  repeat match type of H with
         | context [match ?x with _ => _ end] => destruct x eqn:?; simpl in H
         | context [if ?b then _ else _] => destruct b eqn:?; simpl in H
         end;
  try discriminate; inversion H; subst; clear H.

(** Uses the tests recorded along a path, then counts. *)
Ltac count_path :=
  repeat match goal with
         | H : match ?o with Some _ => Ok _ | None => Raise _ end = Ok _ |- _ =>
             destruct o eqn:?; [inversion H; subst; clear H | discriminate H]
         end;
  repeat match goal with
         | E : ?b = _ |- context [if ?b then _ else _] => rewrite E
         | E : ?x = _ |- context [match ?x with _ => _ end] => rewrite E
         end;
  simpl; rewrite ?length_app; simpl; lia.

(** X15. The counters of a voltage report add up: every sensor named in
    the limits is either checked or missing; it is either passed or
    has exactly one violation; failed, warning and missing sensors all
    have a violation; none is skipped. *)
Theorem voltage_counters_add_up (limits : Limits) (sensors : Sensors)
    (r : ValidationResult) :
  validate_voltage_sensors limits sensors = Ok r ->
  let entries :=
    named_entries (match voltage_limits limits with Some d => d | None => [] end) in
  actually_checked r + missing_sensors r = entries
  /\ passed_sensors r + length (violations r) = entries
  /\ failed_sensors r + warning_sensors r + missing_sensors r <= length (violations r)
  /\ skipped_sensors r = 0.
Proof.
  intros H entries. subst entries. unfold validate_voltage_sensors in H.
  destruct (fold_result _ _ _) as [r0|e] eqn:E; simpl in H; [|discriminate].
  apply Ok_injective in H. subst r.
  pose (P := fun (pre : dict string (entry VoltageLimit)) (r : ValidationResult) =>
               actually_checked r + missing_sensors r = named_entries pre
               /\ passed_sensors r + length (violations r) = named_entries pre
               /\ failed_sensors r + warning_sensors r + missing_sensors r
                  <= length (violations r)
               /\ skipped_sensors r = 0).
  assert (Hr0 : P (match voltage_limits limits with Some d => d | None => [] end) r0).
  { apply (fold_result_prefix_invariant (voltage_step sensors) P _
             _create_validation_result_dict r0); [| | exact E].
    - clear. subst P. cbv beta.
      intros pre s [k lim] s' (H1 & H2 & H3 & H4) H.
      rewrite named_entries_snoc.
      unfold voltage_step, status_violation, item, as_limit, bind in H.
      step_paths H; count_path.
    - subst P. cbv beta. unfold named_entries, with_unit. simpl. lia. }
  subst P. cbv beta in Hr0. unfold conclude.
  destruct (0 <? failed_sensors r0)%nat; [exact Hr0|].
  destruct (_ || _); exact Hr0.
Qed.

(** X16. The counters of a temperature report add up: every sensor named
    in the limits is passed, skipped or has exactly one violation; the
    checked and the missing ones are among them; failed, warning and
    missing sensors all have a violation. *)
Theorem temperature_counters_add_up (limits : Limits) (sensors : Sensors)
    (r : ValidationResult) :
  validate_temperature_sensors limits sensors = Ok r ->
  let entries :=
    named_entries (match temperature_limits limits with Some d => d | None => [] end) in
  passed_sensors r + skipped_sensors r + length (violations r) = entries
  /\ actually_checked r + missing_sensors r <= entries
  /\ entries <= actually_checked r + missing_sensors r + skipped_sensors r
  /\ failed_sensors r + warning_sensors r + missing_sensors r <= length (violations r).
Proof.
  intros H entries. subst entries. unfold validate_temperature_sensors in H.
  destruct (fold_result _ _ _) as [r0|e] eqn:E; simpl in H; [|discriminate].
  apply Ok_injective in H. subst r.
  pose (P := fun (pre : dict string (entry TemperatureLimit)) (r : ValidationResult) =>
               passed_sensors r + skipped_sensors r + length (violations r)
               = named_entries pre
               /\ actually_checked r + missing_sensors r <= named_entries pre
               /\ named_entries pre
                  <= actually_checked r + missing_sensors r + skipped_sensors r
               /\ failed_sensors r + warning_sensors r + missing_sensors r
                  <= length (violations r)).
  assert (Hr0 : P (match temperature_limits limits with Some d => d | None => [] end)
                  r0).
  { apply (fold_result_prefix_invariant (temperature_step limits sensors) P _
             _create_validation_result_dict r0); [| | exact E].
    - clear. subst P. cbv beta.
      intros pre s [k lim] s' (H1 & H2 & H3 & H4) H.
      rewrite named_entries_snoc.
      unfold temperature_step, status_violation, item, as_limit, bind in H.
      step_paths H; count_path.
    - subst P. cbv beta. unfold named_entries, with_unit. simpl. lia. }
  subst P. cbv beta in Hr0. unfold conclude.
  destruct (0 <? failed_sensors r0)%nat; [exact Hr0|].
  destruct (_ || _); exact Hr0.
Qed.

Lemma range_counters (unit_name : string) (lo hi : Z) (i1 i2 i3 : string)
    (sensors : Sensors) (r0 : ValidationResult) :
  fold_result (range_step unit_name lo hi i1 i2 i3) sensors
    _create_validation_result_dict = Ok r0 ->
  let r := conclude_range r0 in
  actually_checked r = with_unit unit_name sensors
  /\ actually_checked r = skipped_sensors r + passed_sensors r + failed_sensors r
  /\ length (violations r) = failed_sensors r
  /\ warning_sensors r <= actually_checked r
  /\ missing_sensors r = 0
  /\ (vr_status r = "FAIL" <-> violations r <> [])
  /\ (vr_status r = "FAIL" \/ vr_status r = "WARNING" \/ vr_status r = "PASS").
Proof.
  intros E r. subst r.
  pose (P := fun (pre : Sensors) (r : ValidationResult) =>
               actually_checked r = with_unit unit_name pre
               /\ actually_checked r
                  = skipped_sensors r + passed_sensors r + failed_sensors r
               /\ length (violations r) = failed_sensors r
               /\ warning_sensors r <= actually_checked r
               /\ missing_sensors r = 0).
  assert (Hr0 : P sensors r0).
  { apply (fold_result_prefix_invariant (range_step unit_name lo hi i1 i2 i3) P _
             _create_validation_result_dict r0); [| | exact E].
    - clear. subst P. cbv beta.
      intros pre s [k d] s' (H1 & H2 & H3 & H4 & H5) H.
      rewrite with_unit_snoc.
      unfold range_step, item, bind in H.
      step_paths H; count_path.
    - subst P. cbv beta. unfold named_entries, with_unit. simpl. lia. }
  subst P. cbv beta in Hr0. destruct Hr0 as (H1 & H2 & H3 & H4 & H5).
  assert (Hv : violations r0 <> [] <-> 0 < failed_sensors r0).
  { rewrite <- H3. destruct (violations r0); simpl; split; intros H;
      try lia; try congruence. }
  unfold conclude_range.
  destruct (0 <? failed_sensors r0)%nat eqn:Ef; simpl.
  - apply Nat.ltb_lt in Ef. repeat split; try assumption; try tauto.
  - apply Nat.ltb_ge in Ef.
    destruct (0 <? warning_sensors r0)%nat; simpl;
      (repeat split; try assumption; try discriminate; try tauto;
       intros H; apply Hv in H; lia).
Qed.

(** X17. The counters of a fan report and of a power report add up: the
    checked readings are those with the unit RPM, respectively Watts, in
    any letter case; each of them is skipped, passed or failed; the
    violations are exactly the failed ones, so the report is FAIL exactly
    when it has a violation; no sensor is ever counted missing. *)
Theorem fan_and_power_counters_add_up (sensors : Sensors) (r : ValidationResult)
    (unit_name : string) :
  (unit_name = "rpm" /\ validate_fan_sensors sensors = Ok r)
  \/ (unit_name = "watts" /\ validate_power_sensors sensors = Ok r) ->
  actually_checked r = with_unit unit_name sensors
  /\ actually_checked r = skipped_sensors r + passed_sensors r + failed_sensors r
  /\ length (violations r) = failed_sensors r
  /\ warning_sensors r <= actually_checked r
  /\ missing_sensors r = 0
  /\ (vr_status r = "FAIL" <-> violations r <> [])
  /\ (vr_status r = "FAIL" \/ vr_status r = "WARNING" \/ vr_status r = "PASS").
Proof.
  intros [[-> H] | [-> H]].
  - unfold validate_fan_sensors in H.
    destruct (fold_result _ _ _) as [r0|e] eqn:E; simpl in H; [|discriminate].
    apply Ok_injective in H. subst r. exact (range_counters _ _ _ _ _ _ _ _ E).
  - unfold validate_power_sensors in H.
    destruct (fold_result _ _ _) as [r0|e] eqn:E; simpl in H; [|discriminate].
    apply Ok_injective in H. subst r. exact (range_counters _ _ _ _ _ _ _ _ E).
Qed.

(** X18. The counters of a discrete report add up: every checked sensor
    is passed, failed or a warning; every expected sensor is passed or has
    exactly one violation; the sensors absent from the readings have a
    violation but are counted nowhere. *)
Theorem discrete_counters_add_up (limits : Limits) (sensors : Sensors)
    (r : ValidationResult) :
  validate_discrete_sensors limits sensors = Ok r ->
  let expected :=
    match discrete_sensors limits with
    | Some c => match acceptable_statuses c with Some d => d | None => [] end
    | None => []
    end in
  actually_checked r = passed_sensors r + failed_sensors r + warning_sensors r
  /\ passed_sensors r + length (violations r) = length expected
  /\ length (violations r) - (failed_sensors r + warning_sensors r)
     = length expected - actually_checked r
  /\ missing_sensors r = 0
  /\ skipped_sensors r = 0.
Proof.
  intros H expected. subst expected. unfold validate_discrete_sensors in H.
  destruct (fold_result _ _ _) as [r0|e] eqn:E; simpl in H; [|discriminate].
  apply Ok_injective in H. subst r.
  pose (P := fun (pre : dict string (list string)) (r : ValidationResult) =>
               actually_checked r
               = passed_sensors r + failed_sensors r + warning_sensors r
               /\ passed_sensors r + length (violations r) = length pre
               /\ failed_sensors r + warning_sensors r <= length (violations r)
               /\ missing_sensors r = 0
               /\ skipped_sensors r = 0).
  match type of E with
  | fold_result ?body ?l _ = _ => assert (Hr0 : P l r0)
  end.
  { match type of E with
    | fold_result ?body ?l _ = _ =>
        apply (fold_result_prefix_invariant body P l
                 _create_validation_result_dict r0); [| | exact E]
    end.
    - clear. subst P. cbv beta.
      intros pre s [k d] s' (H1 & H2 & H3 & H4 & H5) H.
      rewrite length_app. cbn [length].
      unfold discrete_step, item, bind in H.
      step_paths H; count_path.
    - subst P. cbv beta. unfold named_entries, with_unit. simpl. lia. }
  subst P. cbv beta in Hr0. destruct Hr0 as (H1 & H2 & H3 & H4 & H5).
  unfold conclude_discrete.
  destruct (0 <? failed_sensors r0)%nat; simpl;
    [|destruct (0 <? warning_sensors r0)%nat; simpl];
    repeat split; try assumption; lia.
Qed.

End SensorAccounting.

Lemma voltage_counters_add_up_witness :
  exists r,
    @SensorValidator.validate_voltage_sensors decimal_readings
      bench_limits faulty_readings = Ok r
    /\ SensorValidator.actually_checked r + SensorValidator.missing_sensors r = 2
    /\ SensorValidator.passed_sensors r + length (SensorValidator.violations r) = 2
    /\ SensorValidator.failed_sensors r + SensorValidator.warning_sensors r
       + SensorValidator.missing_sensors r
       <= length (SensorValidator.violations r)
    /\ SensorValidator.skipped_sensors r = 0.
Proof.
  exists (category_outcome (SensorValidator.validate_voltage_sensors bench_limits)
                           faulty_readings).
  split; [reflexivity|].
  apply (@voltage_counters_add_up decimal_readings bench_limits faulty_readings).
  reflexivity.
Defined.

Lemma temperature_counters_add_up_witness :
  exists r,
    @SensorValidator.validate_temperature_sensors decimal_readings
      bench_limits faulty_readings = Ok r
    /\ SensorValidator.passed_sensors r + SensorValidator.skipped_sensors r
       + length (SensorValidator.violations r) = 2
    /\ SensorValidator.actually_checked r + SensorValidator.missing_sensors r <= 2
    /\ 2 <= SensorValidator.actually_checked r + SensorValidator.missing_sensors r
            + SensorValidator.skipped_sensors r
    /\ SensorValidator.failed_sensors r + SensorValidator.warning_sensors r
       + SensorValidator.missing_sensors r
       <= length (SensorValidator.violations r).
Proof.
  exists (category_outcome (SensorValidator.validate_temperature_sensors bench_limits)
                           faulty_readings).
  split; [reflexivity|].
  apply (@temperature_counters_add_up decimal_readings bench_limits faulty_readings).
  reflexivity.
Defined.

Lemma fan_and_power_counters_add_up_witness :
  exists r,
    @SensorValidator.validate_fan_sensors decimal_readings faulty_readings = Ok r
    /\ SensorValidator.actually_checked r = with_unit "rpm" faulty_readings
    /\ SensorValidator.actually_checked r
       = SensorValidator.skipped_sensors r + SensorValidator.passed_sensors r
         + SensorValidator.failed_sensors r
    /\ length (SensorValidator.violations r) = SensorValidator.failed_sensors r
    /\ SensorValidator.warning_sensors r <= SensorValidator.actually_checked r
    /\ SensorValidator.missing_sensors r = 0
    /\ (SensorValidator.vr_status r = "FAIL" <-> SensorValidator.violations r <> [])
    /\ (SensorValidator.vr_status r = "FAIL"
        \/ SensorValidator.vr_status r = "WARNING"
        \/ SensorValidator.vr_status r = "PASS").
Proof.
  exists (category_outcome (@SensorValidator.validate_fan_sensors decimal_readings)
                           faulty_readings).
  split; [reflexivity|].
  apply (@fan_and_power_counters_add_up decimal_readings faulty_readings _ "rpm").
  left. split; reflexivity.
Defined.

Lemma discrete_counters_add_up_witness :
  exists r,
    @SensorValidator.validate_discrete_sensors decimal_readings
      bench_limits faulty_readings = Ok r
    /\ SensorValidator.actually_checked r
       = SensorValidator.passed_sensors r + SensorValidator.failed_sensors r
         + SensorValidator.warning_sensors r
    /\ SensorValidator.passed_sensors r + length (SensorValidator.violations r) = 2
    /\ length (SensorValidator.violations r)
       - (SensorValidator.failed_sensors r + SensorValidator.warning_sensors r)
       = 2 - SensorValidator.actually_checked r
    /\ SensorValidator.missing_sensors r = 0
    /\ SensorValidator.skipped_sensors r = 0.
Proof.
  exists (category_outcome (SensorValidator.validate_discrete_sensors bench_limits)
                           faulty_readings).
  split; [reflexivity|].
  apply (@discrete_counters_add_up decimal_readings bench_limits faulty_readings).
  reflexivity.
Defined.

(** ** The overall status of a validation *)

Section SensorReport.
Context {N : Numeric}.

Import SensorValidator.

(** The status of a category that was evaluated is never ERROR. *)
Lemma category_status_known (limits : Limits) (sensors : Sensors)
    (r : ValidationResult) :
  validate_voltage_sensors limits sensors = Ok r
  \/ validate_temperature_sensors limits sensors = Ok r
  \/ validate_fan_sensors sensors = Ok r
  \/ validate_power_sensors sensors = Ok r
  \/ validate_discrete_sensors limits sensors = Ok r ->
  comparison_status (vr_status r).
Proof.
  intros H. rewrite (category_status_follows_counters limits sensors r H).
  unfold spec_category_status, comparison_status.
  destruct (0 <? failed_sensors r)%nat; [tauto|].
  destruct (_ || _); tauto.
Qed.

Lemma mem_iff (x : string) (l : list string) : mem x l = true <-> In x l.
Proof.
  unfold mem. rewrite existsb_exists. split.
  - intros [y [Hy E]]. apply String.eqb_eq in E. now subst.
  - intros H. exists x. split; [exact H | apply String.eqb_refl].
Qed.

Lemma outcome_status (f : Validator) (sensors : Sensors) :
  (forall r, f sensors = Ok r -> comparison_status (vr_status r)) ->
  (vr_status (category_outcome f sensors) = "ERROR" <-> raised (f sensors))
  /\ (vr_status (category_outcome f sensors) = "PASS"
      <-> exists r, f sensors = Ok r /\ vr_status r = "PASS")
  /\ (comparison_status (vr_status (category_outcome f sensors))
      \/ vr_status (category_outcome f sensors) = "ERROR").
Proof.
  intros Hf. unfold category_outcome, raised.
  destruct (f sensors) as [r|e]; simpl.
  - specialize (Hf r eq_refl). split; [|split].
    + split.
      * intros E. rewrite E in Hf. destruct Hf as [? | [? | ?]]; discriminate.
      * intros [e E]. discriminate.
    + split.
      * intros E. now exists r.
      * intros [r' [E H]]. apply Ok_injective in E. now subst.
    + now left.
  - split; [|split].
    + split; [eauto | reflexivity].
    + split; [discriminate | intros [r [E _]]; discriminate].
    + now right.
Qed.

Lemma validation_overall_pass (l : list string) :
  Forall (fun s => comparison_status s \/ s = "ERROR") l ->
  ((if mem "ERROR" l then "ERROR"
    else if mem "FAIL" l then "FAIL"
    else if mem "WARNING" l then "WARNING"
    else "PASS") = "PASS"
   <-> Forall (fun s => s = "PASS") l).
Proof.
  intros Hknown. split.
  - intros H.
    destruct (mem "ERROR" l) eqn:Ee; [discriminate|].
    destruct (mem "FAIL" l) eqn:Ef; [discriminate|].
    destruct (mem "WARNING" l) eqn:Ew; [discriminate|].
    apply Forall_forall. intros s Hs.
    pose proof (proj1 (Forall_forall _ _) Hknown s Hs) as [[E | [E | E]] | E];
      [exact E | | |]; subst s; exfalso.
    + apply mem_iff in Hs. congruence.
    + apply mem_iff in Hs. congruence.
    + apply mem_iff in Hs. congruence.
  - intros Hall.
    assert (Hno : forall x, x <> "PASS" -> mem x l = false).
    { intros x Hx. destruct (mem x l) eqn:E; [|reflexivity].
      apply mem_iff in E.
      pose proof (proj1 (Forall_forall _ _) Hall x E). contradiction. }
    rewrite !Hno by discriminate. reflexivity.
Qed.

Lemma run_five_count (fv ft ff fp fd : Validator) (sensors : Sensors) :
  snd (fold_left (run_category sensors) (five_categories fv ft ff fp fd) ([], 0))
  = length (filter returned
              [fv sensors; ft sensors; ff sensors; fp sensors; fd sensors]).
Proof.
  unfold five_categories, run_category. simpl.
  destruct (fv sensors), (ft sensors), (ff sensors), (fp sensors), (fd sensors);
    reflexivity.
Qed.

Lemma or5_iff (A1 A2 A3 A4 A5 B1 B2 B3 B4 B5 : Prop) :
  (A1 <-> B1) -> (A2 <-> B2) -> (A3 <-> B3) -> (A4 <-> B4) -> (A5 <-> B5) ->
  (A1 \/ A2 \/ A3 \/ A4 \/ A5 \/ False <-> B1 \/ B2 \/ B3 \/ B4 \/ B5 \/ False).
Proof. tauto. Qed.

Lemma and5_iff (A1 A2 A3 A4 A5 B1 B2 B3 B4 B5 : Prop) :
  (A1 <-> B1) -> (A2 <-> B2) -> (A3 <-> B3) -> (A4 <-> B4) -> (A5 <-> B5) ->
  (A1 /\ A2 /\ A3 /\ A4 /\ A5 /\ True <-> B1 /\ B2 /\ B3 /\ B4 /\ B5 /\ True).
Proof. tauto. Qed.

(** X19. What [perform_full_validation] reports once the readings are
    collected: the report is ERROR exactly when one of the five validators
    raised; it is PASS exactly when all five returned PASS; it counts the
    validators that returned; and its totals are the sums over the five
    category results. *)
Theorem full_validation_overall_status (file now : string) (limits : Limits)
    (sensors : Sensors) :
  let outcomes :=
    [validate_voltage_sensors limits sensors;
     validate_temperature_sensors limits sensors;
     validate_fan_sensors sensors;
     validate_power_sensors sensors;
     validate_discrete_sensors limits sensors] in
  exists report,
    perform_full_validation file now limits (Ok sensors) = Ok report
    /\ (overall_status report = "ERROR" <-> Exists raised outcomes)
    /\ (overall_status report = "PASS"
        <-> Forall (fun o => exists r, o = Ok r /\ vr_status r = "PASS") outcomes)
    /\ categories_checked (summary report) = length (filter returned outcomes)
    /\ total_checked (summary report)
       = list_sum (map (fun kv => actually_checked (snd kv)) (category_results report))
    /\ total_violations (summary report)
       = list_sum (map (fun kv => length (violations (snd kv)))
                       (category_results report)).
Proof.
  intros outcomes.
  pose proof (outcome_status (validate_voltage_sensors limits) sensors
                (fun r H => category_status_known limits sensors r (or_introl H)))
    as (Hv1 & Hv2 & Hv3).
  pose proof (outcome_status (validate_temperature_sensors limits) sensors
                (fun r H => category_status_known limits sensors r
                              (or_intror (or_introl H))))
    as (Ht1 & Ht2 & Ht3).
  pose proof (outcome_status validate_fan_sensors sensors
                (fun r H => category_status_known limits sensors r
                              (or_intror (or_intror (or_introl H)))))
    as (Hf1 & Hf2 & Hf3).
  pose proof (outcome_status validate_power_sensors sensors
                (fun r H => category_status_known limits sensors r
                              (or_intror (or_intror (or_intror (or_introl H))))))
    as (Hp1 & Hp2 & Hp3).
  pose proof (outcome_status (validate_discrete_sensors limits) sensors
                (fun r H => category_status_known limits sensors r
                              (or_intror (or_intror (or_intror (or_intror H))))))
    as (Hd1 & Hd2 & Hd3).
  unfold perform_full_validation, perform_full_validation_with, try_except.
  change [("voltages", validate_voltage_sensors limits);
          ("temperatures", validate_temperature_sensors limits);
          ("fans", validate_fan_sensors); ("power", validate_power_sensors);
          ("discrete", validate_discrete_sensors limits)]
    with (five_categories (validate_voltage_sensors limits)
            (validate_temperature_sensors limits) validate_fan_sensors
            validate_power_sensors (validate_discrete_sensors limits)).
  pose proof (run_five_categories (validate_voltage_sensors limits)
                (validate_temperature_sensors limits) validate_fan_sensors
                validate_power_sensors (validate_discrete_sensors limits) sensors)
    as Hres.
  pose proof (run_five_count (validate_voltage_sensors limits)
                (validate_temperature_sensors limits) validate_fan_sensors
                validate_power_sensors (validate_discrete_sensors limits) sensors)
    as Hcnt.
  destruct (fold_left (run_category sensors) _ _) as [results successful].
  cbn [fst snd] in Hres, Hcnt. rewrite Hres, Hcnt. clear Hres Hcnt.
  eexists. split; [reflexivity|].
  cbn [overall_status summary categories_checked total_checked total_violations
       category_results].
  set (o_v := category_outcome (validate_voltage_sensors limits) sensors) in *.
  set (o_t := category_outcome (validate_temperature_sensors limits) sensors) in *.
  set (o_f := category_outcome validate_fan_sensors sensors) in *.
  set (o_p := category_outcome validate_power_sensors sensors) in *.
  set (o_d := category_outcome (validate_discrete_sensors limits) sensors) in *.
  cbn [dict_values map snd].
  set (statuses := [vr_status o_v; vr_status o_t; vr_status o_f; vr_status o_p;
                    vr_status o_d]).
  assert (Herr : mem "ERROR" statuses = true <-> Exists raised outcomes).
  { rewrite mem_iff. subst statuses outcomes. rewrite !Exists_cons, Exists_nil.
    cbn [In]. apply or5_iff; assumption. }
  split; [|split; [|split; [|split]]].
  - destruct (mem "ERROR" statuses) eqn:E;
      [split; [intros _; now apply Herr | reflexivity]|].
    split; [|intros H; apply Herr in H; discriminate].
    destruct (mem "FAIL" statuses); [discriminate|].
    destruct (mem "WARNING" statuses); discriminate.
  - rewrite validation_overall_pass
      by (subst statuses; repeat (apply Forall_cons; [assumption|]); apply Forall_nil).
    subst statuses outcomes.
    rewrite !Forall_cons_iff, !Forall_nil_iff. apply and5_iff; assumption.
  - reflexivity.
  - unfold sum_nat. cbn [map fold_left list_sum fold_right snd]. lia.
  - unfold sum_nat. cbn [map fold_left list_sum fold_right snd]. lia.
Qed.

End SensorReport.

(** ** The exit status of the validator *)

(** X20. The exit status that [main] derives from a validation report:
    1 exactly for FAIL, 2 exactly for WARNING, and 0 for PASS as well as
    for ERROR; a validation whose sensor collection raised ends with the
    exit status 0. *)
Theorem validation_exit_status {N : Numeric} (file now : string)
    (limits : SensorValidator.Limits) (collected : result SensorValidator.Sensors) :
  exists report,
    SensorValidator.perform_full_validation file now limits collected = Ok report
    /\ (exit_code_of (SensorValidator.overall_status report) = 1%Z
        <-> SensorValidator.overall_status report = "FAIL")
    /\ (exit_code_of (SensorValidator.overall_status report) = 2%Z
        <-> SensorValidator.overall_status report = "WARNING")
    /\ (exit_code_of (SensorValidator.overall_status report) = 0%Z
        <-> SensorValidator.overall_status report = "PASS"
            \/ SensorValidator.overall_status report = "ERROR")
    /\ (raised collected ->
        SensorValidator.overall_status report = "ERROR"
        /\ exit_code_of (SensorValidator.overall_status report) = 0%Z).
Proof.
  assert (Hcode : forall s, In s ["PASS"; "WARNING"; "FAIL"; "ERROR"] ->
            (exit_code_of s = 1%Z <-> s = "FAIL")
            /\ (exit_code_of s = 2%Z <-> s = "WARNING")
            /\ (exit_code_of s = 0%Z <-> s = "PASS" \/ s = "ERROR")).
  { intros s [<- | [<- | [<- | [<- | []]]]]; vm_compute;
      repeat split; intros; try discriminate; try tauto;
      repeat match goal with
             | H : _ \/ _ |- _ => destruct H
             end; discriminate. }
  destruct collected as [sensors | e].
  - unfold SensorValidator.perform_full_validation,
      SensorValidator.perform_full_validation_with, try_except.
    destruct (fold_left (SensorValidator.run_category sensors) _ _)
      as [results successful].
    eexists. split; [reflexivity|].
    cbn [SensorValidator.overall_status].
    destruct (Hcode _ (overall_status_known
                         (map SensorValidator.vr_status (dict_values results))))
      as (H1 & H2 & H0).
    split; [exact H1|]. split; [exact H2|]. split; [exact H0|].
    intros [e E]. discriminate.
  - eexists. split; [reflexivity|]. cbn [SensorValidator.overall_status].
    destruct (Hcode "ERROR") as (H1 & H2 & H0); [simpl; tauto|].
    split; [exact H1|]. split; [exact H2|]. split; [exact H0|].
    intros _. split; reflexivity.
Qed.

(** ** A memory module without a slot name *)

Section LawfulKeys.
Context {K V : Type} `{KeyEq K}.
Hypothesis keqb_eq : forall a b : K, keqb a b = true -> a = b.

Lemma dict_set_has_key (d : dict K V) (k : K) (v : V) :
  In k (dict_keys (dict_set d k v)).
Proof.
  induction d as [|[k0 v0] d IH]; simpl; [now left|].
  destruct (keqb k k0) eqn:E; simpl.
  - left. symmetry. now apply keqb_eq.
  - now right.
Qed.

Lemma dict_set_keeps_keys (d : dict K V) (k k' : K) (v : V) :
  In k' (dict_keys d) -> In k' (dict_keys (dict_set d k v)).
Proof.
  induction d as [|[k0 v0] d IH]; simpl; [tauto|].
  destruct (keqb k k0); simpl; intros [E | Hin]; auto.
Qed.

Lemma dict_of_list_has_key (key : V -> K) (xs : list V) (x : V) :
  In x xs -> In (key x) (dict_keys (dict_of_list key xs)).
Proof.
  unfold dict_of_list. generalize (@nil (K * V)) as d.
  induction xs as [|y xs IH]; simpl; intros d Hin; [destruct Hin|].
  destruct Hin as [-> | Hin]; [|now apply IH].
  assert (Hkeep : forall xs d k,
             In k (dict_keys d) ->
             In k (dict_keys (fold_left (fun d x => dict_set d (key x) x) xs d))).
  { clear. induction xs as [|z xs IHxs]; simpl; intros d k Hk; [exact Hk|].
    apply IHxs. now apply dict_set_keeps_keys. }
  apply Hkeep. apply dict_set_has_key.
Qed.

End LawfulKeys.

Lemma opt_str_eqb_eq (a b : option string) : opt_str_eqb a b = true -> a = b.
Proof.
  destruct a as [x|], b as [y|]; simpl; try discriminate; [|reflexivity].
  intros E. apply String.eqb_eq in E. now subst.
Qed.

Lemma two_members {A : Type} (l : list A) (a b : A) :
  In a l -> In b l -> a <> b -> 2 <= length l.
Proof.
  destruct l as [|x [|y l]]; simpl; intros Ha Hb Hab.
  - destruct Ha.
  - destruct Ha as [-> | []], Hb as [-> | []]. congruence.
  - lia.
Qed.

Lemma sorted_slots_raises (current baseline : list Memory.MemoryModule)
    (unnamed named : Memory.MemoryModule) :
  In unnamed (current ++ baseline) -> Memory.slot unnamed = None ->
  In named (current ++ baseline) -> Memory.slot named <> None ->
  exists msg,
    Memory.sorted_slots
      (Memory.all_slots_of (dict_of_list Memory.slot current)
                           (dict_of_list Memory.slot baseline))
    = Raise (TypeError msg).
Proof.
  intros Hu Eu Hn En.
  assert (Hkey : forall m, In m (current ++ baseline) ->
            In (Memory.slot m)
               (Memory.all_slots_of (dict_of_list Memory.slot current)
                                    (dict_of_list Memory.slot baseline))).
  { intros m Hm. unfold Memory.all_slots_of. apply nodup_In. apply in_or_app.
    apply in_app_or in Hm.
    destruct Hm as [Hm | Hm]; [left | right];
      now apply (dict_of_list_has_key opt_str_eqb_eq). }
  pose proof (Hkey unnamed Hu) as H1. rewrite Eu in H1.
  pose proof (Hkey named Hn) as H2.
  unfold Memory.sorted_slots.
  destruct (existsb Memory.is_none _) eqn:E.
  - destruct (2 <=? length _)%nat eqn:E2; [eauto|].
    apply Nat.leb_gt in E2.
    pose proof (two_members _ _ _ H1 H2) as Hlen.
    assert (None <> Memory.slot named) by congruence. specialize (Hlen H). lia.
  - assert (Htrue : existsb Memory.is_none
                      (Memory.all_slots_of (dict_of_list Memory.slot current)
                                           (dict_of_list Memory.slot baseline))
                    = true)
      by (apply existsb_exists; exists None; split; [exact H1 | reflexivity]).
    congruence.
Qed.

(** X21. A memory module that lacks its slot name, next to one that has
    it, makes the memory comparison raise [TypeError] (the slot names
    cannot be sorted), and [perform_full_diff] raises with it: no report is
    produced. *)
Theorem unnamed_memory_slot_aborts (current baseline : list Memory.MemoryModule)
    (unnamed named : Memory.MemoryModule) :
  In unnamed (current ++ baseline) -> Memory.slot unnamed = None ->
  In named (current ++ baseline) -> Memory.slot named <> None ->
  (exists msg, Memory.compare_memory current baseline = Raise (TypeError msg))
  /\ (forall set_iter now baseline_config current_config,
         HardwareDiff.memory_modules current_config = Some current ->
         HardwareDiff.memory_modules baseline_config = Some baseline ->
         raised (HardwareDiff.perform_full_diff set_iter now baseline_config
                   (Ok current_config))).
Proof.
  intros Hu Eu Hn En.
  destruct (sorted_slots_raises current baseline unnamed named Hu Eu Hn En)
    as [msg Hs].
  assert (Hm : Memory.compare_memory current baseline = Raise (TypeError msg)).
  { unfold Memory.compare_memory.
    destruct (negb (Memory.count_populated current =? Memory.count_populated baseline)%nat);
      destruct (negb (Memory.total_gb current =? Memory.total_gb baseline)%Z);
      cbv zeta; rewrite Hs; reflexivity. }
  split; [eauto|].
  intros set_iter now baseline_config current_config Ec Eb.
  unfold HardwareDiff.perform_full_diff, raised. cbn [bind].
  destruct (HardwareDiff.config_item (HardwareDiff.processors current_config) _)
    as [cc|e1]; cbn [bind]; [|eauto].
  destruct (HardwareDiff.config_item (HardwareDiff.processors baseline_config) _)
    as [bc|e2]; cbn [bind]; [|eauto].
  destruct (Processors.compare_processors set_iter cc bc) as [cpu|e3];
    cbn [bind]; [|eauto].
  rewrite Ec, Eb. cbn [HardwareDiff.config_item bind]. rewrite Hm.
  cbn [bind]. eauto.
Qed.

Lemma unnamed_memory_slot_aborts_witness :
  exists msg,
    Memory.compare_memory
      [{| Memory.slot := None; Memory.size := Some "32 GB";
          Memory.populated := Some true |}]
      dimms_128
    = Raise (TypeError msg).
Proof.
  apply (unnamed_memory_slot_aborts
           [{| Memory.slot := None; Memory.size := Some "32 GB";
               Memory.populated := Some true |}]
           dimms_128
           {| Memory.slot := None; Memory.size := Some "32 GB";
              Memory.populated := Some true |}
           (dimm "DIMM_A1" "32 GB" true)).
  - now left.
  - reflexivity.
  - right. now left.
  - discriminate.
Defined.

(** ** A changed number of processors *)

(** X22. When the processor comparison returns and the two lists differ
    in length, the status is FAIL and the first difference is the count
    mismatch. *)
Theorem processor_count_mismatch_fails (set_iter : list string -> list string)
    (current baseline : list Processors.Processor) (r : Processors.DiffResult) :
  Processors.compare_processors set_iter current baseline = Ok r ->
  length current <> length baseline ->
  Processors.status r = "FAIL"
  /\ hd_error (Processors.differences r)
     = Some (fstr ["CPU count mismatch: current="; str_of_nat (length current);
                   ", baseline="; str_of_nat (length baseline)]).
Proof.
  unfold Processors.compare_processors. intros H Hlen.
  apply Nat.eqb_neq in Hlen. rewrite Hlen in H. cbn [negb] in H.
  destruct (dict_by_key Processors.socket "socket" baseline []) as [bs|];
    cbn [bind] in H; [|discriminate].
  destruct (dict_by_key Processors.socket "socket" current []) as [cs|];
    cbn [bind] in H; [|discriminate].
  destruct (fold_result _ _ _) as [st|] eqn:E; cbn [bind] in H; [|discriminate].
  apply Ok_injective in H. subst r.
  cbn [Processors.status Processors.differences].
  set (msg := fstr ["CPU count mismatch: current="; str_of_nat (length current);
                    ", baseline="; str_of_nat (length baseline)]) in *.
  apply (fold_result_invariant _
           (fun st => Processors.st_status st = "FAIL"
                      /\ hd_error (Processors.st_differences st) = Some msg)
           _ _ _) in E; [exact E | | split; reflexivity].
  clear. intros s k s' [Hs Hd] H.
  assert (Happ : forall extra,
             hd_error (Processors.st_differences s ++ extra) = Some msg).
  { intros extra. destruct (Processors.st_differences s); [discriminate|exact Hd]. }
  unfold Processors.compare_socket in H.
  destruct (dict_get cs k) as [cur|].
  - destruct (dict_get bs k) as [base|].
    + destruct (negb (opt_str_eqb _ _)); cbv zeta in H;
        (destruct (Processors.check_cores cur base); cbn [bind] in H;
         [|discriminate]);
        destruct (negb (Processors.opt_count_eqb _ _));
        apply Ok_injective in H; subst s';
        cbn [Processors.st_status Processors.st_differences];
        rewrite ?Hs, <- ?app_assoc, ?Happ; split; try reflexivity; exact Hd.
    + apply Ok_injective in H. subst s'.
      cbn [Processors.st_status Processors.st_differences].
      rewrite Hs, Happ. split; reflexivity.
  - apply Ok_injective in H. subst s'.
    cbn [Processors.st_status Processors.st_differences].
    rewrite Hs, Happ. split; reflexivity.
Qed.

Lemma processor_count_mismatch_fails_witness :
  exists r,
    Processors.compare_processors reverse_order
      [cpu "CPU0" xeon (Some (Processors.CInt 32)) (Some (Processors.CInt 64))]
      example_cpus = Ok r
    /\ Processors.status r = "FAIL"
    /\ hd_error (Processors.differences r)
       = Some "CPU count mismatch: current=1, baseline=2".
Proof.
  eexists. split; [vm_compute; reflexivity|].
  apply (processor_count_mismatch_fails reverse_order
           [cpu "CPU0" xeon (Some (Processors.CInt 32)) (Some (Processors.CInt 64))]
           example_cpus).
  - vm_compute. reflexivity.
  - simpl. lia.
Defined.

(** ** Reading a memory size *)

Lemma is_digit_cases (c : ascii) :
  is_digit c = true ->
  In c ["0"; "1"; "2"; "3"; "4"; "5"; "6"; "7"; "8"; "9"]%char.
Proof.
  destruct c as [[] [] [] [] [] [] [] []]; intros H; vm_compute in H;
    try discriminate H; simpl; auto 12.
Qed.

(** Replaces a digit by each of the ten characters it can be. *)
Ltac digit_char c H :=
  destruct (is_digit_cases c H)
    as [<-|[<-|[<-|[<-|[<-|[<-|[<-|[<-|[<-|[<-|[]]]]]]]]]]].

Lemma String_discr (c : ascii) (s : string) : String c s <> "".
Proof. discriminate. Qed.

Lemma append_assoc (a b c : string) :
  ((a ++ b) ++ c)%string = (a ++ (b ++ c))%string.
Proof. induction a as [|x a IH]; simpl; [reflexivity | now rewrite IH]. Qed.

Lemma append_empty_r (a : string) : (a ++ "")%string = a.
Proof. induction a as [|x a IH]; simpl; [reflexivity | now rewrite IH]. Qed.

Lemma rev_string_acc_spec (s acc : string) :
  rev_string_acc s acc = (rev_string s ++ acc)%string.
Proof.
  unfold rev_string. revert acc. induction s as [|c s IH]; intros acc; simpl.
  - reflexivity.
  - rewrite IH, (IH (String c "")), append_assoc. reflexivity.
Qed.

Lemma rev_string_cons (c : ascii) (s : string) :
  rev_string (String c s) = (rev_string s ++ String c "")%string.
Proof. unfold rev_string at 1. simpl. apply rev_string_acc_spec. Qed.

Lemma rev_string_app (a b : string) :
  rev_string (a ++ b)%string = (rev_string b ++ rev_string a)%string.
Proof.
  induction a as [|c a IH]; simpl.
  - now rewrite append_empty_r.
  - now rewrite !rev_string_cons, IH, append_assoc.
Qed.

Lemma rev_string_involutive (s : string) : rev_string (rev_string s) = s.
Proof.
  induction s as [|c s IH]; [reflexivity|].
  rewrite rev_string_cons, rev_string_app, IH. reflexivity.
Qed.

Lemma all_chars_app (p : ascii -> bool) (a b : string) :
  all_chars p (a ++ b)%string = all_chars p a && all_chars p b.
Proof.
  induction a as [|c a IH]; simpl; [reflexivity|].
  now rewrite IH, andb_assoc.
Qed.

Lemma all_chars_rev (p : ascii -> bool) (s : string) :
  all_chars p (rev_string s) = all_chars p s.
Proof.
  induction s as [|c s IH]; [reflexivity|].
  rewrite rev_string_cons, all_chars_app, IH. simpl.
  rewrite andb_true_r. apply andb_comm.
Qed.

(** The last character of a run of digits is a digit. *)
Lemma rev_digits (d : string) :
  isdigit d = true ->
  exists c r, rev_string d = String c r /\ is_digit c = true.
Proof.
  intros H. destruct d as [|c d]; [discriminate|]. unfold isdigit in H.
  rewrite <- all_chars_rev in H.
  destruct (rev_string (String c d)) as [|c' r] eqn:E.
  - rewrite rev_string_cons in E. destruct (rev_string d); discriminate.
  - simpl in H. apply andb_true_iff in H. destruct H. now exists c', r.
Qed.

(** Nothing is stripped from a text that neither starts nor ends with a
    blank. *)
Lemma strip_class_id (p : ascii -> bool) (s : string) :
  (exists c x, s = String c x /\ p c = false) ->
  (exists c x, rev_string s = String c x /\ p c = false) ->
  strip_class p s = s.
Proof.
  intros (c & x & -> & Hc) (c' & x' & E & Hc').
  unfold strip_class, rstrip_class. cbn [lstrip_class]. rewrite Hc, E.
  cbn [lstrip_class]. rewrite Hc', <- E. apply rev_string_involutive.
Qed.

Lemma upper_append (a b : string) :
  upper (a ++ b)%string = (upper a ++ upper b)%string.
Proof.
  unfold upper. induction a as [|c a IH]; simpl; [reflexivity | now rewrite IH].
Qed.

Lemma upper_digits (d : string) : all_chars is_digit d = true -> upper d = d.
Proof.
  unfold upper. induction d as [|c d IH]; simpl; [reflexivity|].
  intros H. apply andb_true_iff in H. destruct H as [Hc Hd].
  rewrite (IH Hd). f_equal. digit_char c Hc; reflexivity.
Qed.

Lemma digit_group_digits (d : string) (prev : bool) :
  all_chars is_digit d = true -> (prev = true \/ d <> "") ->
  digit_group d prev = Some d.
Proof.
  revert prev. induction d as [|c d IH]; intros prev H Hne.
  - destruct Hne as [-> | Hne]; [reflexivity | contradiction].
  - simpl in H. apply andb_true_iff in H. destruct H as [Hc Hd].
    cbn [digit_group]. rewrite Hc, (IH true Hd) by now left. reflexivity.
Qed.

(** [int] reads a run of digits as its value, up to the limit on their
    number. *)
Lemma int_of_digits (d : string) :
  isdigit d = true ->
  int_of_string d
  = if (max_str_digits <? String.length d)%nat then None
    else Some (digits_value d 0).
Proof.
  intros H. destruct (rev_digits d H) as (c' & r & Erev & Hc').
  destruct d as [|c d]; [discriminate|].
  unfold isdigit in H. pose proof H as Hall.
  simpl in H. apply andb_true_iff in H. destruct H as [Hc Hd].
  unfold int_of_string. rewrite strip_class_id.
  - pose proof (digit_group_digits (String c d) false Hall
                  (or_intror (@String_discr c d))) as Hg.
    digit_char c Hc; cbv beta iota zeta; rewrite Hg; reflexivity.
  - exists c, d. split; [reflexivity|]. digit_char c Hc; reflexivity.
  - exists c', r. split; [exact Erev|]. digit_char c' Hc'; reflexivity.
Qed.

(** A unit after the digits is found and removed. *)
Lemma replace_unit (d u : string) :
  all_chars is_digit d = true ->
  (exists c x, u = String c x /\ is_digit c = false) ->
  replace_from u "" u 0 = "" ->
  replace (d ++ u) u "" = d.
Proof.
  intros Hd (cu & xu & -> & Hcu) Hend. unfold replace.
  induction d as [|c d IH]; [exact Hend|].
  simpl in Hd. apply andb_true_iff in Hd. destruct Hd as [Hc Hd].
  cbn [String.append replace_from String.prefix].
  destruct (ascii_dec cu c) as [-> | _]; [congruence|].
  now rewrite (IH Hd).
Qed.

Lemma digits_with_unit (d u : string) :
  isdigit d = true -> upper u = u ->
  (u = "" \/ exists c x, rev_string u = String c x /\ is_space c = false) ->
  (String.eqb (d ++ u) "" || String.eqb (d ++ u) "No Module Installed") = false
  /\ upper (strip (d ++ u)) = (d ++ u)%string.
Proof.
  intros H Hu Hrev. destruct (rev_digits d H) as (c' & r & Erev & Hc').
  destruct d as [|c d]; [discriminate|].
  unfold isdigit in H. pose proof H as Hall.
  simpl in H. apply andb_true_iff in H. destruct H as [Hc Hd].
  split.
  - cbn [String.append String.eqb]. digit_char c Hc; reflexivity.
  - unfold strip. rewrite strip_class_id.
    + now rewrite upper_append, (upper_digits _ Hall), Hu.
    + exists c, (d ++ u)%string. split; [reflexivity|].
      digit_char c Hc; reflexivity.
    + rewrite rev_string_app. destruct Hrev as [-> | (cu & xu & E & Hcu)].
      * exists c', r. split; [now rewrite Erev|]. digit_char c' Hc'; reflexivity.
      * rewrite E. exists cu, (xu ++ rev_string (String c d))%string.
        split; [reflexivity | exact Hcu].
Qed.

Lemma endswith_unit (d u : string) :
  isdigit d = true ->
  exists c r, is_digit c = true
              /\ forall s, endswith (d ++ u) s
                           = String.prefix (rev_string s)
                                           (rev_string u ++ String c r).
Proof.
  intros H. destruct (rev_digits d H) as (c & r & Erev & Hc).
  exists c, r. split; [exact Hc|]. intros s. unfold endswith.
  now rewrite rev_string_app, Erev.
Qed.

Lemma digits_value_of_uint (d : Decimal.uint) (acc : nat) :
  digits_value (NilEmpty.string_of_uint d) (Z.of_nat acc)
  = Z.of_nat (Nat.of_uint_acc d acc).
Proof.
  revert acc. induction d; intros acc; cbn [NilEmpty.string_of_uint digits_value
                                            Nat.of_uint_acc];
    [reflexivity | ..];
    rewrite <- IHd; f_equal; rewrite Nat.tail_mul_spec;
    match goal with
    | |- context [digit_val ?c] =>
        let v := eval vm_compute in (digit_val c) in change (digit_val c) with v
    end; lia.
Qed.

Lemma all_digits_of_uint (d : Decimal.uint) :
  all_chars is_digit (NilEmpty.string_of_uint d) = true.
Proof. induction d; simpl; auto. Qed.

(** [str(n)] is a run of digits whose value is [n]. *)
Lemma str_of_nat_digits (n : nat) :
  isdigit (str_of_nat n) = true
  /\ digits_value (str_of_nat n) 0 = Z.of_nat n.
Proof.
  unfold str_of_nat.
  pose proof (Unsigned.of_to n) as Hn. unfold Nat.of_uint in Hn.
  set (u := Nat.to_uint n) in *. rewrite <- Hn. clear Hn.
  destruct u as [|u|u|u|u|u|u|u|u|u|u]; [split; reflexivity | ..];
    (split;
     [exact (all_digits_of_uint _)
     | exact (digits_value_of_uint _ 0)]).
Qed.

(** Decides the tests on literal prefixes. *)
Ltac eval_prefix :=
  repeat match goal with
         | |- context [String.prefix ?a ?b] =>
             let v := eval vm_compute in (String.prefix a b) in
             change (String.prefix a b) with v
         end;
  cbv iota.

Lemma parse_digits_with_unit (d : string) :
  isdigit d = true ->
  let value :=
    if (max_str_digits <? String.length d)%nat then 0%Z else digits_value d 0 in
  Memory.parse_memory_size (d ++ " GB") = value
  /\ Memory.parse_memory_size (d ++ "GB") = value
  /\ Memory.parse_memory_size (d ++ " MB") = (value / 1024)%Z
  /\ Memory.parse_memory_size (d ++ "MB") = (value / 1024)%Z
  /\ Memory.parse_memory_size d = value.
Proof.
  intros H value. pose proof (int_of_digits d H) as Hint.
  assert (Hall : all_chars is_digit d = true)
    by (destruct d; [discriminate | exact H]).
  assert (Hunit : forall u,
             upper u = u ->
             (u = "" \/ exists c x, rev_string u = String c x /\ is_space c = false) ->
             exists c r,
               is_digit c = true
               /\ Memory.parse_memory_size (d ++ u)
                  = (let size_str := (d ++ u)%string in
                     let ends s := String.prefix (rev_string s)
                                     (rev_string u ++ String c r) in
                     if ends " GB" then Memory.int_or_zero (replace size_str " GB" "")
                     else if ends "GB"
                     then Memory.int_or_zero (replace size_str "GB" "")
                     else if ends " MB" then
                       match int_of_string (replace size_str " MB" "") with
                       | Some mb_value => (mb_value / 1024)%Z
                       | None => 0%Z
                       end
                     else if ends "MB" then
                       match int_of_string (replace size_str "MB" "") with
                       | Some mb_value => (mb_value / 1024)%Z
                       | None => 0%Z
                       end
                     else if isdigit size_str then Memory.int_or_zero size_str
                     else
                       match first_number size_str with
                       | Some n => Memory.int_or_zero n
                       | None => 0%Z
                       end)).
  { intros u Hu Hrev.
    destruct (digits_with_unit d u H Hu Hrev) as [Hspec Hup].
    destruct (endswith_unit d u H) as (c & r & Hc & Hends).
    exists c, r. split; [exact Hc|].
    unfold Memory.parse_memory_size. rewrite Hspec, Hup. cbv zeta.
    rewrite !Hends. reflexivity. }
  assert (Hgb : forall u, (exists c x, u = String c x /\ is_digit c = false) ->
                  replace_from u "" u 0 = "" ->
                  Memory.int_or_zero (replace (d ++ u) u "") = value).
  { intros u Hu Hend. rewrite (replace_unit d u Hall Hu Hend).
    unfold Memory.int_or_zero, value. rewrite Hint.
    now destruct (max_str_digits <? String.length d)%nat. }
  assert (Hmb : forall u, (exists c x, u = String c x /\ is_digit c = false) ->
                  replace_from u "" u 0 = "" ->
                  match int_of_string (replace (d ++ u) u "") with
                  | Some mb_value => (mb_value / 1024)%Z
                  | None => 0%Z
                  end = (value / 1024)%Z).
  { intros u Hu Hend. rewrite (replace_unit d u Hall Hu Hend).
    unfold value. rewrite Hint.
    now destruct (max_str_digits <? String.length d)%nat. }
  split; [|split; [|split; [|split]]].
  - destruct (Hunit " GB" eq_refl) as (c & r & Hc & ->);
      [right; exists "B"%char, "G "; split; reflexivity|].
    cbv zeta. digit_char c Hc; eval_prefix;
      (apply Hgb; [exists " "%char, "GB"; split; reflexivity | reflexivity]).
  - destruct (Hunit "GB" eq_refl) as (c & r & Hc & ->);
      [right; exists "B"%char, "G"; split; reflexivity|].
    cbv zeta. digit_char c Hc; eval_prefix;
      (apply Hgb; [exists "G"%char, "B"; split; reflexivity | reflexivity]).
  - destruct (Hunit " MB" eq_refl) as (c & r & Hc & ->);
      [right; exists "B"%char, "M "; split; reflexivity|].
    cbv zeta. digit_char c Hc; eval_prefix;
      (apply Hmb; [exists " "%char, "MB"; split; reflexivity | reflexivity]).
  - destruct (Hunit "MB" eq_refl) as (c & r & Hc & ->);
      [right; exists "B"%char, "M"; split; reflexivity|].
    cbv zeta. digit_char c Hc; eval_prefix;
      (apply Hmb; [exists "M"%char, "B"; split; reflexivity | reflexivity]).
  - destruct (Hunit "" eq_refl) as (c & r & Hc & E); [now left|].
    rewrite append_empty_r in E. rewrite E. cbv zeta.
    digit_char c Hc; eval_prefix; rewrite H;
      unfold Memory.int_or_zero, value; rewrite Hint;
      now destruct (max_str_digits <? String.length d)%nat.
Qed.

(** X23. Reading a memory size: for every natural number [n] written with
    at most 4300 digits the texts "<n> GB" and "<n>GB" are read as [n], the
    texts "<n> MB" and "<n>MB" as [n] divided by 1024 and rounded down, and
    the bare number as [n]; with more digits [int] raises [ValueError] and
    all five are read as 0. An empty text and "No Module Installed" are
    read as 0. *)
Theorem parse_memory_size_of_number (n : nat) :
  let value :=
    if (max_str_digits <? String.length (str_of_nat n))%nat then 0%Z
    else Z.of_nat n in
  Memory.parse_memory_size (str_of_nat n ++ " GB") = value
  /\ Memory.parse_memory_size (str_of_nat n ++ "GB") = value
  /\ Memory.parse_memory_size (str_of_nat n ++ " MB") = (value / 1024)%Z
  /\ Memory.parse_memory_size (str_of_nat n ++ "MB") = (value / 1024)%Z
  /\ Memory.parse_memory_size (str_of_nat n) = value
  /\ Memory.parse_memory_size "" = 0%Z
  /\ Memory.parse_memory_size "No Module Installed" = 0%Z.
Proof.
  intros value. destruct (str_of_nat_digits n) as [Hd Hv].
  destruct (parse_digits_with_unit (str_of_nat n) Hd) as (H1 & H2 & H3 & H4 & H5).
  rewrite Hv in H1, H2, H3, H4, H5.
  repeat split; assumption || reflexivity.
Qed.

(** ** What makes the memory comparison fail *)

Lemma memory_slots_never_fail
    (current_slots baseline_slots : dict (option string) Memory.MemoryModule)
    (keys : list (option string)) (st : Memory.LoopState) :
  Memory.st_status st = "PASS" \/ Memory.st_status st = "WARNING" ->
  Memory.st_status
    (fold_left (Memory.compare_slot current_slots baseline_slots) keys st) = "PASS"
  \/ Memory.st_status
       (fold_left (Memory.compare_slot current_slots baseline_slots) keys st)
     = "WARNING".
Proof.
  apply (fold_left_invariant _
           (fun st => Memory.st_status st = "PASS" \/ Memory.st_status st = "WARNING")
           (fun _ => True)); [|trivial].
  intros st' k _ Hst. unfold Memory.compare_slot.
  destruct (Bool.eqb _ _); simpl; [exact Hst|].
  right. destruct Hst as [-> | ->]; reflexivity.
Qed.

(** X24. Whenever the memory comparison returns, it is FAIL exactly when
    the total capacities differ: a changed number of populated slots or a
    slot that changed its population never gives more than WARNING.  It
    is PASS only if both the capacities and the numbers of populated slots
    agree. *)
Theorem memory_fails_only_on_capacity (current baseline : list Memory.MemoryModule)
    (r : Memory.DiffResult) :
  Memory.compare_memory current baseline = Ok r ->
  (Memory.status r = "FAIL" <-> Memory.total_gb current <> Memory.total_gb baseline)
  /\ (Memory.status r = "PASS" ->
      Memory.total_gb current = Memory.total_gb baseline
      /\ Memory.count_populated current = Memory.count_populated baseline).
Proof.
  unfold Memory.compare_memory. intros H.
  destruct (Nat.eqb_spec (Memory.count_populated current)
                         (Memory.count_populated baseline)) as [Ec | Ec];
    destruct (Z.eqb_spec (Memory.total_gb current) (Memory.total_gb baseline))
      as [Et | Et];
    cbn [negb] in H; cbv zeta in H;
    (destruct (Memory.sorted_slots _) as [slots|]; cbn [bind] in H;
     [|discriminate]);
    apply Ok_injective in H; subst r; cbn [Memory.status].
  - destruct (memory_slots_never_fail (dict_of_list Memory.slot current)
                (dict_of_list Memory.slot baseline) slots
                {| Memory.st_status := "PASS"; Memory.st_differences := [];
                   Memory.st_slots := [] |} (or_introl eq_refl)) as [-> | ->];
      (split; [split; [discriminate | contradiction] | now split]).
  - match goal with
    | |- context [fold_left ?f ?l ?st] =>
        rewrite (memory_slots_keep_status _ _ l st "FAIL" (or_intror eq_refl) eq_refl)
    end.
    split; [split; [now intros _ | reflexivity] | discriminate].
  - match goal with
    | |- context [fold_left ?f ?l ?st] =>
        rewrite (memory_slots_keep_status _ _ l st "WARNING" (or_introl eq_refl)
                   eq_refl)
    end.
    split; [split; [discriminate | contradiction] | discriminate].
  - match goal with
    | |- context [fold_left ?f ?l ?st] =>
        rewrite (memory_slots_keep_status _ _ l st "FAIL" (or_intror eq_refl) eq_refl)
    end.
    split; [split; [now intros _ | reflexivity] | discriminate].
Qed.

Lemma memory_fails_only_on_capacity_witness :
  exists r,
    Memory.compare_memory dimms_3_slots dimms_128 = Ok r
    /\ (Memory.status r = "FAIL"
        <-> Memory.total_gb dimms_3_slots <> Memory.total_gb dimms_128)
    /\ (Memory.status r = "PASS" ->
        Memory.total_gb dimms_3_slots = Memory.total_gb dimms_128
        /\ Memory.count_populated dimms_3_slots = Memory.count_populated dimms_128).
Proof.
  eexists. split; [vm_compute; reflexivity|].
  apply (memory_fails_only_on_capacity dimms_3_slots dimms_128).
  vm_compute. reflexivity.
Defined.

(** ** What a report needs *)

(** X25. [perform_full_diff] returns a report only if the baseline and the
    current configuration both carry all six component lists and the
    current configuration carries its scan date; a baseline written
    without the riser list, for one, yields no report. *)
Theorem report_needs_every_component (set_iter : list string -> list string)
    (now : string) (baseline_config current_config : HardwareDiff.Config)
    (report : HardwareDiff.DiffReport) :
  HardwareDiff.perform_full_diff set_iter now baseline_config (Ok current_config)
  = Ok report ->
  let complete (c : HardwareDiff.Config) :=
    HardwareDiff.processors c <> None
    /\ HardwareDiff.memory_modules c <> None
    /\ HardwareDiff.pci_devices c <> None
    /\ HardwareDiff.usb_devices c <> None
    /\ HardwareDiff.storage_devices c <> None
    /\ HardwareDiff.riser_cards c <> None in
  complete baseline_config
  /\ complete current_config
  /\ HardwareDiff.scan_date current_config <> None
  /\ HardwareDiff.current_config report = current_config.
Proof.
  intros H complete. subst complete. cbv beta.
  unfold HardwareDiff.perform_full_diff in H. cbn [bind] in H.
  destruct (HardwareDiff.processors current_config); cbn [HardwareDiff.config_item bind] in H;
    [|discriminate].
  destruct (HardwareDiff.processors baseline_config); cbn [HardwareDiff.config_item bind] in H;
    [|discriminate].
  destruct (Processors.compare_processors _ _ _); cbn [bind] in H; [|discriminate].
  destruct (HardwareDiff.memory_modules current_config);
    cbn [HardwareDiff.config_item bind] in H; [|discriminate].
  destruct (HardwareDiff.memory_modules baseline_config);
    cbn [HardwareDiff.config_item bind] in H; [|discriminate].
  destruct (Memory.compare_memory _ _); cbn [bind] in H; [|discriminate].
  destruct (HardwareDiff.pci_devices current_config);
    cbn [HardwareDiff.config_item bind] in H; [|discriminate].
  destruct (HardwareDiff.pci_devices baseline_config);
    cbn [HardwareDiff.config_item bind] in H; [|discriminate].
  destruct (Pci.compare_pci_devices _ _ _); cbn [bind] in H; [|discriminate].
  destruct (HardwareDiff.usb_devices current_config);
    cbn [HardwareDiff.config_item bind] in H; [|discriminate].
  destruct (HardwareDiff.usb_devices baseline_config);
    cbn [HardwareDiff.config_item bind] in H; [|discriminate].
  destruct (HardwareDiff.storage_devices current_config);
    cbn [HardwareDiff.config_item bind] in H; [|discriminate].
  destruct (HardwareDiff.storage_devices baseline_config);
    cbn [HardwareDiff.config_item bind] in H; [|discriminate].
  destruct (Storage.compare_storage_devices _ _ _); cbn [bind] in H; [|discriminate].
  destruct (HardwareDiff.riser_cards current_config);
    cbn [HardwareDiff.config_item bind] in H; [|discriminate].
  destruct (HardwareDiff.riser_cards baseline_config);
    cbn [HardwareDiff.config_item bind] in H; [|discriminate].
  destruct (HardwareDiff.scan_date current_config);
    cbn [HardwareDiff.config_item bind] in H; [|discriminate].
  apply Ok_injective in H. subst report.
  repeat split; discriminate.
Qed.

Lemma report_needs_every_component_witness :
  exists report,
    HardwareDiff.perform_full_diff stored_order "2024-03-01 10:00:00"
      example_baseline_config (Ok changed_config) = Ok report
    /\ HardwareDiff.riser_cards example_baseline_config <> None
    /\ HardwareDiff.scan_date changed_config <> None
    /\ HardwareDiff.current_config report = changed_config.
Proof.
  eexists. split; [vm_compute; reflexivity|].
  match goal with
  | |- _ /\ _ /\ HardwareDiff.current_config ?r = _ =>
      destruct (report_needs_every_component stored_order "2024-03-01 10:00:00"
                  example_baseline_config changed_config r)
        as ((_ & _ & _ & _ & _ & Hr) & _ & Hd & Hc)
  end.
  - vm_compute. reflexivity.
  - split; [exact Hr|]. split; [exact Hd | exact Hc].
Defined.

(** ** Comments in the limits *)

Section Comments.
Context {N : Numeric}.

Import SensorValidator.

Lemma fold_result_skips {A S : Type} (body : S -> A -> result S)
    (skip : A -> bool) (l : list A) (st : S) :
  (forall s a, skip a = true -> body s a = Ok s) ->
  fold_result body l st
  = fold_result body (filter (fun a => negb (skip a)) l) st.
Proof.
  intros Hskip. revert st. induction l as [|a l IH]; intros st; [reflexivity|].
  cbn [filter]. destruct (skip a) eqn:E; cbn [negb].
  - cbn [fold_result]. rewrite (Hskip st a E). cbn [bind]. apply IH.
  - cbn [fold_result]. destruct (body st a); cbn [bind]; [apply IH | reflexivity].
Qed.

Lemma fold_result_ext {A S : Type} (f g : S -> A -> result S)
    (l : list A) (st : S) :
  (forall s a, f s a = g s a) -> fold_result f l st = fold_result g l st.
Proof.
  intros Hfg. revert st. induction l as [|a l IH]; intros st; [reflexivity|].
  cbn [fold_result]. rewrite <- Hfg.
  destruct (f st a); cbn [bind]; [apply IH | reflexivity].
Qed.

(** X26. The entries stored under the key [comment] in the voltage and
    temperature limits take no part in the validation: the results are
    those for the limits without them. *)
Theorem comment_entries_are_ignored (limits : Limits) (sensors : Sensors) :
  let named {A : Type} (d : option (dict string A)) :=
    option_map (filter (fun kv => negb (String.eqb (fst kv) "comment"))) d in
  let stripped :=
    {| board_model := board_model limits;
       voltage_limits := named (voltage_limits limits);
       temperature_limits := named (temperature_limits limits);
       discrete_sensors := discrete_sensors limits;
       validation_rules := validation_rules limits |} in
  validate_voltage_sensors limits sensors = validate_voltage_sensors stripped sensors
  /\ validate_temperature_sensors limits sensors
     = validate_temperature_sensors stripped sensors.
Proof.
  intros named stripped. subst named stripped.
  unfold validate_voltage_sensors, validate_temperature_sensors.
  cbn [voltage_limits temperature_limits]. split.
  - destruct (voltage_limits limits) as [d|]; cbn [option_map]; [|reflexivity].
    rewrite (fold_result_skips (voltage_step sensors)
               (fun kv => String.eqb (fst kv) "comment")); [reflexivity|].
    intros s [k v] E. cbn [fst] in E. unfold voltage_step. now rewrite E.
  - destruct (temperature_limits limits) as [d|]; cbn [option_map]; [|reflexivity].
    assert (Hstep : forall kv s,
               temperature_step limits sensors s kv
               = temperature_step
                   {| board_model := board_model limits;
                      voltage_limits :=
                        option_map
                          (filter (fun kv => negb (String.eqb (fst kv) "comment")))
                          (voltage_limits limits);
                      temperature_limits :=
                        Some (filter (fun kv => negb (String.eqb (fst kv) "comment")) d);
                      discrete_sensors := discrete_sensors limits;
                      validation_rules := validation_rules limits |}
                   sensors s kv) by reflexivity.
    rewrite (fold_result_skips (temperature_step limits sensors)
               (fun kv => String.eqb (fst kv) "comment")).
    + match goal with
      | |- bind (fold_result ?f ?l ?s) _ = bind (fold_result ?g ?l ?s) _ =>
          rewrite (fold_result_ext f g l s) by (intros; apply Hstep)
      end.
      reflexivity.
    + intros s [k v] E. cbn [fst] in E. unfold temperature_step. now rewrite E.
Qed.

End Comments.
